(** * ForestSensAPI: the upload and batch-orchestration client

    A shallow embedding of [src/ForestSensAPI/api.py].  The client is
    glue around four outside worlds: the job-control REST API (reached
    through [requests]), the OCI object-storage transport, the local
    filesystem and the standard output / the logger.  Every call into
    one of them is a field of the record [World]; everything the client
    does to them is recorded as an [event].  The Python of the source is
    then a program in a small monad of traces and exceptions; the code
    that runs in the threads of the upload pool is a [Thread] of actions,
    and a run of the pool interleaves the threads as a schedule says. *)

From Stdlib Require Import Ascii String.
From stdpp Require Import base gmap list strings pretty.

Set Warnings "-register-all".

(** ** Python values *)

(** JSON documents and the dictionaries the client builds are Python
    objects; only the shapes the source inspects are distinguished. *)
Inductive pyval :=
| VNone
| VBool (b : bool)
| VInt (z : Z)
| VStr (s : string)
| VList (l : list pyval)
| VDict (d : gmap string pyval).

(** Python truthiness ([if not x]). *)
Definition truthy (v : pyval) : bool :=
  match v with
  | VNone => false
  | VBool b => b
  | VInt z => negb (z =? 0)%Z
  | VStr s => negb (String.eqb s "")
  | VList l => match l with [] => false | _ => true end
  | VDict d => negb (bool_decide (d = ∅))
  end.

(** An f-string before rendering: literal text and interpolated values. *)
Inductive fpart :=
| Lit (s : string)
| Fmt (v : pyval).

(** ** Exceptions *)

(** Instances of [Exception].  [RequestException] stands for
    [requests.exceptions.RequestException] and all of its subclasses.
    (Exceptions outside [Exception], such as [KeyboardInterrupt], are
    not raised by the libraries the client calls.) *)
Inductive exn_class :=
| ImportError | IndexError | KeyError | TypeError | AttributeError
| ValueError | ZeroDivisionError | OverflowError | UnicodeEncodeError
| OSError | RequestException
| OtherException.

(** [exn_str e] is [str(e)]. *)
Record exn := Exn { exn_class_of : exn_class; exn_str : string }.

Inductive Exc (A : Type) :=
| Ok (a : A)
| Raise (e : exn).
Arguments Ok {A} a.
Arguments Raise {A} e.

Definition is_request_exception (e : exn) : bool :=
  match exn_class_of e with RequestException => true | _ => false end.

(** ** Python [str] and [list] primitives used by the source *)

Module PyStr.

Fixpoint lstrip (c : ascii) (s : string) : string :=
  match s with
  | String a s' => if Ascii.eqb a c then lstrip c s' else s
  | EmptyString => EmptyString
  end.

Definition rstrip (c : ascii) (s : string) : string :=
  String.rev (lstrip c (String.rev s)).

Definition strip (c : ascii) (s : string) : string :=
  rstrip c (lstrip c s).

(** [s.split(c)]: the empty string splits into one empty part. *)
Fixpoint split (c : ascii) (s : string) : list string :=
  match s with
  | EmptyString => [EmptyString]
  | String a s' =>
      if Ascii.eqb a c then EmptyString :: split c s'
      else match split c s' with
           | p :: ps => String a p :: ps
           | [] => [String a EmptyString]
           end
  end.

(** [sep.join(l)] *)
Definition join (sep : string) (l : list string) : string :=
  String.concat sep l.

(** [s.replace(a, b)] for one-character [a] and [b]. *)
Fixpoint replace (a b : ascii) (s : string) : string :=
  match s with
  | EmptyString => EmptyString
  | String x s' => String (if Ascii.eqb x a then b else x) (replace a b s')
  end.

End PyStr.

Definition slash : ascii := "/"%char.
Definition backslash : ascii := "\"%char.
(** carriage return and line feed *)
Definition CR : string := String "013"%char EmptyString.
Definition LF : string := String "010"%char EmptyString.

(** [l[i]] for a non-negative literal index. *)
Definition py_index {A} (l : list A) (i : nat) : Exc A :=
  match l !! i with
  | Some x => Ok x
  | None => Raise (Exn IndexError "list index out of range")
  end.

(** [type(v).__name__] *)
Definition type_name (v : pyval) : string :=
  match v with
  | VNone => "NoneType"
  | VBool _ => "bool"
  | VInt _ => "int"
  | VStr _ => "str"
  | VList _ => "list"
  | VDict _ => "dict"
  end.

Definition no_attribute (v : pyval) (attr : string) : exn :=
  Exn AttributeError
      ("'" +:+ type_name v +:+ "' object has no attribute '" +:+ attr +:+ "'").

(** [d[k]] on an arbitrary object with a string key (the messages are
    those of CPython 3.11). *)
Definition py_getitem (v : pyval) (k : string) : Exc pyval :=
  match v with
  | VDict d =>
      match d !! k with
      | Some x => Ok x
      | None => Raise (Exn KeyError ("'" +:+ k +:+ "'"))
      end
  | VStr _ => Raise (Exn TypeError "string indices must be integers, not 'str'")
  | VList _ =>
      Raise (Exn TypeError "list indices must be integers or slices, not str")
  | _ => Raise (Exn TypeError
                  ("'" +:+ type_name v +:+ "' object is not subscriptable"))
  end.

(** [d.get(k, dflt)] on a dictionary built by the client itself. *)
Definition dict_get (d : gmap string pyval) (k : string) (dflt : pyval) : pyval :=
  default dflt (d !! k).

(** [v.get(k, dflt)] on an arbitrary object. *)
Definition py_get (v : pyval) (k : string) (dflt : pyval) : Exc pyval :=
  match v with
  | VDict d => Ok (dict_get d k dflt)
  | _ => Raise (no_attribute v "get")
  end.

(** [for x in v]: the items a [for] loop visits. *)
Definition py_iter (v : pyval) : Exc (list pyval) :=
  match v with
  | VList l => Ok l
  | VStr s => Ok ((λ a, VStr (String a EmptyString)) <$> list_ascii_of_string s)
  | VDict d => Ok ((λ kv, VStr kv.1) <$> map_to_list d)
  | _ => Raise (Exn TypeError
                  ("'" +:+ type_name v +:+ "' object is not iterable"))
  end.

(** ** Events *)

Inductive level := INFO | ERROR.
Inductive http_method := GET | POST.

(** One [requests] call of the control plane. *)
Record request := Request {
  req_method : http_method;
  req_url : list fpart;
  req_headers : gmap string string;
  req_params : gmap string pyval;
  req_json : option (gmap string pyval)
}.

Inductive event :=
| EvLog (lvl : level) (msg : list fpart)
    (* logger.info / logger.error; logging does not raise, its handlers
       keep their errors to themselves *)
| EvProgress (filename : string) (uploaded total : Z)
    (* print of CR, filename and uploaded/total*100 to two decimals, no newline *)
| EvPrint (text : string)
    (* print of a complete line *)
| EvHttp (r : request)
    (* requests.get / requests.post of the control plane *)
| EvGetStream (url : string)
    (* requests.get(url, stream=True) *)
| EvUpload (namespace bucket object_name file_path : string) (part_size : Z)
    (* upload_manager.upload_file *)
| EvMakedirs (path : string)
| EvOpen (path : string)
| EvWrite (path : string) (chunk : string).

Definition trace := list event.

(** ** The monad of the client

    A computation reads the history so far (the outside world may answer
    differently after every event), and produces the events it adds and
    either a value or a raised exception.  Events emitted before an
    exception stay emitted. *)
Definition M (A : Type) : Type := trace → list event * Exc A.

#[global] Instance M_ret : MRet M := λ A a _, ([], Ok a).

#[global] Instance M_bind : MBind M := λ A B f m h,
  match m h with
  | (d, Ok a) => let '(d', r) := f a (h ++ d) in (d ++ d', r)
  | (d, Raise e) => (d, Raise e)
  end.

Definition raise {A} (e : exn) : M A := λ _, ([], Raise e).
Definition emit (ev : event) : M unit := λ _, ([ev], Ok tt).
(** the outcome of a pure library call *)
Definition lift {A} (x : Exc A) : M A := λ _, ([], x).
(** a question to the outside world at the current history *)
Definition ask {A} (f : trace → A) : M A := λ h, ([], Ok (f h)).
Definition ask_exc {A} (f : trace → Exc A) : M A := λ h, ([], f h).

(** [try: body except <class> as e: handler e] *)
Definition try_except {A} (body : M A) (catches : exn → bool)
    (handler : exn → M A) : M A := λ h,
  match body h with
  | (d, Raise e) =>
      if catches e
      then let '(d', r) := handler e (h ++ d) in (d ++ d', r)
      else (d, Raise e)
  | (d, Ok a) => (d, Ok a)
  end.

(** [for x in l: body x] *)
Fixpoint for_each {A} (body : A → M unit) (l : list A) : M unit :=
  match l with
  | [] => mret tt
  | x :: l' => body x;; for_each body l'
  end.

Definition when (b : bool) (m : M unit) : M unit := if b then m else mret tt.

(** a run in which the value, if there is one, is replaced by [b] *)
Definition forget {A B} (b : B) (x : list event * Exc A) : list event * Exc B :=
  (x.1, match x.2 with Ok _ => Ok b | Raise e => Raise e end).

Definition log_info (msg : list fpart) : M unit := emit (EvLog INFO msg).
Definition log_error (msg : list fpart) : M unit := emit (EvLog ERROR msg).

(** ** The outside world *)

(** [os.stat]: what the source reads of it. *)
Record stat_result := Stat { st_isdir : bool; st_size : Z }.

(** What [upload_manager.upload_file] does during one call: the byte
    counts it hands to [progress_callback], in order, and then the
    headers of the response it returns (keyed in lower case) or the
    exception it raises. *)
Record transfer := Transfer {
  tr_callbacks : list Z;
  tr_outcome : Exc (gmap string pyval)
}.

(** What a streamed download does: the chunks [iter_content] yields and
    the exception, if any, that interrupts the stream after them. *)
Record stream := Stream {
  sm_chunks : list string;
  sm_broken : option exn
}.

Record World := {
  (** the module-level name [oci] is a module (true) or [None] (false) *)
  oci : bool;
  (** urllib.parse: [urlparse(u).path] and [urljoin] *)
  urlparse_path : pyval → Exc string;
  urljoin : pyval → pyval → Exc string;
  (** os.path, pure string functions of the platform *)
  path_join : string → string → string;
  path_basename : string → string;
  path_relpath : string → string → string;
  (** the filesystem *)
  os_stat : trace → string → Exc stat_result;
  os_walk : trace → string → list (string * list string * list string);
  os_makedirs : trace → string → Exc unit;
  file_open_wb : trace → string → Exc unit;
  file_write : trace → string → string → Exc unit;
  (** [print] to the standard output: writing the line (an [EvPrint] or
      an [EvProgress]) succeeds, or raises, for instance
      UnicodeEncodeError for a file name the stream cannot encode or
      an OSError for a closed pipe *)
  sys_stdout : trace → event → Exc unit;
  (** requests: the request, [raise_for_status()] and [json()] together *)
  http_json : trace → request → Exc pyval;
  (** requests: [get(url, stream=True)] and [raise_for_status()] *)
  http_stream : trace → string → Exc stream;
  (** oci: one [UploadManager.upload_file] call *)
  oci_upload_file : trace → string → string → string → string → Z → transfer
}.

(** [oci.object_storage.transfer.constants.MEBIBYTE] *)
Definition MEBIBYTE : Z := 1024 * 1024.

(** ** Threads

    [upload_one] runs in the threads of a pool, where the events of one
    call mix with those of the others.  Code that runs there is a
    [Thread]: it ends with a value or an exception, or performs one
    observable action and goes on, or looks at the outside world, at the
    history of the moment at which it gets there, and goes on. *)
Inductive Thread (A : Type) : Type :=
| Fin (r : Exc A)
| Out (ev : event) (k : Thread A)
| Look (k : trace → Thread A).
Arguments Fin {A} r.
Arguments Out {A} ev k.
Arguments Look {A} k.

Fixpoint thread_bind {A B} (f : A → Thread B) (t : Thread A) : Thread B :=
  match t with
  | Fin (Ok a) => f a
  | Fin (Raise e) => Fin (Raise e)
  | Out ev k => Out ev (thread_bind f k)
  | Look k => Look (λ h, thread_bind f (k h))
  end.

#[global] Instance Thread_ret : MRet Thread := λ A a, Fin (Ok a).
#[global] Instance Thread_bind : MBind Thread := λ A B f t, thread_bind f t.

Module Thr.

Definition raise {A} (e : exn) : Thread A := Fin (Raise e).
Definition emit (ev : event) : Thread unit := Out ev (Fin (Ok tt)).
Definition lift {A} (x : Exc A) : Thread A := Fin x.
Definition ask {A} (f : trace → A) : Thread A := Look (λ h, Fin (Ok (f h))).
Definition ask_exc {A} (f : trace → Exc A) : Thread A := Look (λ h, Fin (f h)).

(** [try: body except <class> as e: handler e] *)
Fixpoint try_except {A} (body : Thread A) (catches : exn → bool)
    (handler : exn → Thread A) : Thread A :=
  match body with
  | Fin (Ok a) => Fin (Ok a)
  | Fin (Raise e) => if catches e then handler e else Fin (Raise e)
  | Out ev k => Out ev (try_except k catches handler)
  | Look k => Look (λ h, try_except (k h) catches handler)
  end.

(** the thread at its next action, or at its end, at the history [h] *)
Fixpoint advance {A} (t : Thread A) (h : trace) : Thread A :=
  match t with
  | Look k => advance (k h) h
  | _ => t
  end.

(** the thread run to its end without interruption: the code called in
    the calling thread *)
Fixpoint run {A} (t : Thread A) : M A := λ h,
  match t with
  | Fin r => ([], r)
  | Out ev k => let '(d, r) := run k (h ++ [ev]) in (ev :: d, r)
  | Look k => run (k h) h
  end.

End Thr.

(** [print(line)]: nothing is recorded when the write fails. *)
Definition print (w : World) (line : event) : Thread unit :=
  Thr.ask_exc (λ h, sys_stdout w h line);;
  Thr.emit line.

(** ** SimpleProgress *)

Record SimpleProgress := {
  total : Z;
  uploaded : Z;
  filename : string
}.

(** The quotient [a / b] of two ints is a float: CPython rounds the
    exact quotient to the nearest double and raises OverflowError when
    that is beyond the largest one, which is the case from
    [2^1024 - 2^970] on. *)
Definition DBL_OVERFLOW : Z := 2 ^ 1024 - 2 ^ 970.

Definition true_div_overflows (a b : Z) : bool :=
  (DBL_OVERFLOW * Z.abs b <=? Z.abs a)%Z.

Module Progress.

(** [__init__] *)
Definition init (total_size : Z) (filename : string) : SimpleProgress :=
  {| total := total_size; uploaded := 0; filename := filename |}.

(** [__call__]: [self.uploaded / self.total] is Python's true division
    of two ints; the product with 100 and the formatting of the percent
    cannot fail. *)
Definition call (w : World) (self : SimpleProgress) (bytes_uploaded : Z)
    : Thread SimpleProgress :=
  let self := {| total := total self;
                 uploaded := (uploaded self + bytes_uploaded)%Z;
                 filename := filename self |} in
  if (total self =? 0)%Z
  then Thr.raise (Exn ZeroDivisionError "division by zero")
  else if true_div_overflows (uploaded self) (total self)
  then Thr.raise (Exn OverflowError
                    "integer division result too large for a float")
  else print w (EvProgress (filename self) (uploaded self) (total self));;
       mret self.

Definition status (success : bool) : string :=
  if success then "OK" else "FAILED TO UPLOAD".

Definition done_line (filename : string) (success : bool) : string :=
  CR +:+ filename +:+ ": 100.00% uploaded - " +:+ status success +:+ LF.

(** [done] *)
Definition done (w : World) (self : SimpleProgress) (success : bool)
    : Thread unit :=
  print w (EvPrint (done_line (filename self) success)).

(** the calls a transport makes to a tracker, one after the other *)
Fixpoint feed (w : World) (self : SimpleProgress) (deltas : list Z)
    : Thread SimpleProgress :=
  match deltas with
  | [] => mret self
  | d :: ds => self' ← call w self d; feed w self' ds
  end.

End Progress.

(** ** The thread pool

    [with ThreadPoolExecutor(max_workers) as executor], the calls
    submitted to it, and the loop [for future in as_completed(futures)]
    over their results.  The calls are picked up in the order of their
    submission, by at most [max_workers] threads at a time; which thread
    moves next, and when the loop takes the result of a finished call,
    is not up to the program: a run follows a schedule. *)
Inductive choice :=
| Work (i : nat)
    (* call i is picked up by a thread of the pool, or, picked up, takes
       its next action *)
| Finish (i : nat)
    (* call i is picked up if need be and runs to its end *)
| Take (i : nat).
    (* as_completed yields the future of call i, which has ended, and the
       body of the loop runs *)

Record Pool (A : Type) := {
  (** what is left to do of every submitted call *)
  calls : list (Thread A);
  (** the calls picked up so far are the first [started] *)
  started : nat;
  (** the futures the loop has been given, with the value of [result()] *)
  taken : list (nat * A);
  (** the exception that has ended the loop *)
  raised : option exn
}.
Arguments calls {A} p.
Arguments started {A} p.
Arguments taken {A} p.
Arguments raised {A} p.

Section Executor.
Context {A : Type}.
Variable max_workers : nat.
(** the body of the loop, applied to [future.result()] *)
Variable body : A → M unit.

Definition is_fin (t : Thread A) : bool :=
  match t with Fin _ => true | _ => false end.

(** the calls that occupy a thread of the pool *)
Definition busy (p : Pool A) : nat :=
  length (filter (λ t, is_fin t = false) (take (started p) (calls p))).

(** the next call in the queue can be picked up *)
Definition can_start (i : nat) (p : Pool A) : bool :=
  (i =? started p) && (i <? length (calls p)) && (busy p <? max_workers).

Definition start (p : Pool A) : Pool A :=
  {| calls := calls p; started := S (started p);
     taken := taken p; raised := raised p |}.

Definition set_call (i : nat) (t : Thread A) (p : Pool A) : Pool A :=
  {| calls := <[i := t]> (calls p); started := started p;
     taken := taken p; raised := raised p |}.

Definition work (i : nat) (p : Pool A) (h : trace) : list event * Pool A :=
  if can_start i p then ([], start p)
  else if i <? started p then
    match calls p !! i with
    | Some t =>
        match Thr.advance t h with
        | Out ev k => ([ev], set_call i k p)
        | t' => ([], set_call i t' p)
        end
    | None => ([], p)
    end
  else ([], p).

Definition finish (i : nat) (p : Pool A) (h : trace) : list event * Pool A :=
  let p := if can_start i p then start p else p in
  if i <? started p then
    match calls p !! i with
    | Some t => let '(d, r) := Thr.run t h in (d, set_call i (Fin r) p)
    | None => ([], p)
    end
  else ([], p).

(** One turn of the loop.  When [result()] raises, the exception leaves
    the loop and the [with] block, which waits for the calls still
    queued or running before the exception goes on: no future is taken
    any more, the calls go on. *)
Definition take_result (i : nat) (p : Pool A) (h : trace) : list event * Pool A :=
  match raised p with
  | Some _ => ([], p)
  | None =>
      if bool_decide (i ∈ (taken p).*1) || negb (i <? started p) then ([], p)
      else
        match calls p !! i with
        | Some (Fin (Ok a)) =>
            let '(d, r) := body a h in
            (d, {| calls := calls p; started := started p;
                   taken := taken p ++ [(i, a)];
                   raised := match r with Raise e => Some e | Ok _ => None end |})
        | Some (Fin (Raise e)) =>
            ([], {| calls := calls p; started := started p;
                    taken := taken p; raised := Some e |})
        | _ => ([], p)
        end
  end.

Definition pool_step (c : choice) (p : Pool A) (h : trace) : list event * Pool A :=
  match c with
  | Work i => work i p h
  | Finish i => finish i p h
  | Take i => take_result i p h
  end.

Fixpoint pool_run (sched : list choice) (p : Pool A) (h : trace)
    : list event * Pool A :=
  match sched with
  | [] => ([], p)
  | c :: sched' =>
      let '(d, p') := pool_step c p h in
      let '(d', p'') := pool_run sched' p' (h ++ d) in
      (d ++ d', p'')
  end.

Definition submitted (futures : list (Thread A)) : Pool A :=
  {| calls := futures; started := 0; taken := []; raised := None |}.

(** what is left to happen when the schedule says no more: every call
    runs to its end, and the loop takes what it has not taken *)
Definition remaining (n : nat) : list choice :=
  (Finish <$> seq 0 n) ++ (Take <$> seq 0 n).

(** The block as a whole: the events of the run, and the values
    [future.result()] had in the loop, in order, or the exception that
    left the block. *)
Definition executor (sched : list choice) (futures : list (Thread A))
    : M (list A) := λ h,
  let '(d, p) := pool_run (sched ++ remaining (length futures))
                          (submitted futures) h in
  (d, match raised p with
      | Some e => Raise e
      | None => Ok ((taken p).*2)
      end).

End Executor.

(** ** The client *)

Record Client := {
  base_url : string;
  apitoken : string
}.

Definition headers (self : Client) : gmap string string :=
  {[ "apitoken" := apitoken self; "Content-Type" := "application/json" ]}.

(** [os.path.isdir] at the history [h]: false when [os.stat] fails. *)
Definition os_path_isdir (w : World) (h : trace) (path : string) : bool :=
  match os_stat w h path with
  | Ok st => st_isdir st
  | Raise _ => false
  end.

Definition import_error : exn :=
  Exn ImportError
      "OCI SDK is not available. Please install `oci` to use this feature.".

Section ForestSensAPI.

Variable w : World.

Definition isdir (path : string) : M bool :=
  ask (λ h, os_path_isdir w h path).

(** [os.path.getsize] *)
Definition getsize (path : string) : Thread Z :=
  st ← Thr.ask_exc (λ h, os_stat w h path); mret (st_size st).

(** [upload_manager.upload_file(..., progress_callback=progress)]: the
    transport calls the tracker as it reads the file; an exception of
    the callback leaves through the transport.  The value is the tracker
    after the calls and the headers of the response. *)
Definition upload_file (namespace bucket object_name file_path : string)
    (part_size : Z) (progress : SimpleProgress)
    : Thread (SimpleProgress * gmap string pyval) :=
  t ← Thr.ask (λ h, oci_upload_file w h namespace bucket object_name
                      file_path part_size);
  Thr.emit (EvUpload namespace bucket object_name file_path part_size);;
  progress' ← Progress.feed w progress (tr_callbacks t);
  response_headers ← Thr.lift (tr_outcome t);
  mret (progress', response_headers).

(** the closure [upload_one] of [upload_files] *)
Definition upload_one (namespace bucket : string)
    (file_path object_name : string) : Thread (gmap string pyval) :=
  Thr.try_except
    (file_size ← getsize file_path;
     let filename := path_basename w file_path in
     let progress := Progress.init file_size filename in
     '(progress, response_headers) ←
        upload_file namespace bucket object_name file_path
                    (2 * MEBIBYTE) progress;
     Progress.done w progress true;;
     mret ({[ "file" := VStr filename;
              "success" := VBool true;
              "etag" := dict_get response_headers "etag" VNone ]}
           : gmap string pyval))
    (λ _, true)
    (λ e,
     let filename := path_basename w file_path in
     let progress := Progress.init 1 filename in
     Progress.done w progress false;;
     mret ({[ "file" := VStr filename;
              "success" := VBool false;
              "error" := VStr (exn_str e) ]} : gmap string pyval)).

(** [strip('/').split('/')] of the URL path *)
Definition path_parts (path : string) : list string :=
  PyStr.split slash (PyStr.strip slash path).

Definition key_prefix (parts : list string) : string :=
  PyStr.rstrip slash (PyStr.join "/" (drop 5 parts)) +:+ "/".

(** the list comprehension over [os.walk] *)
Definition walk_files (walked : list (string * list string * list string))
    : list string :=
  '(dp, _, filenames) ← walked; f ← filenames; [path_join w dp f].

Definition object_name_in_dir (prefix local_path fp : string) : string :=
  let rel := PyStr.replace backslash slash (path_relpath w fp local_path) in
  prefix +:+ rel.

Definition failed_to_upload (result : gmap string pyval) : list fpart :=
  [Lit "Failed to upload "; Fmt (dict_get result "file" (VStr "Unknown"));
   Lit ": "; Fmt (dict_get result "error" (VStr "No error message"))].

(** the body of the loop over [as_completed] *)
Definition report_failure (result : gmap string pyval) : M unit :=
  when (negb (truthy (dict_get result "success" (VBool false))))
       (log_error (failed_to_upload result)).

(** [d[k]] on a dictionary built by the client *)
Definition dict_item (d : gmap string pyval) (k : string) : M pyval :=
  lift (py_getitem (VDict d) k).

(** [upload_files].  Constructing the [UploadManager] has no effect of
    its own.  A directory is uploaded by a pool of four threads, whose
    run follows the schedule [sched]; a single file is uploaded by the
    calling thread. *)
Definition upload_files (upload_url : pyval) (local_path : string)
    (sched : list choice) : M pyval :=
  if negb (oci w)
  then raise import_error
  else
    path ← lift (urlparse_path w upload_url);
    let path_parts := path_parts path in
    namespace ← lift (py_index path_parts 1);
    bucket ← lift (py_index path_parts 3);
    let prefix := key_prefix path_parts in
    is_dir ← isdir local_path;
    if (is_dir : bool) return M pyval then
      walked ← ask (λ h, os_walk w h local_path);
      let all_files := walk_files walked in
      log_info [Lit "Uploading "; Fmt (VInt (Z.of_nat (length all_files)));
                Lit " files to '"; Fmt (VStr namespace); Lit "/";
                Fmt (VStr bucket); Lit "/"; Fmt (VStr prefix); Lit "'..."];;
      let futures :=
        (λ fp, upload_one namespace bucket fp
                 (object_name_in_dir prefix local_path fp)) <$> all_files in
      executor 4 report_failure sched futures;;
      mret VNone
    else
      let filename := path_basename w local_path in
      let object_name := prefix +:+ filename in
      result ← Thr.run (upload_one namespace bucket local_path object_name);
      success ← dict_item result "success";
      (if truthy success then
         file ← dict_item result "file";
         etag ← dict_item result "etag";
         log_info [Lit "Uploaded "; Fmt file; Lit " (ETag: "; Fmt etag; Lit ")"]
       else
         file ← dict_item result "file";
         error ← dict_item result "error";
         log_error [Lit "Failed to upload "; Fmt file; Lit ": "; Fmt error]);;
      mret VNone.

End ForestSensAPI.

(** ** The control plane, [run_batch] and [download_results] *)

Section ControlPlane.

Variable w : World.
Variable self : Client.

(** The body shared by the six control-plane methods:
    [try: response = requests.<method>(...); response.raise_for_status();
     return response.json()
     except RequestException as e: logger.error(f"<failure>: {e}"); raise] *)
Definition api_call (r : request) (failure : list fpart) : M pyval :=
  try_except
    (answer ← ask (λ h, http_json w h r);
     emit (EvHttp r);;
     lift answer)
    is_request_exception
    (λ e, log_error (failure ++ [Lit ": "; Fmt (VStr (exn_str e))]);;
          raise e).

Definition get_all_batches (n : Z) : M pyval :=
  api_call
    (Request GET [Fmt (VStr (base_url self)); Lit "/batches"]
             (headers self) {[ "n" := VInt n ]} None)
    [Lit "Failed to get batches"].

Definition get_algorithms : M pyval :=
  api_call
    (Request GET [Fmt (VStr (base_url self)); Lit "/algorithms"]
             (headers self) ∅ None)
    [Lit "Failed to get algorithms"].

Definition opt_str (name : option string) : pyval :=
  match name with Some s => VStr s | None => VNone end.

(** POST {base_url}/batches with the payload of [init_batch] *)
Definition create_request (name : option string) (algorithm : Z) : request :=
  let payload : gmap string pyval :=
    {[ "batch_name" := opt_str name; "algorithm" := VInt algorithm ]} in
  Request POST [Fmt (VStr (base_url self)); Lit "/batches"]
          (headers self) ∅ (Some payload).

(** POST {base_url}/batches/{batch_id} with an empty JSON body *)
Definition start_request (batch_id : pyval) : request :=
  Request POST [Fmt (VStr (base_url self)); Lit "/batches/"; Fmt batch_id]
          (headers self) ∅ (Some ∅).

(** GET {base_url}/batches/{batch_id} *)
Definition status_request (batch_id : pyval) : request :=
  Request GET [Fmt (VStr (base_url self)); Lit "/batches/"; Fmt batch_id]
          (headers self) ∅ None.

Definition init_batch (name : option string) (algorithm : Z) : M pyval :=
  api_call (create_request name algorithm) [Lit "Failed to initialize batch"].

Definition start_batch (batch_id : pyval) : M pyval :=
  api_call (start_request batch_id) [Lit "Failed to start batch "; Fmt batch_id].

Definition get_batch_status (batch_id : pyval) : M pyval :=
  api_call (status_request batch_id)
           [Lit "Failed to get status for batch "; Fmt batch_id].

Definition get_results (batch_id : pyval) : M pyval :=
  api_call
    (Request GET [Fmt (VStr (base_url self)); Lit "/batches/"; Fmt batch_id;
                  Lit "/results"]
             (headers self) ∅ None)
    [Lit "Failed to get results for batch "; Fmt batch_id].

(** [os.path.join(output_dir, filename)] with a [filename] taken from JSON *)
Definition join_name (output_dir : string) (filename : pyval) : Exc string :=
  match filename with
  | VStr f => Ok (path_join w output_dir f)
  | _ => Raise (Exn TypeError
                  ("join() argument must be str, bytes, or os.PathLike object, not '"
                   +:+ type_name filename +:+ "'"))
  end.

(** [with open(local_path, "wb") as f: for chunk in ...: f.write(chunk)].
    [EvOpen] records that the file was created or truncated, [EvWrite]
    that a chunk went into it. *)
Definition save_stream (local_path : string) (s : stream) : M unit :=
  ask_exc (λ h, file_open_wb w h local_path);;
  emit (EvOpen local_path);;
  for_each (λ chunk,
              ask_exc (λ h, file_write w h local_path chunk);;
              emit (EvWrite local_path chunk))
           (sm_chunks s);;
  match sm_broken s with
  | Some e => raise e
  | None => mret tt
  end.

(** the body of the loop of [download_results] *)
Definition download_file (par_url : pyval) (output_dir : string)
    (file_info : pyval) : M unit :=
  filename ← lift (py_getitem file_info "name");
  file_url ← lift (urljoin w par_url filename);
  local_path ← lift (join_name output_dir filename);
  log_info [Lit "Downloading "; Fmt filename; Lit "..."];;
  try_except
    (answer ← ask (λ h, http_stream w h file_url);
     emit (EvGetStream file_url);;
     s ← lift answer;
     save_stream local_path s;;
     log_info [Lit "Saved to "; Fmt (VStr local_path)])
    is_request_exception
    (λ e, log_error [Lit "Failed to download "; Fmt filename; Lit ": ";
                     Fmt (VStr (exn_str e))]).

Definition download_results (batch_id : pyval) (output_dir : string) : M pyval :=
  results ← get_results batch_id;
  files ← lift (py_get results "result_files" (VList []));
  par_url ← lift (py_get results "par_url" VNone);
  if negb (truthy par_url) return M pyval
  then raise (Exn ValueError "No PAR URL found for this batch.")
  else
    ask_exc (λ h, os_makedirs w h output_dir);;
    emit (EvMakedirs output_dir);;
    items ← lift (py_iter files);
    for_each (download_file par_url output_dir) items;;
    mret VNone.

Definition run_batch (algorithm : Z) (input_path : string)
    (name : option string) (sched : list choice) : M pyval :=
  log_info [Lit "Initializing batch..."];;
  batch_info ← init_batch name algorithm;
  upload_url ← lift (py_getitem batch_info "object_storage_url");
  batch_id ← lift (py_getitem batch_info "batch_id");
  log_info [Lit "Uploading files..."];;
  upload_files w upload_url input_path sched;;
  log_info [Lit "Starting batch..."];;
  start_response ← start_batch batch_id;
  log_info [Lit "Checking status..."];;
  status ← get_batch_status batch_id;
  mret (VDict {[ "batch_id" := batch_id;
                 "start_response" := start_response;
                 "status" := status ]}).

End ControlPlane.

(** ** The results of one upload session

    [upload_files] consumes every result where it is produced and keeps
    none.  To speak about the results of a session, [upload_session] is
    [upload_files] with the same events in the same order, which hands
    out the values [future.result()] had in the loop (and, for a single
    file, the one value of [upload_one]). *)

Definition upload_session (w : World) (upload_url : pyval) (local_path : string)
    (sched : list choice) : M (list (gmap string pyval)) :=
  if negb (oci w)
  then raise import_error
  else
    path ← lift (urlparse_path w upload_url);
    let path_parts := path_parts path in
    namespace ← lift (py_index path_parts 1);
    bucket ← lift (py_index path_parts 3);
    let prefix := key_prefix path_parts in
    is_dir ← isdir w local_path;
    if (is_dir : bool) return M (list (gmap string pyval)) then
      walked ← ask (λ h, os_walk w h local_path);
      let all_files := walk_files w walked in
      log_info [Lit "Uploading "; Fmt (VInt (Z.of_nat (length all_files)));
                Lit " files to '"; Fmt (VStr namespace); Lit "/";
                Fmt (VStr bucket); Lit "/"; Fmt (VStr prefix); Lit "'..."];;
      let futures :=
        (λ fp, upload_one w namespace bucket fp
                 (object_name_in_dir w prefix local_path fp)) <$> all_files in
      executor 4 report_failure sched futures
    else
      let filename := path_basename w local_path in
      let object_name := prefix +:+ filename in
      result ← Thr.run (upload_one w namespace bucket local_path object_name);
      success ← dict_item result "success";
      (if truthy success then
         file ← dict_item result "file";
         etag ← dict_item result "etag";
         log_info [Lit "Uploaded "; Fmt file; Lit " (ETag: "; Fmt etag; Lit ")"]
       else
         file ← dict_item result "file";
         error ← dict_item result "error";
         log_error [Lit "Failed to upload "; Fmt file; Lit ": "; Fmt error]);;
      mret [result].

(** the [file] entries of a list of results *)
Definition result_files (results : list (gmap string pyval)) : list (option pyval) :=
  (λ r : gmap string pyval, r !! "file") <$> results.

Definition failed (result : gmap string pyval) : bool :=
  negb (truthy (dict_get result "success" (VBool false))).

(** the error lines of the log, in order *)
Definition error_lines (d : list event) : list (list fpart) :=
  omap (λ ev, match ev with EvLog ERROR msg => Some msg | _ => None end) d.

(** ** The external steps of [run_batch]

    An event belongs to at most one of the four steps: the create call,
    the upload (a transport call or a progress line), the start call and
    the status call.  Log lines belong to none. *)
Inductive step := Create | Upload | Start | Status.

Definition is_batches_url (url : list fpart) : bool :=
  match url with
  | [Fmt _; Lit p] => String.eqb p "/batches"
  | _ => false
  end.

Definition is_batch_url (url : list fpart) : bool :=
  match url with
  | [Fmt _; Lit p; Fmt _] => String.eqb p "/batches/"
  | _ => false
  end.

Definition step_of (ev : event) : option step :=
  match ev with
  | EvHttp r =>
      match req_method r with
      | POST => if is_batches_url (req_url r) then Some Create
                else if is_batch_url (req_url r) then Some Start else None
      | GET => if is_batch_url (req_url r) then Some Status else None
      end
  | EvUpload _ _ _ _ _ | EvProgress _ _ _ | EvPrint _ => Some Upload
  | _ => None
  end.



(** ** Vocabulary of the statements *)

(** Lines 199-204 of [upload_files] as one function: the namespace, the
    bucket and the key prefix read off the upload URL. *)
Definition parse_target (w : World) (upload_url : pyval)
    : Exc (string * string * string) :=
  match urlparse_path w upload_url with
  | Ok path =>
      match py_index (path_parts path) 1 with
      | Ok namespace =>
          match py_index (path_parts path) 3 with
          | Ok bucket => Ok (namespace, bucket, key_prefix (path_parts path))
          | Raise e => Raise e
          end
      | Raise e => Raise e
      end
  | Raise e => Raise e
  end.

(** the dictionary [upload_one] returns: [k] is "etag" or "error" *)
Definition worker_dict (w : World) (fp : string) (success : bool)
    (k : string) (v : pyval) : gmap string pyval :=
  {[ "file" := VStr (path_basename w fp); "success" := VBool success; k := v ]}.

Definition worker_shape (success : bool) (k : string) (v : pyval) : Prop :=
  if success then k = "etag" else k = "error" ∧ ∃ e, v = VStr (exn_str e).

Definition is_progress (ev : event) : Prop :=
  match ev with EvProgress _ _ _ => True | _ => False end.

(** what a worker emits before its final line: nothing, or the
    transport call followed by progress lines *)
Definition worker_events (ns b o fp : string) (d : list event) : Prop :=
  d = [] ∨ ∃ ps, d = EvUpload ns b o fp (2 * MEBIBYTE) :: ps ∧ Forall is_progress ps.

(** the final line of the call for [fp] *)
Definition done_event (w : World) (fp : string) (success : bool) : event :=
  EvPrint (Progress.done_line (path_basename w fp) success).

(** what the handler of [upload_one] makes of the exception [e], raised
    after the events [d]: the FAILED line and the failed result, or the
    exception of the line that cannot be printed *)
Definition handled (w : World) (fp : string) (e : exn) (d : list event)
    (h : trace) : list event * Exc (gmap string pyval) :=
  match sys_stdout w (h ++ d) (done_event w fp false) with
  | Ok _ => (d ++ [done_event w fp false],
             Ok (worker_dict w fp false "error" (VStr (exn_str e))))
  | Raise e' => (d, Raise e')
  end.

(** one action of the call that uploads [fp] under the key [o] *)
Definition worker_event (w : World) (ns b o fp : string) (ev : event) : Prop :=
  ev = EvUpload ns b o fp (2 * MEBIBYTE)
  ∨ is_progress ev
  ∨ ∃ success, ev = done_event w fp success.

(** what the call for [fp] can end with: a result for that file, or an
    exception *)
Definition worker_result (w : World) (fp : string)
    (r : Exc (gmap string pyval)) : Prop :=
  match r with
  | Ok a => ∃ success k v, a = worker_dict w fp success k v ∧ worker_shape success k v
  | Raise _ => True
  end.

Definition is_ok {A} (r : Exc A) : Prop :=
  match r with Ok _ => True | Raise _ => False end.

(** Every action the thread can take, whatever the world answers, is
    one of [E]; every end it can come to is one of [Q]. *)
Fixpoint emits {A} (E : event → Prop) (t : Thread A) : Prop :=
  match t with
  | Fin _ => True
  | Out ev k => E ev ∧ emits E k
  | Look k => ∀ h, emits E (k h)
  end.

Fixpoint returns {A} (Q : Exc A → Prop) (t : Thread A) : Prop :=
  match t with
  | Fin r => Q r
  | Out _ k => returns Q k
  | Look k => ∀ h, returns Q (k h)
  end.

(** [reaches t h d t']: from the history [h] on, the thread [t] can
    take the actions [d] and is then [t']. *)
Inductive reaches {A} : Thread A → trace → list event → Thread A → Prop :=
| reaches_here t h : reaches t h [] t
| reaches_out ev k h d t' :
    reaches k (h ++ [ev]) d t' → reaches (Out ev k) h (ev :: d) t'
| reaches_look k h d t' :
    reaches (k h) h d t' → reaches (Look k) h d t'.

(** the elements of [l] at the positions [c], in the order of [c] *)
Definition in_order {A} (c : list nat) (l : list A) : list A :=
  omap (λ i, l !! i) c.

(** One move of a pool whose loop body emits [out a] for the result [a]
    and does not raise: nothing happens, a call is picked up, a call
    goes on, a result is taken, or the exception of a call ends the
    loop. *)
Inductive pool_move {A} (out : A → list event) (h : trace)
    : Pool A → list event → Pool A → Prop :=
| move_none p : pool_move out h p [] p
| move_start p :
    started p < length (calls p) →
    pool_move out h p [] (start p)
| move_work p i t d t' :
    calls p !! i = Some t →
    reaches t h d t' →
    pool_move out h p d (set_call i t' p)
| move_take p i a :
    raised p = None →
    i ∉ (taken p).*1 →
    i < started p →
    calls p !! i = Some (Fin (Ok a)) →
    pool_move out h p (out a)
      {| calls := calls p; started := started p;
         taken := taken p ++ [(i, a)]; raised := None |}
| move_raise p i e :
    raised p = None →
    calls p !! i = Some (Fin (Raise e)) →
    pool_move out h p []
      {| calls := calls p; started := started p;
         taken := taken p; raised := Some e |}.

(** the events of the loop body of [upload_files] *)
Definition report_lines (result : gmap string pyval) : list event :=
  if negb (truthy (dict_get result "success" (VBool false)))
  then [EvLog ERROR (failed_to_upload result)]
  else [].

(** a run of the pool, move after move *)
Inductive pool_moves {A} (out : A → list event)
    : trace → Pool A → list event → Pool A → Prop :=
| moves_nil h p : pool_moves out h p [] p
| moves_cons h p d p' d' p'' :
    pool_move out h p d p' →
    pool_moves out (h ++ d) p' d' p'' →
    pool_moves out h p (d ++ d') p''.

(** What holds of a pool of [n] calls at every moment of a run, [d]
    being the events so far: every call emits events of [E] only and
    ends as [Q] says for its position; an event is one of a call or one
    of the loop body; the events that [π] selects are those of the loop
    body for the results taken, in order; no future is taken twice. *)
Definition pool_inv {A X} (out : A → list event) (E : event → Prop)
    (Q : nat → Exc A → Prop) (π : event → option X) (n : nat)
    (d : list event) (p : Pool A) : Prop :=
  length (calls p) = n
  ∧ started p ≤ n
  ∧ (∀ i t, calls p !! i = Some t → emits E t ∧ returns (Q i) t)
  ∧ Forall (λ ev, E ev ∨ ∃ a, ev ∈ out a) d
  ∧ omap π d = omap π (mjoin (out <$> (taken p).*2))
  ∧ NoDup (taken p).*1
  ∧ (∀ i a, (i, a) ∈ taken p → i < n ∧ Q i (Ok a))
  ∧ (∀ e, raised p = Some e → ∃ i, i < n ∧ Q i (Raise e)).

(** the first [i] calls of the pool have ended *)
Definition ended_below {A} (i : nat) (p : Pool A) : Prop :=
  ∀ j t, j < i → calls p !! j = Some t → is_fin t = true.

(** the error line an event is, if it is one *)
Definition error_line (ev : event) : option (list fpart) :=
  match ev with EvLog ERROR msg => Some msg | _ => None end.

(** an action of the call for one of [files], uploaded under [oname] *)
Definition pool_event (w : World) (ns b : string) (oname : string → string)
    (files : list string) (ev : event) : Prop :=
  ∃ fp, fp ∈ files ∧ worker_event w ns b (oname fp) fp ev.

(** what the call at position [i] can end with *)
Definition pool_result (w : World) (files : list string) (i : nat)
    (r : Exc (gmap string pyval)) : Prop :=
  ∃ fp, files !! i = Some fp ∧ worker_result w fp r.

(** an event of a session of [upload_files]: a line of the log, or an
    action of the upload of a file of the session *)
Definition session_event (w : World) (ns b prefix lp : string) (h : trace)
    (ev : event) : Prop :=
  (∃ lvl msg, ev = EvLog lvl msg)
  ∨ if os_path_isdir w h lp
    then pool_event w ns b (object_name_in_dir w prefix lp)
           (walk_files w (os_walk w h lp)) ev
    else worker_event w ns b (prefix +:+ path_basename w lp) lp ev.



(** the standard output accepts every line *)
Definition stdout_open (w : World) : Prop :=
  ∀ h line, sys_stdout w h line = Ok tt.

Definition uploading_line (n : nat) (ns b prefix : string) : event :=
  EvLog INFO [Lit "Uploading "; Fmt (VInt (Z.of_nat n));
              Lit " files to '"; Fmt (VStr ns); Lit "/";
              Fmt (VStr b); Lit "/"; Fmt (VStr prefix); Lit "'..."].

(** the log line of the single-file branch *)
Definition single_line (w : World) (lp : string) (success : bool) (v : pyval) : event :=
  if success
  then EvLog INFO [Lit "Uploaded "; Fmt (VStr (path_basename w lp));
                   Lit " (ETag: "; Fmt v; Lit ")"]
  else EvLog ERROR [Lit "Failed to upload "; Fmt (VStr (path_basename w lp));
                    Lit ": "; Fmt v].


(** the four announcements of [run_batch] *)
Definition log1 : event := EvLog INFO [Lit "Initializing batch..."].
Definition log2 : event := EvLog INFO [Lit "Uploading files..."].
Definition log3 : event := EvLog INFO [Lit "Starting batch..."].
Definition log4 : event := EvLog INFO [Lit "Checking status..."].

Definition downloading (filename : pyval) : event :=
  EvLog INFO [Lit "Downloading "; Fmt filename; Lit "..."].

Definition download_failed (filename : pyval) (e : exn) : event :=
  EvLog ERROR [Lit "Failed to download "; Fmt filename; Lit ": ";
               Fmt (VStr (exn_str e))].

(** the same world with or without the OCI SDK installed *)
Definition with_oci (present : bool) (w : World) : World :=
  {| oci := present;
     urlparse_path := urlparse_path w;
     urljoin := urljoin w;
     path_join := path_join w;
     path_basename := path_basename w;
     path_relpath := path_relpath w;
     os_stat := os_stat w;
     os_walk := os_walk w;
     os_makedirs := os_makedirs w;
     file_open_wb := file_open_wb w;
     file_write := file_write w;
     sys_stdout := sys_stdout w;
     http_json := http_json w;
     http_stream := http_stream w;
     oci_upload_file := oci_upload_file w |}.

(** the same world with another standard output *)
Definition with_stdout (stdout : trace → event → Exc unit) (w : World) : World :=
  {| oci := oci w;
     urlparse_path := urlparse_path w;
     urljoin := urljoin w;
     path_join := path_join w;
     path_basename := path_basename w;
     path_relpath := path_relpath w;
     os_stat := os_stat w;
     os_walk := os_walk w;
     os_makedirs := os_makedirs w;
     file_open_wb := file_open_wb w;
     file_write := file_write w;
     sys_stdout := stdout;
     http_json := http_json w;
     http_stream := http_stream w;
     oci_upload_file := oci_upload_file w |}.

(** ** A POSIX instance of the library functions

    [posixpath] as CPython defines it, and the path component of a URL
    of the plain form [scheme://host/path]. *)
Module Posix.

Definition startswith_slash (p : string) : bool :=
  match p with String a _ => Ascii.eqb a slash | EmptyString => false end.

Definition endswith_slash (p : string) : bool :=
  startswith_slash (String.rev p).

(** [posixpath.join(a, b)] *)
Definition join (a b : string) : string :=
  if startswith_slash b then b
  else if String.eqb a "" || endswith_slash a then a +:+ b
  else a +:+ "/" +:+ b.

(** [posixpath.basename]: what follows the last slash *)
Definition basename (p : string) : string :=
  default "" (last (PyStr.split slash p)).

(** the loop of [posixpath.normpath] over the components *)
Fixpoint norm_comps (rooted : bool) (acc comps : list string) : list string :=
  match comps with
  | [] => reverse acc
  | c :: cs =>
      if String.eqb c "" || String.eqb c "." then norm_comps rooted acc cs
      else if negb (String.eqb c "..") then norm_comps rooted (c :: acc) cs
      else match acc with
           | [] => if rooted then norm_comps rooted acc cs
                   else norm_comps rooted (c :: acc) cs
           | top :: acc' =>
               if String.eqb top ".." then norm_comps rooted (c :: acc) cs
               else norm_comps rooted acc' cs
           end
  end.

Definition initial_slashes (p : string) : string :=
  match p with
  | String a (String b (String c _)) =>
      if Ascii.eqb a slash
      then if Ascii.eqb b slash && negb (Ascii.eqb c slash) then "//" else "/"
      else ""
  | String a (String b EmptyString) =>
      if Ascii.eqb a slash then if Ascii.eqb b slash then "//" else "/" else ""
  | String a EmptyString => if Ascii.eqb a slash then "/" else ""
  | EmptyString => ""
  end.

Definition normpath (p : string) : string :=
  if String.eqb p "" then "."
  else
    let lead := initial_slashes p in
    let comps := norm_comps (negb (String.eqb lead "")) [] (PyStr.split slash p) in
    let q := lead +:+ PyStr.join "/" comps in
    if String.eqb q "" then "." else q.

Definition abspath (cwd p : string) : string :=
  normpath (if startswith_slash p then p else join cwd p).

Fixpoint common_prefix_length (l1 l2 : list string) : nat :=
  match l1, l2 with
  | a :: l1', b :: l2' =>
      if String.eqb a b then S (common_prefix_length l1' l2') else 0
  | _, _ => 0
  end.

Definition nonempty_parts (p : string) : list string :=
  filter (λ x, x ≠ "") (PyStr.split slash p).

(** [posixpath.relpath(path, start)] for a non-empty [path] *)
Definition relpath (cwd path start : string) : string :=
  let start_list := nonempty_parts (abspath cwd start) in
  let path_list := nonempty_parts (abspath cwd path) in
  let i := common_prefix_length start_list path_list in
  let rel_list := replicate (length start_list - i) ".." ++ drop i path_list in
  match rel_list with
  | [] => "."
  | _ => PyStr.join "/" rel_list
  end.

Fixpoint until_any (stops : list ascii) (s : string) : string :=
  match s with
  | EmptyString => EmptyString
  | String a s' =>
      if existsb (Ascii.eqb a) stops then EmptyString
      else String a (until_any stops s')
  end.

Fixpoint from_first (c : ascii) (s : string) : string :=
  match s with
  | EmptyString => EmptyString
  | String a s' => if Ascii.eqb a c then s else from_first c s'
  end.

Fixpoint after_double_slash (s : string) : string :=
  match s with
  | String a ((String b rest) as s') =>
      if Ascii.eqb a slash && Ascii.eqb b slash then rest
      else after_double_slash s'
  | _ => EmptyString
  end.

(** what follows the network location of [scheme://netloc...], and the
    scheme and network location themselves *)
Definition after_netloc (u : string) : string :=
  let rest := after_double_slash u in
  let netloc := until_any ["/"%char; "?"%char; "#"%char] rest in
  String.substring (String.length netloc) (String.length rest) rest.

Definition up_to_netloc (u : string) : string :=
  String.substring 0 (String.length u - String.length (after_netloc u)) u.

(** the last segment of a path loses its parameters, which start at [;] *)
Definition without_params (path : string) : string :=
  match reverse (PyStr.split slash path) with
  | name :: dirs =>
      PyStr.join "/" (reverse (until_any [";"%char] name :: dirs))
  | [] => path
  end.

(** [urlparse(u).path] of an http(s) URL [scheme://netloc/path;params?query#fragment] *)
Definition url_path (u : string) : string :=
  without_params (until_any ["?"%char; "#"%char] (after_netloc u)).

(** the path without its last segment *)
Definition url_dirname (path : string) : string :=
  match reverse (PyStr.split slash path) with
  | _ :: dirs => PyStr.join "/" (reverse (EmptyString :: dirs))
  | [] => path
  end.

(** [urljoin(base, name)] for an http(s) base and a relative reference
    that is a plain file name: the name takes the place of the last
    segment of the path of the base *)
Definition url_join_name (base name : string) : string :=
  let dir := url_dirname (url_path base) in
  up_to_netloc base +:+ (if String.eqb dir "" then "/" else dir) +:+ name.

End Posix.

(** ** Concrete worlds for the scenarios *)
Module Scenario.

Definition no_such_file (path : string) : exn :=
  Exn OSError ("[Errno 2] No such file or directory: '" +:+ path +:+ "'").

Definition lookup_path {A} (tbl : list (string * A)) (path : string) : option A :=
  (λ hit, hit.2.2) <$> list_find (λ kv, kv.1 = path) tbl.

(** A world on POSIX whose answers do not change with the history:
    [fs] lists the existing paths, [tree] is what [os.walk] yields,
    [transport] and [api] answer the outgoing calls; the standard
    output takes every line. *)
Definition world (oci_present : bool)
    (fs : list (string * stat_result))
    (tree : list (string * list string * list string))
    (transport : string → transfer)
    (api : request → Exc pyval)
    (download : string → Exc stream) : World :=
  {| oci := oci_present;
     urlparse_path := λ u, match u with
                           | VStr s => Ok (Posix.url_path s)
                           | VNone =>
                               Raise (Exn TypeError
                                        "a bytes-like object is required, not 'str'")
                           | _ => Raise (no_attribute u "decode")
                           end;
     urljoin := λ b u, match b, u with
                       | VStr b, VStr u => Ok (Posix.url_join_name b u)
                       | VStr b, VNone => Ok b
                       | VNone, VStr u => Ok u
                       | _, _ => Raise (Exn TypeError
                                          "Cannot mix str and non-str arguments")
                       end;
     path_join := Posix.join;
     path_basename := Posix.basename;
     path_relpath := Posix.relpath "/home/user";
     os_stat := λ _ p, match lookup_path fs p with
                       | Some st => Ok st
                       | None => Raise (no_such_file p)
                       end;
     os_walk := λ _ _, tree;
     os_makedirs := λ _ _, Ok tt;
     file_open_wb := λ _ _, Ok tt;
     file_write := λ _ _ _, Ok tt;
     sys_stdout := λ _ _, Ok tt;
     http_json := λ _ r, api r;
     http_stream := λ _ u, download u;
     oci_upload_file := λ _ _ _ _ file_path _, transport file_path |}.

Definition target_url : pyval := VStr "https://host/n/ns/b/bucket/o/prefix/".
(** four path segments: n, ns, b, bucket *)
Definition four_segment_url : pyval := VStr "https://host/n/ns/b/bucket".
(** three path segments: n, ns, b *)
Definition three_segment_url : pyval := VStr "https://host/n/ns/b".

(** a transfer that reports two chunks of five bytes and succeeds *)
Definition good_transfer : transfer :=
  Transfer [5; 5]%Z (Ok {[ "etag" := VStr "etag-1" ]}).
(** a transfer that reports one chunk and then fails *)
Definition connection_reset : exn := Exn OtherException "connection reset".
Definition broken_transfer : transfer := Transfer [5]%Z (Raise connection_reset).

Definition server_error : exn := Exn RequestException "503 Server Error".
Definition not_found : exn := Exn RequestException "404 Client Error".
Definition api_down : request → Exc pyval := λ _, Raise server_error.
Definition no_download : string → Exc stream := λ _, Raise not_found.

Definition client : Client :=
  {| base_url := "https://api.example"; apitoken := "secret" |}.

(** one local file, a.txt of ten bytes *)
Definition one_file : World :=
  world true [("a.txt", Stat false 10)] [] (λ _, good_transfer) api_down no_download.

Definition one_file_broken : World :=
  world true [("a.txt", Stat false 10)] [] (λ _, broken_transfer) api_down no_download.

(** no local file at all *)
Definition nothing_local : World :=
  world true [] [] (λ _, good_transfer) api_down no_download.

(** the directory D with a.txt and sub/b.txt *)
Definition tree : World :=
  world true
    [("D", Stat true 4096); ("D/a.txt", Stat false 10); ("D/sub/b.txt", Stat false 10)]
    [("D", ["sub"], ["a.txt"]); ("D/sub", [], ["b.txt"])]
    (λ _, good_transfer) api_down no_download.

(** the directory D with a/x.txt and b/x.txt *)
Definition twins : World :=
  world true
    [("D", Stat true 4096); ("D/a/x.txt", Stat false 10); ("D/b/x.txt", Stat false 10)]
    [("D", ["a"; "b"], []); ("D/a", [], ["x.txt"]); ("D/b", [], ["x.txt"])]
    (λ _, good_transfer) api_down no_download.

(** the file a.txt, and no OCI SDK *)
Definition no_sdk : World :=
  world false [("a.txt", Stat false 10)] [] (λ _, good_transfer) api_down no_download.

Definition results_metadata : pyval :=
  VDict {[ "result_files" := VList [VDict {[ "name" := VStr "out.tif" ]}];
           "par_url" := VStr "https://par/" ]}.

(** a job-control API that answers every call; [upload_url] is the
    upload target it hands out *)
Definition api_up (upload_url : pyval) (r : request) : Exc pyval :=
  match step_of (EvHttp r) with
  | Some Create => Ok (VDict {[ "object_storage_url" := upload_url;
                                "batch_id" := VInt 7 ]})
  | Some Start => Ok (VDict {[ "started" := VBool true ]})
  | Some Status => Ok (VDict {[ "status" := VStr "running" ]})
  | _ => Ok results_metadata
  end.

Definition service (upload_url : pyval) : World :=
  world true [("a.txt", Stat false 10)] [] (λ _, good_transfer)
        (api_up upload_url) no_download.

(** result metadata without a PAR URL *)
Definition service_without_par : World :=
  world true [] [] (λ _, good_transfer)
        (λ _, Ok (VDict {[ "result_files" := VList [] ]})) no_download.

(** what uploading a.txt under [key] leaves when the transfer succeeds *)
Definition uploaded_a (key : string) : list event :=
  [EvUpload "ns" "bucket" key "a.txt" (2 * MEBIBYTE);
   EvProgress "a.txt" 5 10; EvProgress "a.txt" 10 10;
   EvPrint (Progress.done_line "a.txt" true);
   EvLog INFO [Lit "Uploaded "; Fmt (VStr "a.txt"); Lit " (ETag: ";
               Fmt (VStr "etag-1"); Lit ")"]].

(** and when the connection is reset after the first chunk *)
Definition broken_a : list event :=
  [EvUpload "ns" "bucket" "prefix/a.txt" "a.txt" (2 * MEBIBYTE);
   EvProgress "a.txt" 5 10;
   EvPrint (Progress.done_line "a.txt" false);
   EvLog ERROR [Lit "Failed to upload "; Fmt (VStr "a.txt"); Lit ": ";
                Fmt (VStr "connection reset")]].

Definition missing_events : list event :=
  [EvPrint (Progress.done_line "missing.txt" false);
   EvLog ERROR [Lit "Failed to upload "; Fmt (VStr "missing.txt"); Lit ": ";
                Fmt (VStr (exn_str (no_such_file "missing.txt")))]].

(** the [file] entries of the results of a session *)
Definition session_files (x : list event * Exc (list (gmap string pyval)))
    : list (option pyval) :=
  match x.2 with Ok rs => result_files rs | Raise _ => [] end.

(** the number of failed results of a session *)
Definition session_failures (x : list event * Exc (list (gmap string pyval)))
    : option nat :=
  match x.2 with
  | Ok rs => Some (length (filter (λ r, failed r) rs))
  | Raise _ => None
  end.

Definition out_tif : pyval := VDict {[ "name" := VStr "out.tif" ]}.


(** a file name with the byte E9, which no UTF-8 text holds *)
Definition latin1_name : string := "caf" +:+ String "233"%char ".txt".

Definition text_of (line : event) : string :=
  match line with
  | EvPrint text => text
  | EvProgress filename _ _ => filename
  | _ => ""
  end.

Definition is_ascii (a : ascii) : bool := (nat_of_ascii a <? 128)%nat.

Definition cannot_encode : exn :=
  Exn UnicodeEncodeError
      "'utf-8' codec can't encode character '\udce9' in position 4: surrogates not allowed".

(** a standard output that encodes strictly: a line with such a byte
    raises UnicodeEncodeError *)
Definition strict_stdout (h : trace) (line : event) : Exc unit :=
  if forallb is_ascii (list_ascii_of_string (text_of line))
  then Ok tt
  else Raise cannot_encode.

(** a transfer that fails before any progress *)
Definition refused_transfer : transfer := Transfer [] (Raise connection_reset).

(** the file with that name, a transport that fails, a strict output *)
Definition unprintable : World :=
  with_stdout strict_stdout
    (world true [(latin1_name, Stat false 10)] [] (λ _, refused_transfer)
           api_down no_download).



(** a run of the pool in which the two calls take turns and the second
    future is taken first *)
Definition taking_turns : list choice :=
  [Work 0; Work 1; Work 1; Work 0; Work 1; Work 0; Work 1; Work 1;
   Take 1; Work 0; Work 0; Take 0].

End Scenario.

(** ** The constructor

    [ForestSensAPI.__init__] reads two more parts of the machine: the
    configuration files and the OCI client factory. *)
Record Host := {
  (** [os.path.expanduser] and [os.path.isfile] *)
  expanduser : string → string;
  isfile : string → bool;
  (** [json.load(open(path, 'r'))] *)
  load_json : string → Exc pyval;
  (** [oci.config.from_file(file_location, profile_name)] *)
  oci_from_file : string → string → Exc pyval;
  (** [oci.object_storage.ObjectStorageClient(config)] *)
  object_storage_client : pyval → Exc unit
}.

(** the attributes [__init__] sets; [inst_oci_config] is set (and the
    object-storage client created) only when the SDK is present *)
Record Instance := {
  inst_base_url : string;
  inst_apitoken : pyval;
  inst_headers : gmap string pyval;
  inst_oci_config : option pyval
}.

(** sequencing of pure fallible steps *)
Definition and_then {A B} (x : Exc A) (f : A → Exc B) : Exc B :=
  match x with
  | Ok a => f a
  | Raise e => Raise e
  end.

(** [x or dflt] for an optional string *)
Definition or_else (x : option string) (dflt : string) : string :=
  match x with
  | Some s => if String.eqb s "" then dflt else s
  | None => dflt
  end.

(** [u.rstrip('/')] on a value taken from the arguments or from JSON *)
Definition rstrip_slashes (u : pyval) : Exc string :=
  match u with
  | VStr s => Ok (PyStr.rstrip slash s)
  | _ => Raise (no_attribute u "rstrip")
  end.

Definition credentials_error : exn :=
  Exn ValueError
      "base_url and apitoken must be provided either directly or via config file".

Definition oci_config_error : exn :=
  Exn ValueError "OCI config must be a dict or a valid file path".

(** [__init__]; [oci_present] is the truth of the module-level [oci] *)
Definition init (host : Host) (oci_present : bool)
    (base_url apitoken : option string)
    (oci_config : option (gmap string pyval))
    (api_config_path oci_config_path : option string)
    (oci_profile : string) : Exc Instance :=
  let default_api_config_path := expanduser host "~/.forestsens/config.json" in
  let config_path := or_else api_config_path default_api_config_path in
  and_then
    (if isfile host config_path
     then and_then (load_json host config_path) (λ config,
          and_then (py_get config "base_url" (opt_str base_url)) (λ base_url,
          and_then (py_get config "apitoken" (opt_str apitoken)) (λ apitoken,
          Ok (base_url, apitoken))))
     else Ok (opt_str base_url, opt_str apitoken))
    (λ merged,
     let base_url := merged.1 in
     let apitoken := merged.2 in
     if negb (truthy base_url) || negb (truthy apitoken)
     then Raise credentials_error
     else
       and_then (rstrip_slashes base_url) (λ stripped,
       and_then
         (if oci_present
          then
            and_then
              (match oci_config with
               | Some d => Ok (VDict d)
               | None =>
                   let config_file :=
                     or_else oci_config_path (expanduser host "~/.oci/config") in
                   if isfile host config_file
                   then oci_from_file host config_file oci_profile
                   else Raise oci_config_error
               end)
              (λ cfg,
               and_then (object_storage_client host cfg) (λ _, Ok (Some cfg)))
          else Ok None)
         (λ oci_cfg,
          Ok {| inst_base_url := stripped;
                inst_apitoken := apitoken;
                inst_headers := {[ "apitoken" := apitoken;
                                   "Content-Type" := VStr "application/json" ]};
                inst_oci_config := oci_cfg |}))).

(** [None] or the empty string *)
Definition blank (x : option string) : bool :=
  match x with Some s => String.eqb s "" | None => true end.

(** ** More vocabulary *)

(** [k] times the character [c] *)
Fixpoint chars (c : ascii) (k : nat) : string :=
  match k with
  | 0 => EmptyString
  | S k' => String c (chars c k')
  end.

Definition starts_with (c : ascii) (s : string) : bool :=
  match s with String a _ => Ascii.eqb a c | EmptyString => false end.

Definition ends_with (c : ascii) (s : string) : bool :=
  starts_with c (String.rev s).

Fixpoint contains (c : ascii) (s : string) : bool :=
  match s with
  | EmptyString => false
  | String a s' => Ascii.eqb a c || contains c s'
  end.

(** the running totals of a tracker that starts at [acc] *)
Fixpoint running (acc : Z) (deltas : list Z) : list Z :=
  match deltas with
  | [] => []
  | d :: ds => (acc + d)%Z :: running (acc + d)%Z ds
  end.

Definition http_requests (d : list event) : list request :=
  omap (λ ev, match ev with EvHttp r => Some r | _ => None end) d.

Definition saved_to (local_path : string) : event :=
  EvLog INFO [Lit "Saved to "; Fmt (VStr local_path)].

(** the events that create or fill a local file *)
Definition touches_file (ev : event) : bool :=
  match ev with EvOpen _ | EvWrite _ _ => true | _ => false end.

(** an entry of the result list whose request fails, at any time, with a
    RequestException *)
Definition fetch_fails (w : World) (par_url : pyval) (file_info : pyval) : Prop :=
  ∃ name url e,
    py_getitem file_info "name" = Ok (VStr name)
    ∧ urljoin w par_url (VStr name) = Ok url
    ∧ (∀ h, http_stream w h url = Raise e)
    ∧ is_request_exception e = true.

(** ** More concrete worlds *)
Module Cases.

Import Scenario.

(** the directory D with nothing in it *)
Definition bare_dir : World :=
  world true [("D", Stat true 4096)] [("D", [], [])]
        (λ _, good_transfer) api_down no_download.

(** a create response without the upload URL *)
Definition service_without_url : World :=
  world true [("a.txt", Stat false 10)] [] (λ _, good_transfer)
        (λ _, Ok (VDict {[ "batch_id" := VInt 7 ]})) no_download.

(** the service, with a transport that breaks *)
Definition service_broken : World :=
  world true [("a.txt", Stat false 10)] [] (λ _, broken_transfer)
        (api_up target_url) no_download.

Definition connection_broken : exn := Exn RequestException "Connection broken".

(** a store that delivers out.tif in two chunks *)
Definition mirror : World :=
  world true [] [] (λ _, good_transfer) (api_up target_url)
        (λ _, Ok (Stream ["ab"; "cd"] None)).

(** a store whose stream breaks after the first chunk *)
Definition flaky_mirror : World :=
  world true [] [] (λ _, good_transfer) (api_up target_url)
        (λ _, Ok (Stream ["ab"] (Some connection_broken))).

Definition permission_denied : exn := Exn OSError "[Errno 13] Permission denied".

(** the same store, on a disk where no file can be created *)
Definition read_only_disk : World :=
  {| oci := oci mirror;
     urlparse_path := urlparse_path mirror;
     urljoin := urljoin mirror;
     path_join := path_join mirror;
     path_basename := path_basename mirror;
     path_relpath := path_relpath mirror;
     os_stat := os_stat mirror;
     os_walk := os_walk mirror;
     os_makedirs := os_makedirs mirror;
     file_open_wb := λ _ _, Raise permission_denied;
     file_write := file_write mirror;
     sys_stdout := sys_stdout mirror;
     http_json := http_json mirror;
     http_stream := http_stream mirror;
     oci_upload_file := oci_upload_file mirror |}.

(** a machine without any configuration file *)
Definition bare_host : Host :=
  {| expanduser := λ p, "/home/user" +:+ PyStr.lstrip "~" p;
     isfile := λ _, false;
     load_json := λ p, Raise (no_such_file p);
     oci_from_file := λ p _, Raise (no_such_file p);
     object_storage_client := λ _, Ok tt |}.

Definition config_file : gmap string pyval :=
  {[ "base_url" := VStr "https://api.example/"; "apitoken" := VStr "from-file" ]}.

(** a machine whose ~/.forestsens/config.json holds [config_file] *)
Definition configured_host : Host :=
  {| expanduser := expanduser bare_host;
     isfile := λ p, String.eqb p "/home/user/.forestsens/config.json";
     load_json := λ p, if String.eqb p "/home/user/.forestsens/config.json"
                       then Ok (VDict config_file)
                       else Raise (no_such_file p);
     oci_from_file := λ p _, Raise (no_such_file p);
     object_storage_client := λ _, Ok tt |}.

End Cases.

(** * Properties *)

(** ** Running the monad *)

Section Run.
Context {A B : Type}.
Implicit Types (m : M A) (f : A → M B) (h d : list event).

Lemma run_bind m f h :
  (m ≫= f) h = match m h with
               | (d, Ok a) => let '(d', r) := f a (h ++ d) in (d ++ d', r)
               | (d, Raise e) => (d, Raise e)
               end.
Proof. reflexivity. Qed.

End Run.

(** [forget] commutes with a common prefix of two programs. *)
Lemma forget_bind {A B C} (c : C) (m : M A) (f : A → M C) (g : A → M B) :
  (∀ a h, f a h = forget c (g a h)) →
  ∀ h, (m ≫= f) h = forget c ((m ≫= g) h).
Proof.
  intros Hfg h. rewrite !run_bind. destruct (m h) as [d [a|e]]; [|reflexivity].
  rewrite Hfg. by destruct (g a (h ++ d)) as [d' [y|e]].
Qed.

(** one step of a run, all steps of a run, and histories in normal form *)
Ltac run1 :=
  rewrite run_bind;
  cbn [lift ask ask_exc emit raise mret M_ret log_info log_error];
  cbv zeta.
Ltac run :=
  cbv [mbind M_bind lift ask ask_exc log_info log_error emit raise mret M_ret];
  rewrite ?app_nil_r.
Ltac norm := repeat progress (rewrite ?app_nil_r, <- ?app_assoc; cbn [app]).

Lemma py_index_short {X} (l : list X) i :
  length l ≤ i → ∃ e, py_index l i = Raise e.
Proof. intros H. unfold py_index. rewrite (lookup_ge_None_2 l i H). eauto. Qed.

(** ** Threads *)

(** Run without interruption, a thread is a program of the monad:
    [Thr.run] commutes with sequencing and with exception handling. *)
Lemma thr_run_bind {A B} (t : Thread A) (f : A → Thread B) h :
  Thr.run (t ≫= f) h = (Thr.run t ≫= λ a, Thr.run (f a)) h.
Proof.
  revert h. induction t as [[a|e]|ev k IH|k IH]; intros h.
  - rewrite run_bind. cbn [Thr.run]. rewrite app_nil_r.
    change (Fin (Ok a) ≫= f) with (f a). by destruct (Thr.run (f a) h).
  - reflexivity.
  - change (Out ev k ≫= f) with (Out ev (k ≫= f)). rewrite run_bind.
    cbn [Thr.run]. rewrite IH, run_bind.
    destruct (Thr.run k (h ++ [ev])) as [d [a|e]]; [|reflexivity].
    rewrite <- app_assoc. cbn [app].
    by destruct (Thr.run (f a) (h ++ ev :: d)).
  - change (Look k ≫= f) with (Look (λ h, k h ≫= f)). rewrite run_bind.
    cbn [Thr.run]. by rewrite IH, run_bind.
Qed.

Lemma thr_run_try {A} (t : Thread A) catches handler h :
  Thr.run (Thr.try_except t catches handler) h
  = try_except (Thr.run t) catches (λ e, Thr.run (handler e)) h.
Proof.
  revert h. induction t as [[a|e]|ev k IH|k IH]; intros h; unfold try_except.
  - reflexivity.
  - cbn [Thr.try_except Thr.run]. rewrite app_nil_r.
    destruct (catches e); [|reflexivity]. by destruct (Thr.run (handler e) h).
  - cbn [Thr.try_except Thr.run]. rewrite IH. unfold try_except.
    destruct (Thr.run k (h ++ [ev])) as [d [a|e]]; [reflexivity|].
    destruct (catches e); [|reflexivity].
    rewrite <- app_assoc. cbn [app].
    by destruct (Thr.run (handler e) (h ++ ev :: d)).
  - cbn [Thr.try_except Thr.run]. by rewrite IH.
Qed.

Lemma thr_run_print w line h :
  Thr.run (print w line) h =
    match sys_stdout w h line with
    | Ok _ => ([line], Ok tt)
    | Raise e => ([], Raise e)
    end.
Proof. unfold print. cbn. by destruct (sys_stdout w h line) as [[]|e]. Qed.

(** A thread gets from one of its states to another. *)
Lemma reaches_trans {A} (t t' t'' : Thread A) h d d' :
  reaches t h d t' → reaches t' (h ++ d) d' t'' → reaches t h (d ++ d') t''.
Proof.
  induction 1 as [t h|ev k h d t' _ IH|k h d t' _ IH]; intros H2.
  - by rewrite app_nil_r in H2.
  - cbn [app]. constructor. apply IH. by rewrite <- app_assoc.
  - constructor. by apply IH.
Qed.

Lemma reaches_advance {A} (t : Thread A) h : reaches t h [] (Thr.advance t h).
Proof.
  induction t as [r|ev k _|k IH]; cbn [Thr.advance]; try constructor. apply IH.
Qed.

Lemma reaches_run {A} (t : Thread A) h :
  reaches t h (Thr.run t h).1 (Fin (Thr.run t h).2).
Proof.
  revert h. induction t as [r|ev k IH|k IH]; intros h; cbn [Thr.run].
  - constructor.
  - specialize (IH (h ++ [ev])). destruct (Thr.run k (h ++ [ev])) as [d r].
    by constructor.
  - constructor. apply IH.
Qed.

Lemma reaches_emits {A} E (t t' : Thread A) h d :
  reaches t h d t' → emits E t → Forall E d ∧ emits E t'.
Proof.
  induction 1 as [t h|ev k h d t' _ IH|k h d t' _ IH]; cbn [emits].
  - by split.
  - intros [Hev Hk]. destruct (IH Hk). split; [by constructor | done].
  - intros Hk. by apply IH.
Qed.

Lemma reaches_returns {A} Q (t t' : Thread A) h d :
  reaches t h d t' → returns Q t → returns Q t'.
Proof. induction 1; cbn [returns]; eauto. Qed.

Lemma emits_bind {A B} E (t : Thread A) (f : A → Thread B) :
  emits E t → (∀ a, emits E (f a)) → emits E (t ≫= f).
Proof.
  intros Ht Hf. induction t as [[a|e]|ev k IH|k IH].
  - apply Hf.
  - done.
  - destruct Ht. split; [done|]. by apply IH.
  - intros h. apply IH, Ht.
Qed.

Lemma emits_try {A} E (t : Thread A) catches handler :
  emits E t → (∀ e, emits E (handler e)) →
  emits E (Thr.try_except t catches handler).
Proof.
  intros Ht Hh. induction t as [[a|e]|ev k IH|k IH]; cbn [Thr.try_except].
  - done.
  - destruct (catches e); [apply Hh | done].
  - destruct Ht. split; [done|]. by apply IH.
  - intros h. apply IH, Ht.
Qed.

Lemma emits_print (E : event → Prop) w line : E line → emits E (print w line).
Proof. intros HE h. cbn. by destruct (sys_stdout w h line). Qed.

Lemma returns_bind {A B} (Q : Exc B → Prop) (t : Thread A) (f : A → Thread B) :
  returns (λ r, match r with
                | Ok a => returns Q (f a)
                | Raise e => Q (Raise e)
                end) t →
  returns Q (t ≫= f).
Proof.
  induction t as [[a|e]|ev k IH|k IH]; cbn [returns]; intros Ht.
  - exact Ht.
  - exact Ht.
  - by apply IH.
  - intros h. apply IH, Ht.
Qed.

Lemma returns_try {A} (Q : Exc A → Prop) (t : Thread A) handler :
  returns (λ r, match r with
                | Ok a => Q (Ok a)
                | Raise e => returns Q (handler e)
                end) t →
  returns Q (Thr.try_except t (λ _, true) handler).
Proof.
  induction t as [[a|e]|ev k IH|k IH]; cbn [returns Thr.try_except]; intros Ht.
  - exact Ht.
  - exact Ht.
  - by apply IH.
  - intros h. apply IH, Ht.
Qed.

Lemma returns_weaken {A} (Q Q' : Exc A → Prop) (t : Thread A) :
  (∀ r, Q r → Q' r) → returns Q t → returns Q' t.
Proof.
  intros HQ. induction t as [r|ev k IH|k IH]; cbn [returns]; eauto.
Qed.
Lemma emits_weaken {A} (E E' : event → Prop) (t : Thread A) :
  (∀ ev, E ev → E' ev) → emits E t → emits E' t.
Proof.
  intros HE. induction t as [r|ev k IH|k IH]; cbn [emits]; [done| |eauto].
  intros [? ?]. split; eauto.
Qed.

(** sequencing, when the continuation is only known to behave after
    the values the first part can return *)
Lemma emits_bind_returns {A B} E (Q : Exc A → Prop) (t : Thread A)
    (f : A → Thread B) :
  emits E t → returns Q t → (∀ a, Q (Ok a) → emits E (f a)) →
  emits E (t ≫= f).
Proof.
  intros Ht Hr Hf. induction t as [[a|e]|ev k IH|k IH].
  - by apply Hf.
  - done.
  - destruct Ht. split; [done|]. by apply IH.
  - intros h. apply IH; [apply Ht | apply Hr].
Qed.

(** ** SimpleProgress *)

Lemma call_run w p delta h :
  Thr.run (Progress.call w p delta) h =
    if (total p =? 0)%Z
    then ([], Raise (Exn ZeroDivisionError "division by zero"))
    else if true_div_overflows (uploaded p + delta) (total p)
    then ([], Raise (Exn OverflowError
                       "integer division result too large for a float"))
    else match sys_stdout w h (EvProgress (filename p) (uploaded p + delta)
                                 (total p)) with
         | Ok _ => ([EvProgress (filename p) (uploaded p + delta) (total p)],
                    Ok {| total := total p;
                          uploaded := (uploaded p + delta)%Z;
                          filename := filename p |})
         | Raise e => ([], Raise e)
         end.
Proof.
  unfold Progress.call. cbn [total uploaded filename].
  destruct (total p =? 0)%Z; [reflexivity|].
  destruct (true_div_overflows _ _); [reflexivity|].
  rewrite thr_run_bind, run_bind, thr_run_print.
  by destruct (sys_stdout w h _).
Qed.

(** A transport only ever makes the tracker print progress lines. *)
Lemma feed_events w p ds h :
  ∃ ps r, Thr.run (Progress.feed w p ds) h = (ps, r) ∧ Forall is_progress ps.
Proof.
  revert p h. induction ds as [|d ds IH]; intros p h; cbn [Progress.feed].
  - exists [], (Ok p). split; [reflexivity | constructor].
  - rewrite thr_run_bind, run_bind, call_run.
    destruct (total p =? 0)%Z; [by eexists _, _|].
    destruct (true_div_overflows _ _); [by eexists _, _|].
    destruct (sys_stdout w h _); [|by eexists _, _].
    match goal with |- context [Thr.run (Progress.feed w ?p' ds) ?h'] =>
      destruct (IH p' h') as (ps & r & -> & Hps) end.
    eexists _, _. split; [reflexivity|]. constructor; [exact I | exact Hps].
Qed.

(** Increments that do not raise accumulate the uploaded bytes and leave
    the total and the label alone. *)
Lemma feed_state w p ds h ps p' :
  Thr.run (Progress.feed w p ds) h = (ps, Ok p') →
  filename p' = filename p ∧ total p' = total p ∧
  uploaded p' = (uploaded p + foldr Z.add 0 ds)%Z.
Proof.
  revert p h ps. induction ds as [|d ds IH]; intros p h ps; cbn [Progress.feed].
  - intros [= <- <-]. cbn. split_and!; [done | done | lia].
  - rewrite thr_run_bind, run_bind, call_run.
    destruct (total p =? 0)%Z; [discriminate|].
    destruct (true_div_overflows _ _); [discriminate|].
    destruct (sys_stdout w h _); [|discriminate].
    match goal with |- context [Thr.run (Progress.feed w ?q ds) ?h'] =>
      destruct (Thr.run (Progress.feed w q ds) h') as [ps' [q'|e]] eqn:E end;
      [|discriminate].
    intros [= <- <-]. apply IH in E as (-> & -> & ->).
    cbn. split_and!; [done | done | lia].
Qed.

Lemma call_emits w p delta : emits is_progress (Progress.call w p delta).
Proof.
  unfold Progress.call. cbn [total uploaded filename].
  destruct (total p =? 0)%Z; [done|].
  destruct (true_div_overflows _ _); [done|].
  apply emits_bind; [by apply emits_print | done].
Qed.

Lemma call_returns w p delta :
  returns (λ r, match r with
                | Ok p' => filename p' = filename p
                | Raise _ => True
                end) (Progress.call w p delta).
Proof.
  unfold Progress.call. cbn [total uploaded filename].
  destruct (total p =? 0)%Z; [done|].
  destruct (true_div_overflows _ _); [done|].
  intros h. cbn. by destruct (sys_stdout w h _).
Qed.

Lemma feed_emits w p ds : emits is_progress (Progress.feed w p ds).
Proof.
  revert p. induction ds as [|d ds IH]; intros p; cbn [Progress.feed]; [done|].
  apply emits_bind; [apply call_emits | intros p'; apply IH].
Qed.

Lemma feed_returns w p ds :
  returns (λ r, match r with
                | Ok p' => filename p' = filename p
                | Raise _ => True
                end) (Progress.feed w p ds).
Proof.
  revert p. induction ds as [|d ds IH]; intros p; cbn [Progress.feed]; [done|].
  apply returns_bind. eapply returns_weaken; [|apply call_returns].
  intros [p'|e]; [|done]. intros Hp'.
  eapply returns_weaken; [|apply IH]. intros [p''|e]; [|done]. congruence.
Qed.

(** C9: a tracker constructed with a total of zero bytes (the size of an
    empty file) raises ZeroDivisionError on its first increment, whatever
    the byte delta and whatever the standard output: the tracker can
    fail. *)
Theorem progress_zero_total_raises (w : World) (name : string) (delta : Z)
    (h : trace) :
  Thr.run (Progress.call w (Progress.init 0 name) delta) h
  = ([], Raise (Exn ZeroDivisionError "division by zero")).
Proof. reflexivity. Qed.

(** ** The upload worker *)

Lemma upload_file_run w ns b o fp part p h :
  Thr.run (upload_file w ns b o fp part p) h =
    let t := oci_upload_file w h ns b o fp part in
    let '(ps, r) := Thr.run (Progress.feed w p (tr_callbacks t))
                            (h ++ [EvUpload ns b o fp part]) in
    (EvUpload ns b o fp part :: ps,
     match r with
     | Ok p' => match tr_outcome t with
                | Ok response_headers => Ok (p', response_headers)
                | Raise e => Raise e
                end
     | Raise e => Raise e
     end).
Proof.
  unfold upload_file. cbv zeta.
  change (Thr.ask ?f ≫= ?g) with (Look (λ h, g (f h))).
  cbn [Thr.run].
  change (Thr.emit ?ev ≫= ?g) with (Out ev (g tt)).
  cbn [Thr.run]. rewrite thr_run_bind, run_bind.
  destruct (Thr.run (Progress.feed w p _) _) as [ps [p'|e]]; [|reflexivity].
  destruct (tr_outcome _); cbn; by rewrite app_nil_r.
Qed.

Lemma upload_file_events w ns b o fp part p h :
  ∃ ps, (Thr.run (upload_file w ns b o fp part p) h).1
        = EvUpload ns b o fp part :: ps ∧ Forall is_progress ps.
Proof.
  rewrite upload_file_run. cbv zeta.
  destruct (feed_events w p (tr_callbacks (oci_upload_file w h ns b o fp part))
              (h ++ [EvUpload ns b o fp part])) as (ps & r & -> & Hps).
  by exists ps.
Qed.

(** The worker, run without interruption. *)
Lemma upload_one_run w ns b fp o h :
  Thr.run (upload_one w ns b fp o) h =
    match os_stat w h fp with
    | Raise e => handled w fp e [] h
    | Ok st =>
        match Thr.run (upload_file w ns b o fp (2 * MEBIBYTE)
                         (Progress.init (st_size st) (path_basename w fp))) h with
        | (d, Ok (p, response_headers)) =>
            match sys_stdout w (h ++ d) (done_event w fp true) with
            | Ok _ =>
                (d ++ [done_event w fp true],
                 Ok (worker_dict w fp true "etag"
                       (dict_get response_headers "etag" VNone)))
            | Raise e => handled w fp e d h
            end
        | (d, Raise e) => handled w fp e d h
        end
    end.
Proof.
  unfold upload_one. rewrite thr_run_try. unfold try_except.
  rewrite thr_run_bind, run_bind. unfold getsize.
  change (Thr.run (Thr.ask_exc ?f ≫= ?g) h) with (Thr.run (Fin (f h) ≫= g) h).
  assert (Hh : ∀ e d,
    (let '(d', r) :=
       Thr.run (Progress.done w (Progress.init 1 (path_basename w fp)) false;;
                mret (worker_dict w fp false "error" (VStr (exn_str e))))
               (h ++ d) in (d ++ d', r)) = handled w fp e d h).
  { intros e d. rewrite thr_run_bind, run_bind. unfold Progress.done.
    rewrite thr_run_print. unfold handled, done_event. cbn [filename Progress.init].
    destruct (sys_stdout w (h ++ d) _); cbn; by rewrite ?app_nil_r. }
  destruct (os_stat w h fp) as [st|e].
  2:{ cbn [thread_bind mbind Thread_bind Thr.run]. by rewrite <- (Hh e []), app_nil_r. }
  cbn [thread_bind mbind Thread_bind Thr.run mret Thread_ret].
  change (thread_bind ?f (Fin (Ok ?a))) with (f a). cbn [Thr.run].
  rewrite app_nil_r. cbn [app].
  rewrite thr_run_bind, run_bind.
  destruct (Thr.run (upload_file _ _ _ _ _ _ _) h) as [d [[p hd]|e]] eqn:Eup.
  2:{ apply Hh. }
  assert (filename p = path_basename w fp) as Hname.
  { rewrite upload_file_run in Eup. cbv zeta in Eup.
    destruct (Thr.run (Progress.feed _ _ _) _) as [ps [p'|e]] eqn:Ef;
      [|discriminate].
    apply feed_state in Ef as (Hf & _). destruct (tr_outcome _); [|done].
    injection Eup as _ -> _. exact Hf. }
  rewrite thr_run_bind, run_bind. unfold Progress.done. rewrite thr_run_print.
  rewrite Hname. fold (done_event w fp true).
  destruct (sys_stdout w (h ++ d) (done_event w fp true)) as [[]|e].
  - cbn. by rewrite ?app_nil_r.
  - rewrite ?app_nil_r. apply Hh.
Qed.
(** ** The result dictionaries *)

Lemma worker_dict_file w fp success k v :
  worker_dict w fp success k v !! "file" = Some (VStr (path_basename w fp)).
Proof. unfold worker_dict. by rewrite lookup_insert_eq. Qed.

Lemma worker_dict_success w fp success k v :
  worker_dict w fp success k v !! "success" = Some (VBool success).
Proof.
  unfold worker_dict. rewrite lookup_insert_ne by done. by rewrite lookup_insert_eq.
Qed.

Lemma worker_dict_payload w fp success k v :
  worker_shape success k v → worker_dict w fp success k v !! k = Some v.
Proof.
  unfold worker_dict, worker_shape. intros Hk.
  assert (k = "etag" ∨ k = "error") as [-> | ->]
    by (destruct success; [by left | right; apply Hk]);
    rewrite !lookup_insert_ne by done; by rewrite lookup_singleton_eq.
Qed.

Lemma worker_dict_failed w fp success k v :
  failed (worker_dict w fp success k v) = negb success.
Proof. unfold failed, dict_get. by rewrite worker_dict_success. Qed.

(** ** The worker as a thread of the pool *)

Lemma upload_file_emits w ns b o fp p :
  emits (worker_event w ns b o fp) (upload_file w ns b o fp (2 * MEBIBYTE) p).
Proof.
  unfold upload_file. intros h. cbn [mbind Thread_bind thread_bind Thr.emit emits].
  split; [by left|].
  apply emits_bind.
  - eapply emits_weaken; [|apply feed_emits]. intros ev Hev. right. by left.
  - intros p'. by destruct (tr_outcome _).
Qed.

Lemma upload_file_returns w ns b o fp part p :
  returns (λ r, match r with
                | Ok pr => filename pr.1 = filename p
                | Raise _ => True
                end) (upload_file w ns b o fp part p).
Proof.
  unfold upload_file. intros h. cbn [mbind Thread_bind thread_bind Thr.emit returns].
  apply returns_bind. eapply returns_weaken; [|apply feed_returns].
  intros [p'|e]; [|done]. intros Hp'. by destruct (tr_outcome _).
Qed.

Lemma handler_emits w ns b o fp (r : gmap string pyval) :
  emits (worker_event w ns b o fp)
    (Progress.done w (Progress.init 1 (path_basename w fp)) false;; mret r).
Proof.
  apply emits_bind; [|done]. apply emits_print. right. right. by exists false.
Qed.

(** Whatever the world answers, the worker for [fp] calls the transport
    for [fp] and its key, prints progress lines and final lines for
    [fp], and nothing else. *)
Lemma upload_one_emits w ns b fp o :
  emits (worker_event w ns b o fp) (upload_one w ns b fp o).
Proof.
  unfold upload_one. apply emits_try; [|intros e; apply handler_emits].
  unfold getsize. intros h. cbn [mbind Thread_bind thread_bind Thr.ask_exc].
  destruct (os_stat w h fp) as [st|e]; [|done].
  cbn [thread_bind mret Thread_ret].
  eapply emits_bind_returns;
    [apply upload_file_emits | apply upload_file_returns |].
  intros [p hd] Hp. cbn [fst Progress.init filename] in Hp.
  apply emits_bind; [|done]. apply emits_print. right. right. exists true.
  unfold done_event. by rewrite Hp.
Qed.

(** When it returns, it returns a result for [fp]. *)
Lemma upload_one_returns w ns b fp o :
  returns (worker_result w fp) (upload_one w ns b fp o).
Proof.
  assert (Hh : ∀ e, returns (worker_result w fp)
            (Progress.done w (Progress.init 1 (path_basename w fp)) false;;
             mret (worker_dict w fp false "error" (VStr (exn_str e))))).
  { intros e h. cbn. destruct (sys_stdout w h _); [|done].
    cbn. exists false, "error", (VStr (exn_str e)). split; [done|]. split; eauto. }
  unfold upload_one. apply returns_try.
  unfold getsize. intros h. cbn [mbind Thread_bind thread_bind Thr.ask_exc].
  destruct (os_stat w h fp) as [st|e]; [|apply Hh].
  cbn [thread_bind mret Thread_ret].
  apply returns_bind. eapply returns_weaken; [|apply upload_file_returns].
  intros [[p hd]|e]; [|intros _; apply Hh]. intros _ h'. cbn.
  destruct (sys_stdout w h' _); [|apply Hh].
  cbn. by exists true, "etag", (dict_get hd "etag" VNone).
Qed.

(** On a standard output that takes every line, it returns. *)
Lemma upload_one_returns_ok w ns b fp o :
  stdout_open w → returns is_ok (upload_one w ns b fp o).
Proof.
  intros Hopen.
  assert (Hh : ∀ e, returns is_ok
            (Progress.done w (Progress.init 1 (path_basename w fp)) false;;
             mret (worker_dict w fp false "error" (VStr (exn_str e))))).
  { intros e h. cbn. by rewrite Hopen. }
  unfold upload_one. apply returns_try.
  unfold getsize. intros h. cbn [mbind Thread_bind thread_bind Thr.ask_exc].
  destruct (os_stat w h fp) as [st|e]; [|apply Hh].
  cbn [thread_bind mret Thread_ret].
  apply returns_bind.
  eapply returns_weaken; [|apply (upload_file_returns w ns b o fp)].
  intros [[p hd]|e]; [|intros _; apply Hh]. intros _ h'. cbn.
  by rewrite Hopen.
Qed.

(** Run without interruption on such an output, it returns a result
    after its final line. *)
Lemma upload_one_total w ns b fp o h :
  (∀ success d, sys_stdout w (h ++ d) (done_event w fp success) = Ok tt) →
  ∃ d success k v,
    Thr.run (upload_one w ns b fp o) h =
      (d ++ [done_event w fp success], Ok (worker_dict w fp success k v))
    ∧ worker_events ns b o fp d ∧ worker_shape success k v.
Proof.
  intros Hout. rewrite upload_one_run. unfold handled.
  destruct (os_stat w h fp) as [st|e].
  - destruct (upload_file_events w ns b o fp (2 * MEBIBYTE)
                (Progress.init (st_size st) (path_basename w fp)) h)
      as (ps & Hd & Hps).
    destruct (Thr.run (upload_file _ _ _ _ _ _ _) h) as [d [[p hd]|e]];
      cbn [fst] in Hd; subst d; rewrite !Hout.
    + exists (EvUpload ns b o fp (2 * MEBIBYTE) :: ps), true, "etag",
        (dict_get hd "etag" VNone).
      split_and!; [done | right; eauto | done].
    + exists (EvUpload ns b o fp (2 * MEBIBYTE) :: ps), false, "error",
        (VStr (exn_str e)).
      split_and!; [done | right; eauto | split; eauto].
  - rewrite Hout. exists [], false, "error", (VStr (exn_str e)).
    split_and!; [done | by left | split; eauto].
Qed.
(** ** The thread pool *)

Section PoolFacts.
Context {A X : Type}.
Variable max_workers : nat.
Variable body : A → M unit.
Variable out : A → list event.
Hypothesis body_out : ∀ a h, body a h = (out a, Ok tt).

Lemma moves_one h (p p' : Pool A) d :
  pool_move out h p d p' → pool_moves out h p d p'.
Proof.
  intros Hm. rewrite <- (app_nil_r d). econstructor; [exact Hm | constructor].
Qed.

Lemma moves_app h (p p' p'' : Pool A) d d' :
  pool_moves out h p d p' → pool_moves out (h ++ d) p' d' p'' →
  pool_moves out h p (d ++ d') p''.
Proof.
  induction 1 as [h p|h p d1 p1 d2 p2 Hm _ IH]; intros H2.
  - by rewrite app_nil_r in H2.
  - rewrite <- app_assoc. econstructor; [exact Hm|].
    apply IH. by rewrite <- app_assoc.
Qed.

(** Every choice of the schedule is a move, or two, of the pool. *)
Lemma work_moves i p h :
  pool_moves out h p (work max_workers i p h).1 (work max_workers i p h).2.
Proof.
  unfold work. destruct (can_start max_workers i p) eqn:Hc.
  - apply moves_one, move_start. unfold can_start in Hc.
    apply andb_true_iff in Hc as [[Hi Hlen]%andb_true_iff _].
    apply Nat.eqb_eq in Hi as ->. by apply Nat.ltb_lt.
  - destruct (i <? started p); [|constructor].
    destruct (calls p !! i) as [t|] eqn:Ht; [|constructor].
    pose proof (reaches_advance t h) as Hr.
    destruct (Thr.advance t h) as [r|ev k|k]; cbn [fst snd].
    + apply moves_one. by eapply move_work.
    + apply moves_one. eapply move_work; [exact Ht|].
      change [ev] with ([] ++ [ev]). eapply reaches_trans; [exact Hr|].
      repeat constructor.
    + apply moves_one. by eapply move_work.
Qed.

Lemma finish_moves i p h :
  pool_moves out h p (finish max_workers i p h).1 (finish max_workers i p h).2.
Proof.
  unfold finish.
  assert (pool_moves out h p []
            (if can_start max_workers i p then start p else p)) as H1.
  { destruct (can_start max_workers i p) eqn:Hc; [|constructor].
    apply moves_one, move_start. unfold can_start in Hc.
    apply andb_true_iff in Hc as [[Hi Hlen]%andb_true_iff _].
    apply Nat.eqb_eq in Hi as ->. by apply Nat.ltb_lt. }
  set (p1 := if can_start max_workers i p then start p else p) in *.
  destruct (i <? started p1); [|exact H1].
  destruct (calls p1 !! i) as [t|] eqn:Ht; [|exact H1].
  pose proof (reaches_run t h) as Hr.
  destruct (Thr.run t h) as [d r]. cbn [fst snd] in *.
  change d with ([] ++ d). eapply moves_app; [exact H1|].
  apply moves_one. rewrite app_nil_r. by eapply move_work.
Qed.

Lemma take_moves i p h :
  pool_moves out h p (take_result body i p h).1 (take_result body i p h).2.
Proof.
  unfold take_result. destruct (raised p) as [e|] eqn:Hr; [constructor|].
  destruct (bool_decide (i ∈ (taken p).*1)) eqn:Hin; [constructor|].
  apply bool_decide_eq_false in Hin.
  destruct (i <? started p) eqn:Hs; [|constructor].
  apply Nat.ltb_lt in Hs. cbn [negb orb].
  destruct (calls p !! i) as [[[a|e]|ev k|k]|] eqn:Ht; try constructor.
  - rewrite body_out. cbn [fst snd]. apply moves_one. by apply move_take.
  - cbn [fst snd]. apply moves_one. by eapply move_raise.
Qed.

Lemma pool_step_moves c p h :
  pool_moves out h p (pool_step max_workers body c p h).1
             (pool_step max_workers body c p h).2.
Proof.
  destruct c; [apply work_moves | apply finish_moves | apply take_moves].
Qed.

Lemma pool_run_moves sched p h :
  pool_moves out h p (pool_run max_workers body sched p h).1
             (pool_run max_workers body sched p h).2.
Proof.
  revert p h. induction sched as [|c sched IH]; intros p h; [constructor|].
  cbn [pool_run].
  pose proof (pool_step_moves c p h) as H1.
  destruct (pool_step max_workers body c p h) as [d p'].
  pose proof (IH p' (h ++ d)) as H2.
  destruct (pool_run max_workers body sched p' (h ++ d)) as [d' p''].
  by eapply moves_app.
Qed.

Lemma pool_run_app s1 s2 p h :
  pool_run max_workers body (s1 ++ s2) p h =
    let '(d, p') := pool_run max_workers body s1 p h in
    let '(d', p'') := pool_run max_workers body s2 p' (h ++ d) in
    (d ++ d', p'').
Proof.
  revert p h. induction s1 as [|c s1 IH]; intros p h; cbn [app pool_run].
  - rewrite app_nil_r. by destruct (pool_run max_workers body s2 p h).
  - destruct (pool_step max_workers body c p h) as [d p']. rewrite IH.
    destruct (pool_run max_workers body s1 p' (h ++ d)) as [d1 p1].
    rewrite <- (app_assoc h).
    destruct (pool_run max_workers body s2 p1 (h ++ d ++ d1)).
    by rewrite app_assoc.
Qed.

(** *** What stays true during a run *)

Variable E : event → Prop.
Variable Q : nat → Exc A → Prop.
Variable π : event → option X.
Hypothesis π_worker : ∀ ev, E ev → π ev = None.

Lemma omap_worker d : Forall E d → omap π d = [].
Proof.
  induction 1 as [|ev d Hev _ IH]; [reflexivity|].
  cbn [omap list_omap]. by rewrite (π_worker ev Hev).
Qed.

Lemma pool_inv_move n h d p d' p' :
  pool_inv out E Q π n d p → pool_move out h p d' p' →
  pool_inv out E Q π n (d ++ d') p'.
Proof.
  unfold pool_inv.
  intros (Hlen & Hst & Hcalls & Hev & Hπ & Hnd & Htk & Hrs) Hm.
  destruct Hm as [p|p Hlt|p i t d' t' Ht Hr|p i a Hr Hin Hi Ht|p i e Hr Ht];
    cbn [start set_call calls started taken raised].
  - by rewrite app_nil_r.
  - rewrite app_nil_r. split_and!; try done. lia.
  - destruct (Hcalls i t Ht) as [He Hq].
    destruct (reaches_emits E _ _ _ _ Hr He) as [Hd' He'].
    pose proof (reaches_returns (Q i) _ _ _ _ Hr Hq) as Hq'.
    split_and!; try done.
    + by rewrite length_insert.
    + intros j tj Hj. destruct (decide (i = j)) as [<-|Hne].
      * rewrite list_lookup_insert_eq in Hj by by eapply lookup_lt_Some.
        by injection Hj as <-.
      * rewrite list_lookup_insert_ne in Hj by done. by apply Hcalls.
    + apply Forall_app. split; [done|].
      eapply Forall_impl; [exact Hd'|]. intros ev ?. by left.
    + by rewrite omap_app, (omap_worker d' Hd'), app_nil_r.
  - destruct (Hcalls i _ Ht) as [_ Hq]. cbn [returns] in Hq.
    split_and!; try done.
    + apply Forall_app. split; [done|].
      apply Forall_forall. intros ev ?. right. by exists a.
    + rewrite omap_app, Hπ, !fmap_app, join_app, omap_app.
      cbn. by rewrite app_nil_r.
    + rewrite fmap_app. apply NoDup_app. split_and!; [done| |].
      * intros j Hj. cbn. rewrite list_elem_of_singleton. by intros ->.
      * cbn. apply NoDup_singleton.
    + intros j aj [Hj|Hj]%elem_of_app; [by apply Htk|].
      apply list_elem_of_singleton in Hj as [= -> ->].
      split; [|done]. apply lookup_lt_Some in Ht. lia.
  - destruct (Hcalls i _ Ht) as [_ Hq]. cbn [returns] in Hq.
    rewrite app_nil_r. split_and!; try done.
    intros e' [= <-]. exists i. split; [|done].
    apply lookup_lt_Some in Ht. lia.
Qed.

Lemma pool_inv_moves n h d0 p d p' :
  pool_inv out E Q π n d0 p → pool_moves out h p d p' →
  pool_inv out E Q π n (d0 ++ d) p'.
Proof.
  intros Hinv Hm. revert d0 Hinv.
  induction Hm as [h p|h p d1 p1 d2 p2 Hm _ IH]; intros d0 Hinv.
  - by rewrite app_nil_r.
  - rewrite app_assoc. apply IH. by eapply pool_inv_move.
Qed.

Lemma pool_inv_submitted (fs : list (Thread A)) :
  (∀ i t, fs !! i = Some t → emits E t ∧ returns (Q i) t) →
  pool_inv out E Q π (length fs) [] (submitted fs).
Proof.
  intros Hfs. unfold pool_inv. cbn [submitted calls started taken raised].
  split_and!; try done.
  - lia.
  - constructor.
  - by intros i a ?%elem_of_nil.
Qed.

End PoolFacts.
(** *** The end of a run

    When the schedule is over, every call runs to its end and the loop
    takes every result it has not taken, unless an exception ends it. *)

Section PoolEnd.
Context {A X : Type}.
Variable max_workers : nat.
Variable body : A → M unit.
Variable out : A → list event.
Hypothesis body_out : ∀ a h, body a h = (out a, Ok tt).
Hypothesis workers : 0 < max_workers.

Lemma filter_not_fin (l : list (Thread A)) :
  Forall (λ t, is_fin t = true) l → filter (λ t, is_fin t = false) l = [].
Proof.
  induction 1 as [|t l Ht _ IH]; [reflexivity|].
  rewrite filter_cons, IH. destruct (decide (is_fin t = false)); congruence.
Qed.

Lemma busy_none (p : Pool A) :
  (∀ j t, j < started p → calls p !! j = Some t → is_fin t = true) →
  busy p = 0.
Proof.
  intros Hfin. unfold busy. rewrite filter_not_fin; [reflexivity|].
  apply Forall_lookup. intros j t Hj.
  apply lookup_take_Some in Hj as [Hj Hlt]. by eapply Hfin.
Qed.

Lemma finish_step i (p : Pool A) h :
  i ≤ started p → started p ≤ length (calls p) → i < length (calls p) →
  ended_below i p →
  let p' := (finish max_workers i p h).2 in
  S i ≤ started p' ∧ started p' ≤ length (calls p')
  ∧ length (calls p') = length (calls p)
  ∧ ended_below (S i) p' ∧ taken p' = taken p ∧ raised p' = raised p.
Proof.
  intros Hi Hst Hlen Hend. unfold finish.
  set (p1 := if can_start max_workers i p then start p else p).
  assert (i < started p1 ∧ started p1 ≤ length (calls p1)
          ∧ calls p1 = calls p ∧ taken p1 = taken p ∧ raised p1 = raised p)
    as (Hi1 & Hst1 & Hc1 & Ht1 & Hr1).
  { subst p1. destruct (decide (i = started p)) as [->|Hne].
    - assert (can_start max_workers (started p) p = true) as ->.
      { unfold can_start. rewrite Nat.eqb_refl. cbn [andb].
        apply andb_true_iff. split; [by apply Nat.ltb_lt|].
        apply Nat.ltb_lt. by rewrite busy_none. }
      cbn [start started calls taken raised]. split_and!; try done; lia.
    - assert (can_start max_workers i p = false) as ->.
      { unfold can_start. by apply Nat.eqb_neq in Hne as ->. }
      split_and!; try done. lia. }
  apply Nat.ltb_lt in Hi1 as Hlt. rewrite Hlt.
  destruct (lookup_lt_is_Some_2 (calls p1) i) as [t Ht]; [by rewrite Hc1|].
  rewrite Ht. destruct (Thr.run t h) as [d r].
  cbn [snd set_call calls started taken raised]. rewrite length_insert.
  split_and!; try done; try lia; try congruence.
  intros j tj Hj Hl. cbn [set_call calls] in Hl.
  destruct (decide (i = j)) as [<-|Hne].
  - rewrite list_lookup_insert_eq in Hl by (by rewrite Hc1).
    by injection Hl as <-.
  - rewrite list_lookup_insert_ne in Hl by done. rewrite Hc1 in Hl.
    apply (Hend j); [lia | done].
Qed.

Lemma finish_from k i (p : Pool A) h :
  i ≤ started p → started p ≤ length (calls p) → i + k = length (calls p) →
  ended_below i p →
  let p' := (pool_run max_workers body (Finish <$> seq i k) p h).2 in
  started p' = length (calls p) ∧ length (calls p') = length (calls p)
  ∧ ended_below (length (calls p)) p'
  ∧ taken p' = taken p ∧ raised p' = raised p.
Proof.
  revert i p h. induction k as [|k IH]; intros i p h Hi Hst Hlen Hend.
  - cbn. rewrite Nat.add_0_r in Hlen. subst i. split_and!; try done. lia.
  - cbn [seq fmap list_fmap pool_run pool_step].
    destruct (finish_step i p h Hi Hst ltac:(lia) Hend)
      as (Hi1 & Hst1 & Hlen1 & Hend1 & Ht1 & Hr1).
    destruct (finish max_workers i p h) as [d p1]. cbn [snd] in *.
    specialize (IH (S i) p1 (h ++ d) Hi1 Hst1 ltac:(lia) Hend1).
    destruct (pool_run max_workers body (Finish <$> seq (S i) k) p1 (h ++ d))
      as [d' p2]. cbn [snd] in *. rewrite Hlen1 in IH.
    destruct IH as (? & ? & ? & ? & ?). split_and!; try done; congruence.
Qed.

Lemma take_from k i (p : Pool A) h :
  started p = length (calls p) → i + k = length (calls p) →
  ended_below (length (calls p)) p →
  (raised p = None → ∀ j, j < i → j ∈ (taken p).*1) →
  let p' := (pool_run max_workers body (Take <$> seq i k) p h).2 in
  raised p' = None → ∀ j, j < length (calls p) → j ∈ (taken p').*1.
Proof.
  revert i p h. induction k as [|k IH]; intros i p h Hst Hlen Hend Htk.
  - cbn. rewrite Nat.add_0_r in Hlen. subst i. exact Htk.
  - cbn [seq fmap list_fmap pool_run pool_step].
    assert (let p1 := (take_result body i p h).2 in
            calls p1 = calls p ∧ started p1 = started p
            ∧ (raised p1 = None → ∀ j, j < S i → j ∈ (taken p1).*1)) as H1.
    { unfold take_result. destruct (raised p) as [e|] eqn:Hr.
      { cbn [snd]. split_and!; try done. congruence. }
      destruct (bool_decide (i ∈ (taken p).*1)) eqn:Hin.
      { apply bool_decide_eq_true in Hin. cbn [orb snd].
        split_and!; try done.
        intros _ j Hj. destruct (decide (j = i)) as [->|]; [done|].
        apply Htk; [done | lia]. }
      assert ((i <? started p) = true) as -> by (apply Nat.ltb_lt; lia).
      cbn [negb orb].
      destruct (lookup_lt_is_Some_2 (calls p) i) as [t Ht]; [lia|].
      rewrite Ht. pose proof (Hend i t ltac:(lia) Ht) as Hfin.
      destruct t as [[a|e]|ev t|t]; try done.
      - rewrite body_out. cbn [snd calls started taken raised].
        split_and!; try done.
        intros _ j Hj. rewrite fmap_app, elem_of_app.
        destruct (decide (j = i)) as [->|].
        + right. by apply list_elem_of_singleton.
        + left. apply Htk; [done | lia]. }
    destruct (take_result body i p h) as [d p1]. cbn [snd] in *.
    destruct H1 as (Hc1 & Hs1 & Htk1).
    specialize (IH (S i) p1 (h ++ d)). rewrite Hc1, Hs1 in IH.
    assert (ended_below (length (calls p)) p1) as Hend1.
    { intros j t Hj Hl. rewrite Hc1 in Hl. by eapply Hend. }
    specialize (IH Hst ltac:(lia) Hend1 Htk1).
    by destruct (pool_run max_workers body (Take <$> seq (S i) k) p1 (h ++ d)).
Qed.

Variable E : event → Prop.
Variable Q : nat → Exc A → Prop.
Variable π : event → option X.
Hypothesis π_worker : ∀ ev, E ev → π ev = None.

(** The block as a whole. *)
Lemma executor_run sched (fs : list (Thread A)) h :
  (∀ i t, fs !! i = Some t → emits E t ∧ returns (Q i) t) →
  ∃ d p,
    executor max_workers body sched fs h =
      (d, match raised p with
          | Some e => Raise e
          | None => Ok ((taken p).*2)
          end)
    ∧ pool_inv out E Q π (length fs) d p
    ∧ (raised p = None → (taken p).*1 ≡ₚ seq 0 (length fs)).
Proof.
  intros Hfs. unfold executor.
  pose proof (pool_run_moves max_workers body out body_out
                (sched ++ remaining (length fs)) (submitted fs) h) as Hm.
  pose proof (pool_inv_moves out E Q π π_worker _ _ [] _ _ _
                (pool_inv_submitted out E Q π fs Hfs) Hm) as Hinv.
  cbn [app] in Hinv.
  assert (raised (pool_run max_workers body (sched ++ remaining (length fs))
                     (submitted fs) h).2 = None →
          ∀ j, j < length fs →
               j ∈ (taken (pool_run max_workers body
                             (sched ++ remaining (length fs))
                             (submitted fs) h).2).*1) as Hall.
  { rewrite pool_run_app.
    pose proof (pool_run_moves max_workers body out body_out
                  sched (submitted fs) h) as Hm1.
    pose proof (pool_inv_moves out E Q π π_worker _ _ [] _ _ _
                  (pool_inv_submitted out E Q π fs Hfs) Hm1) as Hinv1.
    destruct (pool_run max_workers body sched (submitted fs) h) as [d1 p1].
    cbn [fst snd app] in Hinv1. destruct Hinv1 as (Hlen1 & Hst1 & _).
    unfold remaining. rewrite pool_run_app.
    pose proof (finish_from (length fs) 0 p1 (h ++ d1) ltac:(lia) ltac:(lia)
                  ltac:(lia) ltac:(intros ???; lia)) as Hf.
    destruct (pool_run max_workers body (Finish <$> seq 0 (length fs)) p1
                (h ++ d1)) as [d2 p2].
    cbn [snd] in Hf. destruct Hf as (Hst2 & Hlen2 & Hend2 & _).
    pose proof (take_from (length fs) 0 p2 ((h ++ d1) ++ d2)
                  ltac:(congruence) ltac:(lia)
                  ltac:(by rewrite Hlen2) ltac:(intros _ ??; lia)) as Ht.
    destruct (pool_run max_workers body (Take <$> seq 0 (length fs)) p2
                ((h ++ d1) ++ d2)) as [d3 p3].
    cbn [snd] in *. intros Hr j Hj. apply Ht; [done | lia]. }
  destruct (pool_run max_workers body (sched ++ remaining (length fs))
              (submitted fs) h) as [d p].
  cbn [fst snd] in *. exists d, p. split_and!; [done..|].
  intros Hr. destruct Hinv as (_ & _ & _ & _ & _ & Hnd & Htk & _).
  apply NoDup_Permutation; [done | apply NoDup_seq |].
  intros j. rewrite elem_of_seq. split.
  - intros [[j' a] [-> Hin]]%list_elem_of_fmap. apply Htk in Hin. cbn. lia.
  - intros [_ Hj]. by apply Hall.
Qed.

End PoolEnd.
(** ** [upload_files] and its sessions *)

Lemma report_failure_run result h :
  report_failure result h = (report_lines result, Ok tt).
Proof.
  unfold report_failure, report_lines.
  by destruct (negb (truthy (dict_get result "success" (VBool false)))).
Qed.

Lemma report_lines_errors rs :
  omap error_line (mjoin (report_lines <$> rs))
  = failed_to_upload <$> filter (λ r, failed r) rs.
Proof.
  induction rs as [|r rs IH]; [reflexivity|].
  cbn [fmap list_fmap].
  change (mjoin (report_lines r :: (report_lines <$> rs)))
    with (report_lines r ++ mjoin (report_lines <$> rs)).
  rewrite omap_app, IH, filter_cons.
  unfold report_lines, failed.
  by destruct (negb (truthy (dict_get r "success" (VBool false)))).
Qed.

Lemma worker_event_no_error w ns b o fp ev :
  worker_event w ns b o fp ev → error_line ev = None.
Proof.
  intros [-> | [Hp | [s ->]]]; [done | by destruct ev | done].
Qed.

(** The positions of the futures taken, once all are taken, are those of
    the files in another order. *)
Lemma lookups_seq {A} (l pre : list A) :
  omap (λ i, (pre ++ l) !! i) (seq (length pre) (length l)) = l.
Proof.
  revert pre. induction l as [|x l IH]; intros pre; [reflexivity|].
  cbn [length seq omap list_omap]. rewrite list_lookup_middle by done.
  f_equal. specialize (IH (pre ++ [x])).
  rewrite <- app_assoc, length_app in IH. cbn in IH.
  by replace (length pre + 1) with (S (length pre)) in IH by lia.
Qed.

Lemma in_order_perm {A} c (l : list A) :
  c ≡ₚ seq 0 (length l) → in_order c l ≡ₚ l.
Proof.
  intros Hc. unfold in_order. rewrite Hc.
  pose proof (lookups_seq l []) as H. cbn [app length] in H. by rewrite H.
Qed.

(** [upload_session] is [upload_files]: same events, same exceptions. *)
Lemma upload_files_session w url lp sched h :
  upload_files w url lp sched h = forget VNone (upload_session w url lp sched h).
Proof.
  unfold upload_files, upload_session.
  destruct (oci w); cbn [negb]; [|reflexivity].
  revert h. apply forget_bind; intros path h; cbv zeta.
  revert h. apply forget_bind; intros ns h.
  revert h. apply forget_bind; intros b h.
  revert h. apply forget_bind; intros [] h.
  - revert h. apply forget_bind; intros walked h.
    revert h. apply forget_bind; intros _ h.
    rewrite run_bind.
    destruct (executor _ _ _ _ _) as [d [rs|e]]; cbn; by rewrite ?app_nil_r.
  - revert h. apply forget_bind; intros result h.
    revert h. apply forget_bind; intros success h.
    revert h. apply forget_bind; intros _ h. reflexivity.
Qed.

Lemma upload_session_no_oci w url lp sched h :
  oci w = false → upload_session w url lp sched h = ([], Raise import_error).
Proof. intros Ho. unfold upload_session. by rewrite Ho. Qed.

Lemma upload_session_parse_error w url lp sched h e :
  oci w = true → parse_target w url = Raise e →
  upload_session w url lp sched h = ([], Raise e).
Proof.
  intros Ho Hp. unfold upload_session, parse_target in *. rewrite Ho. cbn [negb].
  run1. destruct (urlparse_path w url) as [path|e1]; [|cbn; congruence].
  run1. destruct (py_index (path_parts path) 1) as [ns|e1]; [|cbn; congruence].
  run1. destruct (py_index (path_parts path) 3) as [b|e1]; cbn; congruence.
Qed.

(** A directory: the announcement, then the run of the pool. *)
Lemma upload_session_dir w url lp sched h ns b prefix :
  oci w = true → parse_target w url = Ok (ns, b, prefix) →
  os_path_isdir w h lp = true →
  let files := walk_files w (os_walk w h lp) in
  let line := uploading_line (length files) ns b prefix in
  ∃ d p,
    upload_session w url lp sched h =
      (line :: d, match raised p with
                  | Some e => Raise e
                  | None => Ok ((taken p).*2)
                  end)
    ∧ pool_inv report_lines
        (pool_event w ns b (object_name_in_dir w prefix lp) files)
        (pool_result w files) error_line (length files) d p
    ∧ (raised p = None → (taken p).*1 ≡ₚ seq 0 (length files)).
Proof.
  intros Ho Hp Hd files line.
  unfold upload_session, parse_target in *. rewrite Ho. cbn [negb].
  run1. destruct (urlparse_path w url) as [path|e1]; [|cbn; congruence].
  run1. destruct (py_index (path_parts path) 1) as [ns'|e1]; [|cbn; congruence].
  run1. destruct (py_index (path_parts path) 3) as [b'|e1]; [|cbn; congruence].
  injection Hp as -> -> <-.
  run1. unfold isdir. cbn [ask app]. rewrite !app_nil_r, Hd.
  run1. run1. cbn [app]. rewrite !app_nil_r.
  fold files. fold (uploading_line (length files) ns b (key_prefix (path_parts path))).
  set (oname := object_name_in_dir w (key_prefix (path_parts path)) lp).
  destruct (executor_run 4 report_failure report_lines report_failure_run
              ltac:(lia)
              (pool_event w ns b oname files) (pool_result w files) error_line
              ltac:(by intros ev (fp & _ & ?%worker_event_no_error))
              sched ((λ fp, upload_one w ns b fp (oname fp)) <$> files)
              (h ++ [uploading_line (length files) ns b
                       (key_prefix (path_parts path))]))
    as (d & p & E & Hinv & Hperm).
  { intros i t Hi. rewrite list_lookup_fmap in Hi.
    destruct (files !! i) as [fp|] eqn:Hfp; [|done]. injection Hi as <-.
    split.
    - eapply emits_weaken; [|apply upload_one_emits].
      intros ev Hev. exists fp. split; [by eapply list_elem_of_lookup_2 | done].
    - eapply returns_weaken; [|apply upload_one_returns].
      intros r Hr. by exists fp. }
  rewrite length_fmap in Hinv, Hperm.
  exists d, p. rewrite E. by destruct (raised p).
Qed.

(** the results of the futures taken, and the files they belong to *)
Lemma taken_files w files (tk : list (nat * gmap string pyval)) :
  (∀ i a, (i, a) ∈ tk → i < length files ∧ pool_result w files i (Ok a)) →
  result_files tk.*2
  = (λ fp, Some (VStr (path_basename w fp))) <$> in_order tk.*1 files.
Proof.
  induction tk as [|[i a] tk IH]; intros Htk; [reflexivity|].
  destruct (Htk i a ltac:(by left)) as (_ & fp & Hfp & success & k & v & -> & _).
  cbn [fmap list_fmap result_files in_order omap list_omap fst snd].
  rewrite Hfp. cbn [fmap list_fmap]. rewrite worker_dict_file. f_equal.
  apply IH. intros j aj Hj. apply Htk. by right.
Qed.

(** A single file: the worker in the calling thread, then one line of
    the log. *)
Lemma upload_session_single w url lp sched h ns b prefix :
  oci w = true → parse_target w url = Ok (ns, b, prefix) →
  os_path_isdir w h lp = false →
  match Thr.run (upload_one w ns b lp (prefix +:+ path_basename w lp)) h with
  | (dw, Raise e) => upload_session w url lp sched h = (dw, Raise e)
  | (dw, Ok a) =>
      ∃ success k v,
        a = worker_dict w lp success k v ∧ worker_shape success k v
        ∧ upload_session w url lp sched h =
            (dw ++ [single_line w lp success v], Ok [a])
  end
  ∧ Forall (worker_event w ns b (prefix +:+ path_basename w lp) lp)
      (Thr.run (upload_one w ns b lp (prefix +:+ path_basename w lp)) h).1.
Proof.
  intros Ho Hp Hd.
  pose proof (reaches_run (upload_one w ns b lp (prefix +:+ path_basename w lp)) h)
    as Hr.
  destruct (reaches_emits _ _ _ _ _ Hr (upload_one_emits w ns b lp _))
    as [Hev _].
  pose proof (reaches_returns _ _ _ _ _ Hr (upload_one_returns w ns b lp _))
    as Hres. cbn [returns] in Hres.
  split; [|exact Hev]. clear Hr Hev.
  unfold upload_session, parse_target in *. rewrite Ho. cbn [negb].
  run1. destruct (urlparse_path w url) as [path|e1]; [|cbn; congruence].
  run1. destruct (py_index (path_parts path) 1) as [ns'|e1]; [|cbn; congruence].
  run1. destruct (py_index (path_parts path) 3) as [b'|e1]; [|cbn; congruence].
  injection Hp as -> -> <-.
  run1. unfold isdir. cbn [ask app]. rewrite !app_nil_r, Hd.
  run1.
  destruct (Thr.run (upload_one _ _ _ _ _) h) as [dw [a|e]]; [|reflexivity].
  cbn [snd worker_result] in Hres. destruct Hres as (success & k & v & -> & Hsh).
  exists success, k, v. split_and!; [done..|].
  unfold dict_item, py_getitem. run1. rewrite worker_dict_success.
  cbn [truthy]. run1.
  destruct success.
  - assert (k = "etag") as -> by exact Hsh.
    rewrite worker_dict_file, (worker_dict_payload w lp true "etag" v Hsh).
    cbv [mbind M_bind lift log_info log_error emit mret M_ret single_line].
    rewrite ?app_nil_r, <- ?app_assoc. reflexivity.
  - assert (k = "error") as -> by apply Hsh.
    rewrite worker_dict_file, (worker_dict_payload w lp false "error" v Hsh).
    cbv [mbind M_bind lift log_info log_error emit mret M_ret single_line].
    rewrite ?app_nil_r, <- ?app_assoc. reflexivity.
Qed.

Lemma os_path_isdir_missing w h lp e :
  os_stat w h lp = Raise e → os_path_isdir w h lp = false.
Proof. unfold os_path_isdir. by intros ->. Qed.

(** Every event of a session is a line of the log or an action of the
    upload of one of its files. *)
Lemma upload_files_events w url lp sched h ns b prefix :
  oci w = true → parse_target w url = Ok (ns, b, prefix) →
  Forall (session_event w ns b prefix lp h) (upload_files w url lp sched h).1.
Proof.
  intros Ho Hp. rewrite upload_files_session. cbn [forget fst].
  unfold session_event.
  destruct (os_path_isdir w h lp) eqn:Hd.
  - destruct (upload_session_dir w url lp sched h ns b prefix Ho Hp Hd)
      as (d & p & -> & Hinv & _).
    cbn [fst]. constructor; [left; by eexists _, _|].
    destruct Hinv as (_ & _ & _ & Hev & _).
    eapply Forall_impl; [exact Hev|]. intros ev [Hw | (a & Ha)]; [by right|].
    left. unfold report_lines in Ha.
    destruct (negb _); [|by apply elem_of_nil in Ha].
    apply list_elem_of_singleton in Ha as ->. by eexists _, _.
  - destruct (upload_session_single w url lp sched h ns b prefix Ho Hp Hd)
      as [Hs Hev].
    destruct (Thr.run (upload_one _ _ _ _ _) h) as [dw [a|e]]; cbn [fst] in *.
    + destruct Hs as (success & k & v & _ & _ & ->). cbn [fst].
      apply Forall_app. split.
      * eapply Forall_impl; [exact Hev|]. intros ev ?. by right.
      * constructor; [|constructor]. left. destruct success; by eexists _, _.
    + rewrite Hs. cbn [fst]. eapply Forall_impl; [exact Hev|].
      intros ev ?. by right.
Qed.



(** ** What [upload_files] returns and reports *)

Lemma worker_events_no_error w ns b o fp d :
  Forall (worker_event w ns b o fp) d → error_lines d = [].
Proof.
  induction 1 as [|ev d Hev _ IH]; [reflexivity|].
  unfold error_lines in *. cbn [omap list_omap].
  change (match ev with EvLog ERROR msg => Some msg | _ => None end)
    with (error_line ev).
  by rewrite (worker_event_no_error _ _ _ _ _ _ Hev).
Qed.

(** C1 (as amended): a call of [upload_files] that completes returns
    None.  The results of the session are not handed back: they are the
    values [upload_session] exposes, and of them the caller sees only the
    log, which has one error line per failed result, in order. *)
Theorem upload_files_returns_none w url lp sched h d v :
  upload_files w url lp sched h = (d, Ok v) →
  v = VNone
  ∧ ∃ rs, upload_session w url lp sched h = (d, Ok rs)
          ∧ error_lines d = failed_to_upload <$> filter (λ r, failed r) rs.
Proof.
  rewrite upload_files_session.
  destruct (oci w) eqn:Ho.
  2:{ by rewrite upload_session_no_oci. }
  destruct (parse_target w url) as [[[ns b] prefix]|e] eqn:Hp.
  2:{ by rewrite (upload_session_parse_error w url lp sched h e Ho Hp). }
  destruct (os_path_isdir w h lp) eqn:Hd.
  - destruct (upload_session_dir w url lp sched h ns b prefix Ho Hp Hd)
      as (d' & p & -> & Hinv & _).
    destruct (raised p); [discriminate|].
    intros [= <- <-]. split; [done|]. eexists. split; [done|].
    destruct Hinv as (_ & _ & _ & _ & Hπ & _).
    unfold error_lines, uploading_line. cbn [omap list_omap].
    change (omap _ d') with (omap error_line d').
    by rewrite Hπ, report_lines_errors.
  - destruct (upload_session_single w url lp sched h ns b prefix Ho Hp Hd)
      as [Hs Hev].
    destruct (Thr.run (upload_one _ _ _ _ _) h) as [dw [a|e]]; cbn [fst] in *.
    2:{ by rewrite Hs. }
    destruct Hs as (success & k & v' & -> & Hsh & ->).
    intros [= <- <-]. split; [done|]. eexists. split; [done|].
    pose proof (worker_events_no_error _ _ _ _ _ _ Hev) as Hdw.
    unfold error_lines in *. rewrite omap_app, Hdw.
    rewrite filter_cons, filter_nil, worker_dict_failed.
    destruct success; [reflexivity|].
    assert (k = "error") as -> by apply Hsh.
    unfold failed_to_upload, dict_get.
    rewrite decide_True by done. cbn [fmap list_fmap].
    rewrite worker_dict_file, (worker_dict_payload w lp false "error" v' Hsh).
    reflexivity.
Qed.

(** C2 (as amended): when the path of the upload URL has fewer than four
    segments, [upload_files] raises and has emitted nothing: no transport
    call, no progress line, no log line. *)
Theorem upload_short_url_raises w url lp sched h path :
  urlparse_path w url = Ok path →
  length (path_parts path) < 4 →
  ∃ e, upload_files w url lp sched h = ([], Raise e).
Proof.
  intros Hp Hlen. unfold upload_files.
  destruct (oci w); cbn [negb]; [|eauto].
  run. rewrite Hp.
  destruct (py_index (path_parts path) 1) as [ns|e] eqn:E1; [|eauto].
  destruct (py_index_short (path_parts path) 3) as [e E3]; [lia|].
  rewrite E3. eauto.
Qed.

(** C3 (as amended): when the local path does not exist ([os.stat]
    raises [e]), the SDK is present, the URL parses and the FAILED TO
    UPLOAD line can be written to the standard output, [upload_files]
    does not raise: the worker turns [e] into a failed result, prints
    the line, the failure is logged, and the call returns None. *)
Theorem upload_missing_path_is_logged w url lp sched h ns b prefix e :
  oci w = true →
  parse_target w url = Ok (ns, b, prefix) →
  os_stat w h lp = Raise e →
  sys_stdout w h (done_event w lp false) = Ok tt →
  upload_files w url lp sched h =
    ([EvPrint (Progress.done_line (path_basename w lp) false);
      EvLog ERROR [Lit "Failed to upload "; Fmt (VStr (path_basename w lp));
                   Lit ": "; Fmt (VStr (exn_str e))]],
     Ok VNone).
Proof.
  intros Ho Hp Hst Hout. rewrite upload_files_session.
  destruct (upload_session_single w url lp sched h ns b prefix Ho Hp
              (os_path_isdir_missing w h lp e Hst)) as [Hs _].
  rewrite upload_one_run, Hst in Hs. unfold handled in Hs.
  rewrite app_nil_r, Hout in Hs.
  destruct Hs as (success & k & v & Hr & Hsh & ->).
  assert (success = false) as ->.
  { apply (f_equal (λ m : gmap string pyval, m !! "success")) in Hr.
    rewrite !worker_dict_success in Hr. by injection Hr. }
  assert (k = "error") as -> by apply Hsh.
  apply (f_equal (λ m : gmap string pyval, m !! "error")) in Hr.
  rewrite (worker_dict_payload w lp false "error" v Hsh) in Hr.
  rewrite (worker_dict_payload w lp false "error" (VStr (exn_str e))) in Hr
    by (split; eauto).
  injection Hr as <-. reflexivity.
Qed.

(** C4 (as amended): for a directory in which [os.walk] lists N files,
    whatever the schedule of the pool, a session that completes has
    exactly N results, one per file, and the [file] entry of each is the
    basename of its file: the entries are those basenames in the order
    in which the futures were taken, hence, up to order, the basenames
    of the files under the directory (which need not be distinct).  The
    session completes when the standard output takes every line. *)
Theorem upload_directory_results w url lp sched h ns b prefix :
  oci w = true →
  parse_target w url = Ok (ns, b, prefix) →
  os_path_isdir w h lp = true →
  (∀ d rs,
     upload_session w url lp sched h = (d, Ok rs) →
     upload_files w url lp sched h = (d, Ok VNone)
     ∧ length rs = length (walk_files w (os_walk w h lp))
     ∧ (∃ c, c ≡ₚ seq 0 (length (walk_files w (os_walk w h lp)))
             ∧ result_files rs =
                 (λ fp, Some (VStr (path_basename w fp)))
                   <$> in_order c (walk_files w (os_walk w h lp)))
     ∧ result_files rs ≡ₚ
         (λ fp, Some (VStr (path_basename w fp)))
           <$> walk_files w (os_walk w h lp))
  ∧ (stdout_open w → ∃ d rs, upload_session w url lp sched h = (d, Ok rs)).
Proof.
  intros Ho Hp Hd.
  destruct (upload_session_dir w url lp sched h ns b prefix Ho Hp Hd)
    as (d' & p & E & Hinv & Hperm).
  split.
  - intros d rs Hrun. rewrite upload_files_session, Hrun.
    split; [reflexivity|]. rewrite E in Hrun.
    destruct (raised p); [discriminate|]. injection Hrun as <- <-.
    specialize (Hperm eq_refl).
    destruct Hinv as (_ & _ & _ & _ & _ & _ & Htk & _).
    pose proof (taken_files w _ _ Htk) as Hfiles.
    split_and!.
    + rewrite length_fmap, <- (length_fmap fst), Hperm. apply length_seq.
    + by exists (taken p).*1.
    + rewrite Hfiles. by rewrite (in_order_perm _ _ Hperm).
  - intros Hopen.
    destruct (executor_run 4 report_failure report_lines report_failure_run
                ltac:(lia) (λ _, True) (λ (_ : nat) r, is_ok r)
                (λ _ : event, @None unit) ltac:(done) sched
                ((λ fp, upload_one w ns b fp
                          (object_name_in_dir w prefix lp fp))
                   <$> walk_files w (os_walk w h lp))
                (h ++ [uploading_line (length (walk_files w (os_walk w h lp)))
                         ns b prefix]))
      as (d2 & p2 & E2 & Hinv2 & _).
    { intros i t Hi. apply list_elem_of_lookup_2, list_elem_of_fmap in Hi
        as (fp & -> & _).
      split.
      - eapply emits_weaken; [|apply upload_one_emits]. done.
      - by apply upload_one_returns_ok. }
    destruct Hinv2 as (_ & _ & _ & _ & _ & _ & _ & Hrs).
    destruct (raised p2) as [e|] eqn:Hr2.
    { destruct (Hrs e eq_refl) as (i & _ & []). }
    clear E. revert E2. unfold upload_session, parse_target in *.
    rewrite Ho. cbn [negb]. run1.
    destruct (urlparse_path w url) as [path|e1]; [|cbn in Hp; congruence].
    run1.
    destruct (py_index (path_parts path) 1) as [ns'|e1]; [|cbn in Hp; congruence].
    run1.
    destruct (py_index (path_parts path) 3) as [b'|e1]; [|cbn in Hp; congruence].
    injection Hp as -> -> <-.
    run1. unfold isdir. cbn [ask app]. rewrite !app_nil_r, Hd.
    run1. run1. cbn [app]. rewrite !app_nil_r.
    unfold uploading_line. intros ->. by eexists _, _.
Qed.

(** ** Object keys *)


(** C6: the worker can raise.  When the transport call raises [e] and
    the FAILED TO UPLOAD line cannot be written to the standard output
    ([print] raises [e']), the handler of [upload_one] does not return
    the failed result: [upload_one] raises [e'], after the events of the
    transport call and without a final line. *)
Theorem upload_one_propagates w ns b fp o h st d e e' :
  os_stat w h fp = Ok st →
  Thr.run (upload_file w ns b o fp (2 * MEBIBYTE)
             (Progress.init (st_size st) (path_basename w fp))) h
    = (d, Raise e) →
  sys_stdout w (h ++ d) (done_event w fp false) = Raise e' →
  Thr.run (upload_one w ns b fp o) h = (d, Raise e').
Proof.
  intros Hst Hup Hout. rewrite upload_one_run, Hst, Hup. unfold handled.
  by rewrite Hout.
Qed.

(** C10: without the OCI SDK every call of [upload_files] raises
    ImportError at once, with nothing emitted and whatever the URL, the
    local path and the filesystem are; the other operations do not
    consult the SDK and behave exactly as in the same world with the SDK
    installed. *)
Theorem upload_needs_oci w self :
  oci w = false →
  (∀ url lp sched h, upload_files w url lp sched h = ([], Raise import_error))
  ∧ (∀ name alg,
       init_batch w self name alg = init_batch (with_oci true w) self name alg)
  ∧ (∀ id, start_batch w self id = start_batch (with_oci true w) self id)
  ∧ (∀ id, get_batch_status w self id = get_batch_status (with_oci true w) self id)
  ∧ (∀ id, get_results w self id = get_results (with_oci true w) self id)
  ∧ (∀ id out,
       download_results w self id out
       = download_results (with_oci true w) self id out)
  ∧ (∀ n, get_all_batches w self n = get_all_batches (with_oci true w) self n)
  ∧ get_algorithms w self = get_algorithms (with_oci true w) self.
Proof.
  intros Ho. split_and!; try reflexivity.
  intros url lp sched h. unfold upload_files. by rewrite Ho.
Qed.

(** ** The control plane *)

Lemma api_call_run w r failure h :
  api_call w r failure h =
    match http_json w h r with
    | Ok v => ([EvHttp r], Ok v)
    | Raise e =>
        if is_request_exception e
        then ([EvHttp r;
               EvLog ERROR (failure ++ [Lit ": "; Fmt (VStr (exn_str e))])],
              Raise e)
        else ([EvHttp r], Raise e)
    end.
Proof.
  unfold api_call, try_except. run.
  destruct (http_json w h r) as [v|e]; [reflexivity|].
  destruct (is_request_exception e); reflexivity.
Qed.







(** [run_batch], stage by stage. *)
Lemma run_batch_run w self alg ip name sched h :
  run_batch w self alg ip name sched h =
    match init_batch w self name alg (h ++ [log1]) with
    | (d1, Raise e) => (log1 :: d1, Raise e)
    | (d1, Ok info) =>
      match py_getitem info "object_storage_url" with
      | Raise e => (log1 :: d1, Raise e)
      | Ok url =>
        match py_getitem info "batch_id" with
        | Raise e => (log1 :: d1, Raise e)
        | Ok id =>
          match upload_files w url ip sched (h ++ log1 :: d1 ++ [log2]) with
          | (d2, Raise e) => (log1 :: d1 ++ log2 :: d2, Raise e)
          | (d2, Ok _) =>
            match start_batch w self id
                    (h ++ log1 :: d1 ++ log2 :: d2 ++ [log3]) with
            | (d3, Raise e) => (log1 :: d1 ++ log2 :: d2 ++ log3 :: d3, Raise e)
            | (d3, Ok start_response) =>
              match get_batch_status w self id
                      (h ++ log1 :: d1 ++ log2 :: d2 ++ log3 :: d3 ++ [log4]) with
              | (d4, Raise e) =>
                  (log1 :: d1 ++ log2 :: d2 ++ log3 :: d3 ++ log4 :: d4, Raise e)
              | (d4, Ok status) =>
                  (log1 :: d1 ++ log2 :: d2 ++ log3 :: d3 ++ log4 :: d4,
                   Ok (VDict {[ "batch_id" := id;
                                "start_response" := start_response;
                                "status" := status ]}))
              end
            end
          end
        end
      end
    end.
Proof.
  unfold run_batch. run. fold log1 log2 log3 log4.
  destruct (init_batch _ _ _ _ _) as [d1 [info|e]]; [|reflexivity].
  destruct (py_getitem info "object_storage_url") as [url|e]; [|by norm].
  destruct (py_getitem info "batch_id") as [id|e]; [|by norm].
  norm.
  destruct (upload_files _ _ _ _ _) as [d2 [u|e]]; [|by norm].
  norm.
  destruct (start_batch _ _ _ _) as [d3 [sr|e]]; [|by norm].
  norm.
  destruct (get_batch_status _ _ _ _) as [d4 [st|e]]; by norm.
Qed.


(** ** Downloads *)

Lemma download_file_fetch_failure w par_url out fi h name url e :
  py_getitem fi "name" = Ok (VStr name) →
  urljoin w par_url (VStr name) = Ok url →
  http_stream w (h ++ [downloading (VStr name)]) url = Raise e →
  is_request_exception e = true →
  download_file w par_url out fi h =
    ([downloading (VStr name); EvGetStream url; download_failed (VStr name) e],
     Ok tt).
Proof.
  intros Hn Hu Hs He. unfold download_file, try_except, join_name. run.
  rewrite Hn, Hu. norm. fold (downloading (VStr name)). rewrite Hs, He. reflexivity.
Qed.

(** C8 (as amended): [download_results] raises what [get_results]
    raises, and raises ValueError when the metadata has no PAR URL.
    Inside the loop, an entry whose request fails with a
    RequestException is logged as failed, no file is opened or written
    for it (the entry leaves exactly three events: the announcement, the
    request and the error line), and the loop goes on with the next
    entry, its outcome being that of the remaining entries. *)
Theorem download_skips_failed_fetch w self :
  (∀ batch_id out h d e,
     get_results w self batch_id h = (d, Raise e) →
     download_results w self batch_id out h = (d, Raise e))
  ∧ (∀ batch_id out h d results,
       get_results w self batch_id h = (d, Ok (VDict results)) →
       truthy (dict_get results "par_url" VNone) = false →
       download_results w self batch_id out h =
         (d, Raise (Exn ValueError "No PAR URL found for this batch.")))
  ∧ (∀ par_url out fi rest h name url e,
       py_getitem fi "name" = Ok (VStr name) →
       urljoin w par_url (VStr name) = Ok url →
       http_stream w (h ++ [downloading (VStr name)]) url = Raise e →
       is_request_exception e = true →
       let d := [downloading (VStr name); EvGetStream url;
                 download_failed (VStr name) e] in
       download_file w par_url out fi h = (d, Ok tt)
       ∧ for_each (download_file w par_url out) (fi :: rest) h =
           ((d ++ (for_each (download_file w par_url out) rest (h ++ d)).1),
            (for_each (download_file w par_url out) rest (h ++ d)).2)).
Proof.
  split_and!.
  - intros batch_id out h d e E. unfold download_results.
    rewrite run_bind, E. reflexivity.
  - intros batch_id out h d results E Hp. unfold download_results.
    rewrite run_bind, E. unfold py_get. run. rewrite Hp. cbn [negb]. by norm.
  - intros par_url out fi rest h name url e Hn Hu Hs He d.
    pose proof (download_file_fetch_failure w par_url out fi h name url e
                  Hn Hu Hs He) as E.
    split; [exact E|].
    cbn [for_each]. rewrite run_bind, E.
    by destruct (for_each _ rest _).
Qed.

(** ** The scenarios *)

Section Scenarios.
Import Scenario.

(** C1, the claim as stated fails: a session without failure and a
    session with one failure both return None; neither the results nor
    the failure count reach the caller. *)
Lemma session_outcome_not_returned :
  upload_files one_file target_url "a.txt" [] []
    = (uploaded_a "prefix/a.txt", Ok VNone)
  ∧ upload_files one_file_broken target_url "a.txt" [] [] = (broken_a, Ok VNone)
  ∧ session_failures (upload_session one_file target_url "a.txt" [] []) = Some 0
  ∧ session_failures (upload_session one_file_broken target_url "a.txt" [] [])
    = Some 1.
Proof. split_and!; vm_compute; reflexivity. Qed.

Lemma upload_files_returns_none_witness :
  upload_files one_file_broken target_url "a.txt" [] [] = (broken_a, Ok VNone)
  ∧ (VNone = VNone
     ∧ ∃ rs, upload_session one_file_broken target_url "a.txt" [] []
             = (broken_a, Ok rs)
             ∧ error_lines broken_a
               = failed_to_upload <$> filter (λ r, failed r) rs).
Proof.
  split; [vm_compute; reflexivity|].
  apply (upload_files_returns_none one_file_broken target_url "a.txt" [] []
           broken_a VNone).
  vm_compute; reflexivity.
Defined.

(** C2, the claim as stated fails: a URL path of four segments is
    fewer than five, and yet the file is uploaded, under the key /a.txt,
    with its progress lines. *)
Lemma four_segments_are_uploaded :
  urlparse_path one_file four_segment_url = Ok "/n/ns/b/bucket"
  ∧ path_parts "/n/ns/b/bucket" = ["n"; "ns"; "b"; "bucket"]
  ∧ length (path_parts "/n/ns/b/bucket") < 5
  ∧ upload_files one_file four_segment_url "a.txt" [] []
    = (uploaded_a "/a.txt", Ok VNone).
Proof. split_and!; vm_compute; (reflexivity || lia). Qed.

Lemma upload_short_url_raises_witness :
  urlparse_path one_file three_segment_url = Ok "/n/ns/b"
  ∧ length (path_parts "/n/ns/b") < 4
  ∧ ∃ e, upload_files one_file three_segment_url "a.txt" [] [] = ([], Raise e).
Proof.
  split; [reflexivity|]. split; [vm_compute; lia|].
  apply (upload_short_url_raises one_file three_segment_url "a.txt" [] []
           "/n/ns/b"); [reflexivity | vm_compute; lia].
Defined.

(** C3, the claim as stated fails: the local path does not exist, and
    [upload_files] returns None after printing and logging the
    failure. *)
Lemma missing_path_returns_normally :
  os_stat nothing_local [] "missing.txt" = Raise (no_such_file "missing.txt")
  ∧ upload_files nothing_local target_url "missing.txt" [] []
    = (missing_events, Ok VNone).
Proof. split; vm_compute; reflexivity. Qed.

Lemma upload_missing_path_is_logged_witness :
  oci nothing_local = true
  ∧ parse_target nothing_local target_url = Ok ("ns", "bucket", "prefix/")
  ∧ os_stat nothing_local [] "missing.txt" = Raise (no_such_file "missing.txt")
  ∧ sys_stdout nothing_local [] (done_event nothing_local "missing.txt" false)
    = Ok tt
  ∧ upload_files nothing_local target_url "missing.txt" [] [] =
      ([EvPrint (Progress.done_line (path_basename nothing_local "missing.txt")
                   false);
        EvLog ERROR
          [Lit "Failed to upload ";
           Fmt (VStr (path_basename nothing_local "missing.txt"));
           Lit ": "; Fmt (VStr (exn_str (no_such_file "missing.txt")))]],
       Ok VNone).
Proof.
  split; [reflexivity|]. split; [vm_compute; reflexivity|].
  split; [reflexivity|]. split; [reflexivity|].
  apply (upload_missing_path_is_logged nothing_local target_url "missing.txt"
           [] [] "ns" "bucket" "prefix/" (no_such_file "missing.txt"));
    [reflexivity | vm_compute; reflexivity | reflexivity | reflexivity].
Defined.

(** C4, the claim as stated fails: the directory has two files, a/x.txt
    and b/x.txt, and the two results carry the same filename. *)
Lemma twin_files_share_a_filename :
  walk_files twins (os_walk twins [] "D") = ["D/a/x.txt"; "D/b/x.txt"]
  ∧ session_files (upload_session twins target_url "D" [] [])
    = [Some (VStr "x.txt"); Some (VStr "x.txt")]
  ∧ ¬ NoDup [Some (VStr "x.txt"); Some (VStr "x.txt")].
Proof.
  split; [vm_compute; reflexivity|]. split; [vm_compute; reflexivity|].
  intros [Hin _]%NoDup_cons. apply Hin. by left.
Qed.

Lemma upload_directory_results_witness :
  oci tree = true
  ∧ parse_target tree target_url = Ok ("ns", "bucket", "prefix/")
  ∧ os_path_isdir tree [] "D" = true
  ∧ ∃ d rs,
      upload_session tree target_url "D" taking_turns [] = (d, Ok rs)
      ∧ upload_files tree target_url "D" taking_turns [] = (d, Ok VNone)
      ∧ length rs = length (walk_files tree (os_walk tree [] "D"))
      ∧ (∃ c, c ≡ₚ seq 0 (length (walk_files tree (os_walk tree [] "D")))
              ∧ result_files rs =
                  (λ fp, Some (VStr (path_basename tree fp)))
                    <$> in_order c (walk_files tree (os_walk tree [] "D")))
      ∧ result_files rs ≡ₚ
          (λ fp, Some (VStr (path_basename tree fp)))
            <$> walk_files tree (os_walk tree [] "D").
Proof.
  split; [reflexivity|]. split; [vm_compute; reflexivity|].
  split; [reflexivity|].
  destruct (upload_directory_results tree target_url "D" taking_turns []
              "ns" "bucket" "prefix/" eq_refl eq_refl eq_refl)
    as [Hall Hruns].
  destruct Hruns as (d & rs & E); [by intros h line|].
  exists d, rs. split; [exact E|]. by apply Hall.
Defined.



(** C6, at the failing input: the name of the file cannot be encoded
    for the standard output, the transport fails, and [upload_one]
    raises UnicodeEncodeError instead of returning the failed result. *)
Lemma upload_one_propagates_witness :
  os_stat unprintable [] latin1_name = Ok (Stat false 10)
  ∧ Thr.run (upload_file unprintable "ns" "bucket" ("prefix/" +:+ latin1_name)
               latin1_name (2 * MEBIBYTE)
               (Progress.init (st_size (Stat false 10))
                  (path_basename unprintable latin1_name))) []
    = ([EvUpload "ns" "bucket" ("prefix/" +:+ latin1_name) latin1_name
          (2 * MEBIBYTE)], Raise connection_reset)
  ∧ sys_stdout unprintable
      ([] ++ [EvUpload "ns" "bucket" ("prefix/" +:+ latin1_name) latin1_name
                (2 * MEBIBYTE)])
      (done_event unprintable latin1_name false) = Raise cannot_encode
  ∧ Thr.run (upload_one unprintable "ns" "bucket" latin1_name
               ("prefix/" +:+ latin1_name)) []
    = ([EvUpload "ns" "bucket" ("prefix/" +:+ latin1_name) latin1_name
          (2 * MEBIBYTE)], Raise cannot_encode).
Proof.
  split; [reflexivity|]. split; [vm_compute; reflexivity|].
  split; [vm_compute; reflexivity|].
  apply (upload_one_propagates unprintable "ns" "bucket" latin1_name
           ("prefix/" +:+ latin1_name) [] (Stat false 10) _ connection_reset
           cannot_encode);
    [reflexivity | vm_compute; reflexivity | vm_compute; reflexivity].
Defined.


(** C8, the claim as stated fails: when the results endpoint is down,
    [download_results] raises the RequestException; when the metadata
    has no PAR URL, it raises ValueError. *)
Lemma download_results_can_raise :
  (download_results one_file client (VInt 7) "downloads" []).2
    = Raise server_error
  ∧ (download_results service_without_par client (VInt 7) "downloads" []).2
    = Raise (Exn ValueError "No PAR URL found for this batch.").
Proof. split; vm_compute; reflexivity. Qed.

Lemma download_skips_failed_fetch_witness :
  (get_results one_file client (VInt 7) []
     = ([EvHttp (Request GET [Fmt (VStr "https://api.example"); Lit "/batches/";
                               Fmt (VInt 7); Lit "/results"]
                   (headers client) ∅ None);
         EvLog ERROR [Lit "Failed to get results for batch "; Fmt (VInt 7);
                      Lit ": "; Fmt (VStr "503 Server Error")]],
        Raise server_error)
   ∧ (download_results one_file client (VInt 7) "downloads" []).2
     = Raise server_error)
  ∧ (truthy (dict_get {[ "result_files" := VList [] ]} "par_url" VNone) = false
     ∧ (download_results service_without_par client (VInt 7) "downloads" []).2
       = Raise (Exn ValueError "No PAR URL found for this batch."))
  ∧ (py_getitem out_tif "name" = Ok (VStr "out.tif")
     ∧ urljoin (service target_url) (VStr "https://par/") (VStr "out.tif")
       = Ok "https://par/out.tif"
     ∧ http_stream (service target_url) ([] ++ [downloading (VStr "out.tif")])
         "https://par/out.tif" = Raise not_found
     ∧ is_request_exception not_found = true
     ∧ download_file (service target_url) (VStr "https://par/") "downloads"
         out_tif []
       = ([downloading (VStr "out.tif"); EvGetStream "https://par/out.tif";
           download_failed (VStr "out.tif") not_found], Ok tt)
     ∧ for_each (download_file (service target_url) (VStr "https://par/")
                   "downloads") [out_tif; out_tif] []
       = ([downloading (VStr "out.tif"); EvGetStream "https://par/out.tif";
           download_failed (VStr "out.tif") not_found;
           downloading (VStr "out.tif"); EvGetStream "https://par/out.tif";
           download_failed (VStr "out.tif") not_found], Ok tt)).
Proof.
  pose proof (download_skips_failed_fetch one_file client) as (HA & _ & _).
  pose proof (download_skips_failed_fetch service_without_par client)
    as (_ & HB & _).
  pose proof (download_skips_failed_fetch (service target_url) client)
    as (_ & _ & HC).
  split; [|split].
  - split; [vm_compute; reflexivity|].
    erewrite HA; [reflexivity | vm_compute; reflexivity].
  - split; [vm_compute; reflexivity|].
    erewrite (HB (VInt 7) "downloads" [] _ {[ "result_files" := VList [] ]});
      [reflexivity | vm_compute; reflexivity | vm_compute; reflexivity].
  - do 4 (split; [vm_compute; reflexivity|]).
    split.
    + apply (HC (VStr "https://par/") "downloads" out_tif [] [] "out.tif"
               "https://par/out.tif" not_found); vm_compute; reflexivity.
    + rewrite (proj2 (HC (VStr "https://par/") "downloads" out_tif [out_tif] []
                        "out.tif" "https://par/out.tif" not_found
                        eq_refl eq_refl eq_refl eq_refl)).
      vm_compute; reflexivity.
Defined.

Lemma upload_needs_oci_witness :
  oci no_sdk = false
  ∧ upload_files no_sdk target_url "a.txt" [] [] = ([], Raise import_error)
  ∧ init_batch no_sdk client (Some "job") 26
    = init_batch (with_oci true no_sdk) client (Some "job") 26
  ∧ download_results no_sdk client (VInt 7) "downloads"
    = download_results (with_oci true no_sdk) client (VInt 7) "downloads".
Proof.
  pose proof (upload_needs_oci no_sdk client eq_refl)
    as (Hup & Hinit & _ & _ & _ & Hdl & _).
  split; [reflexivity|]. split; [apply Hup|]. split; [apply Hinit | apply Hdl].
Defined.

End Scenarios.

(** ** Strings *)

Lemma append_cons a (s t : string) : String a s +:+ t = String a (s +:+ t).
Proof. reflexivity. Qed.

Lemma append_empty_r (s : string) : s +:+ "" = s.
Proof. induction s as [|a s IH]; [reflexivity|]. by rewrite append_cons, IH. Qed.

Lemma append_assoc (s t u : string) : (s +:+ t) +:+ u = s +:+ (t +:+ u).
Proof.
  induction s as [|a s IH]; [reflexivity|]. by rewrite !append_cons, IH.
Qed.

Lemma rev_app_rev_app (s t u : string) :
  String.rev_app (String.rev_app s t) u = String.rev_app t (s +:+ u).
Proof.
  revert t u. induction s as [|a s IH]; intros t u; [reflexivity|].
  cbn [String.rev_app]. by rewrite IH.
Qed.

Lemma rev_involutive (s : string) : String.rev (String.rev s) = s.
Proof.
  unfold String.rev. rewrite rev_app_rev_app. cbn [String.rev_app].
  apply append_empty_r.
Qed.

Lemma rev_app_append (s t : string) :
  String.rev_app s t = String.rev_app s "" +:+ t.
Proof.
  revert t. induction s as [|a s IH]; intros t; [reflexivity|].
  cbn [String.rev_app]. rewrite (IH (String a "")), IH, append_assoc. reflexivity.
Qed.

Lemma rev_append (s t : string) :
  String.rev (s +:+ t) = String.rev t +:+ String.rev s.
Proof.
  unfold String.rev. induction s as [|a s IH].
  - by rewrite append_empty_r.
  - rewrite append_cons. cbn [String.rev_app].
    rewrite (rev_app_append (s +:+ t)), (rev_app_append s), IH, append_assoc.
    reflexivity.
Qed.

Lemma chars_snoc c k : chars c k +:+ String c "" = String c (chars c k).
Proof.
  induction k as [|k IH]; [reflexivity|].
  cbn [chars]. by rewrite append_cons, IH.
Qed.

Lemma rev_chars c k : String.rev (chars c k) = chars c k.
Proof.
  induction k as [|k IH]; [reflexivity|].
  change (chars c (S k)) with (String c "" +:+ chars c k) at 1.
  rewrite rev_append, IH. apply chars_snoc.
Qed.

Lemma ascii_eqb_eq a b : Ascii.eqb a b = true → a = b.
Proof. apply Ascii.eqb_eq. Qed.

(** [lstrip] removes leading copies of the character, and only those. *)
Lemma lstrip_spec c s :
  ∃ k, s = chars c k +:+ PyStr.lstrip c s
       ∧ starts_with c (PyStr.lstrip c s) = false.
Proof.
  induction s as [|a s (k & Hs & Hk)].
  - by exists 0.
  - cbn [PyStr.lstrip]. destruct (Ascii.eqb a c) eqn:E.
    + apply ascii_eqb_eq in E as ->. exists (S k). split; [|done].
      cbn [chars]. by rewrite append_cons, <- Hs.
    + exists 0. split; [reflexivity|]. cbn. exact E.
Qed.

(** [rstrip] removes trailing copies of the character, and only those. *)
Lemma rstrip_spec c s :
  ∃ k, s = PyStr.rstrip c s +:+ chars c k
       ∧ ends_with c (PyStr.rstrip c s) = false.
Proof.
  unfold PyStr.rstrip, ends_with.
  destruct (lstrip_spec c (String.rev s)) as (k & Hs & Hk).
  exists k. split.
  - apply (f_equal String.rev) in Hs.
    rewrite rev_involutive, rev_append, rev_chars in Hs. exact Hs.
  - by rewrite rev_involutive.
Qed.

Lemma split_nonempty c s : PyStr.split c s ≠ [].
Proof.
  destruct s as [|a s]; cbn; [done|].
  destruct (Ascii.eqb a c); [done|]. by destruct (PyStr.split c s).
Qed.

(** Joining the parts of a split gives the string back. *)
Lemma join_split s : PyStr.join "/" (PyStr.split slash s) = s.
Proof.
  unfold PyStr.join. induction s as [|a s IH]; [reflexivity|].
  cbn [PyStr.split]. destruct (Ascii.eqb a slash) eqn:E.
  - apply ascii_eqb_eq in E as ->.
    pose proof (split_nonempty slash s) as Hne.
    destruct (PyStr.split slash s) as [|p ps]; [done|].
    cbn [String.concat] in *. by rewrite IH.
  - destruct (PyStr.split slash s) as [|p ps] eqn:Es;
      [by apply split_nonempty in Es|].
    destruct ps as [|q qs]; cbn [String.concat] in *.
    + by rewrite IH.
    + rewrite <- IH. reflexivity.
Qed.

(** No part of a split contains the separator. *)
Lemma split_parts c s :
  Forall (λ p, contains c p = false) (PyStr.split c s).
Proof.
  induction s as [|a s IH]; cbn [PyStr.split]; [by repeat constructor|].
  destruct (Ascii.eqb a c) eqn:E; [by constructor|].
  destruct (PyStr.split c s) as [|p ps]; [by repeat constructor; cbn; rewrite E|].
  apply Forall_cons in IH as [Hp Hps]. constructor; [|done].
  cbn. by rewrite E, Hp.
Qed.

(** ** The upload target *)

(** X1: the parts of a URL path, joined again with slashes, are the path
    without its leading and trailing slashes, and no part contains a
    slash: splitting loses nothing but the outer slashes. *)
Theorem path_parts_rejoin (path : string) :
  ∃ k k',
    path = chars slash k +:+ PyStr.join "/" (path_parts path) +:+ chars slash k'
    ∧ Forall (λ p, contains slash p = false) (path_parts path).
Proof.
  unfold path_parts, PyStr.strip. rewrite join_split.
  destruct (lstrip_spec slash path) as (k & Hl & _).
  destruct (rstrip_spec slash (PyStr.lstrip slash path)) as (k' & Hr & _).
  exists k, k'. split; [|apply split_parts].
  by rewrite <- Hr.
Qed.

(** X2: the key prefix ends with exactly one slash. *)
Theorem key_prefix_one_trailing_slash (parts : list string) :
  ∃ stem, key_prefix parts = stem +:+ "/" ∧ ends_with slash stem = false.
Proof.
  unfold key_prefix.
  destruct (rstrip_spec slash (PyStr.join "/" (drop 5 parts))) as (k & _ & Hk).
  eauto.
Qed.

(** X3: a URL path of at most five parts has no prefix: the key prefix is
    a lone slash, so object keys start with a slash. *)
Theorem key_prefix_of_short_path (parts : list string) :
  length parts ≤ 5 → key_prefix parts = "/".
Proof.
  intros Hlen. unfold key_prefix. by rewrite drop_ge.
Qed.

(** ** SimpleProgress with a non-zero total *)

(** The increments of a transfer that the tracker survives: one
    progress line for every running total. *)
Lemma feed_ok w p ds h ps p' :
  Thr.run (Progress.feed w p ds) h = (ps, Ok p') →
  ps = (λ u, EvProgress (filename p) u (total p)) <$> running (uploaded p) ds.
Proof.
  revert p h ps. induction ds as [|d ds IH]; intros p h ps; cbn [Progress.feed].
  - by intros [= <- _].
  - rewrite thr_run_bind, run_bind, call_run.
    destruct (total p =? 0)%Z; [discriminate|].
    destruct (true_div_overflows _ _); [discriminate|].
    destruct (sys_stdout w h _); [|discriminate].
    match goal with |- context [Thr.run (Progress.feed w ?q ds) ?h'] =>
      destruct (Thr.run (Progress.feed w q ds) h') as [ps' [q'|e]] eqn:E end;
      [|discriminate].
    intros [= <- <-]. apply IH in E as ->. reflexivity.
Qed.

Lemma feed_running w p ds h :
  total p ≠ 0%Z →
  Forall (λ u, true_div_overflows u (total p) = false) (running (uploaded p) ds) →
  (∀ h' u, sys_stdout w h' (EvProgress (filename p) u (total p)) = Ok tt) →
  Thr.run (Progress.feed w p ds) h =
    ((λ u, EvProgress (filename p) u (total p)) <$> running (uploaded p) ds,
     Ok {| total := total p;
           uploaded := (uploaded p + foldr Z.add 0 ds)%Z;
           filename := filename p |}).
Proof.
  intros Ht Hov Hout. revert p h Ht Hov Hout.
  induction ds as [|d ds IH]; intros p h Ht Hov Hout.
  - cbn. rewrite Z.add_0_r. by destruct p.
  - cbn [Progress.feed]. rewrite thr_run_bind, run_bind, call_run.
    apply Z.eqb_neq in Ht as Ht'. rewrite Ht'.
    cbn [running] in Hov. apply Forall_cons in Hov as [Hov1 Hov].
    rewrite Hov1, Hout.
    rewrite IH by done.
    cbn [total uploaded filename running fmap list_fmap foldr app].
    by rewrite Z.add_assoc.
Qed.

(** X4: a tracker whose total is not zero does not raise as long as the
    quotients stay in the range of a float and the standard output
    takes its lines: every increment adds its delta to the uploaded
    bytes and prints one progress line with the new running total over
    the unchanged total. *)
Theorem progress_accumulates w p ds h :
  total p ≠ 0%Z →
  Forall (λ u, true_div_overflows u (total p) = false) (running (uploaded p) ds) →
  (∀ h' u, sys_stdout w h' (EvProgress (filename p) u (total p)) = Ok tt) →
  Thr.run (Progress.feed w p ds) h =
    ((λ u, EvProgress (filename p) u (total p)) <$> running (uploaded p) ds,
     Ok {| total := total p;
           uploaded := (uploaded p + foldr Z.add 0 ds)%Z;
           filename := filename p |}).
Proof. apply feed_running. Qed.

(** ** The worker, case by case *)

(** X6: a result that reports success is an upload that took place: the
    file was there, the transport call returned a response, every
    progress callback and the OK line were printed, and the etag of the
    result is the one of the response. *)
Theorem upload_one_success w ns b fp o h d r :
  Thr.run (upload_one w ns b fp o) h = (d, Ok r) →
  r !! "success" = Some (VBool true) →
  ∃ st response_headers,
    os_stat w h fp = Ok st
    ∧ tr_outcome (oci_upload_file w h ns b o fp (2 * MEBIBYTE))
      = Ok response_headers
    ∧ d = EvUpload ns b o fp (2 * MEBIBYTE)
          :: ((λ u, EvProgress (path_basename w fp) u (st_size st))
                <$> running 0 (tr_callbacks
                                 (oci_upload_file w h ns b o fp (2 * MEBIBYTE))))
          ++ [done_event w fp true]
    ∧ r = worker_dict w fp true "etag" (dict_get response_headers "etag" VNone).
Proof.
  rewrite upload_one_run.
  assert (∀ e d',
    handled w fp e d' h = (d, Ok r) → r !! "success" = Some (VBool true) → False)
    as Hh.
  { intros e d'. unfold handled. destruct (sys_stdout w (h ++ d') _); [|done].
    intros [= _ <-]. by rewrite worker_dict_success. }
  destruct (os_stat w h fp) as [st|e]; [|intros H1 H2; by destruct (Hh _ _ H1 H2)].
  rewrite upload_file_run. cbv zeta.
  destruct (Thr.run (Progress.feed _ _ _) _) as [ps [p'|e]] eqn:Ef;
    [|intros H1 H2; by destruct (Hh _ _ H1 H2)].
  destruct (tr_outcome _) as [hd|e] eqn:Ho; [|intros H1 H2; by destruct (Hh _ _ H1 H2)].
  destruct (sys_stdout w _ (done_event w fp true)); [|intros H1 H2; by destruct (Hh _ _ H1 H2)].
  intros [= <- <-] _. apply feed_ok in Ef as ->.
  exists st, hd. by split_and!.
Qed.

(** ** Whole sessions *)

(** On a standard output that takes every line, a session completes. *)
Lemma upload_session_completes w url lp sched h ns b prefix :
  oci w = true → parse_target w url = Ok (ns, b, prefix) → stdout_open w →
  ∃ d rs, upload_session w url lp sched h = (d, Ok rs).
Proof.
  intros Ho Hp Hopen. destruct (os_path_isdir w h lp) eqn:Hd.
  - destruct (executor_run 4 report_failure report_lines report_failure_run
                ltac:(lia) (λ _, True) (λ (_ : nat) r, is_ok r)
                (λ _ : event, @None unit) ltac:(done) sched
                ((λ fp, upload_one w ns b fp
                          (object_name_in_dir w prefix lp fp))
                   <$> walk_files w (os_walk w h lp))
                (h ++ [uploading_line (length (walk_files w (os_walk w h lp)))
                         ns b prefix]))
      as (d2 & p2 & E2 & Hinv2 & _).
    { intros i t Hi. apply list_elem_of_lookup_2, list_elem_of_fmap in Hi
        as (fp & -> & _).
      split.
      - eapply emits_weaken; [|apply upload_one_emits]. done.
      - by apply upload_one_returns_ok. }
    destruct Hinv2 as (_ & _ & _ & _ & _ & _ & _ & Hrs).
    destruct (raised p2) as [e|] eqn:Hr2.
    { destruct (Hrs e eq_refl) as (i & _ & []). }
    revert E2. unfold upload_session, parse_target in *.
    rewrite Ho. cbn [negb]. run1.
    destruct (urlparse_path w url) as [path|e1]; [|cbn in Hp; congruence].
    run1.
    destruct (py_index (path_parts path) 1) as [ns'|e1]; [|cbn in Hp; congruence].
    run1.
    destruct (py_index (path_parts path) 3) as [b'|e1]; [|cbn in Hp; congruence].
    injection Hp as -> -> <-.
    run1. unfold isdir. cbn [ask app]. rewrite !app_nil_r, Hd.
    run1. run1. cbn [app]. rewrite !app_nil_r.
    unfold uploading_line. intros ->. by eexists _, _.
  - destruct (upload_session_single w url lp sched h ns b prefix Ho Hp Hd)
      as [Hs _].
    destruct (upload_one_total w ns b lp (prefix +:+ path_basename w lp) h)
      as (dw & success & k & v & E & _); [by intros|].
    rewrite E in Hs. destruct Hs as (? & ? & ? & _ & _ & ->). by eexists _, _.
Qed.

(** X7: on a standard output that takes every line, per-file failures
    never abort a session: once the SDK is present and the URL parses,
    [upload_files] returns None, whatever the filesystem, the transport
    and the schedule of the pool do. *)
Theorem upload_files_completes w url lp sched h target :
  oci w = true →
  parse_target w url = Ok target →
  stdout_open w →
  ∃ d, upload_files w url lp sched h = (d, Ok VNone).
Proof.
  destruct target as [[ns b] prefix]. intros Ho Hp Hopen.
  rewrite upload_files_session.
  destruct (upload_session_completes w url lp sched h ns b prefix Ho Hp Hopen)
    as (d & rs & ->).
  by eexists.
Qed.

(** a pool without calls does nothing *)
Lemma pool_run_empty {A} max_workers (body : A → M unit) sched h :
  pool_run max_workers body sched (submitted []) h = ([], submitted []).
Proof.
  revert h. induction sched as [|c sched IH]; intros h; [reflexivity|].
  cbn [pool_run].
  assert (pool_step max_workers body c (submitted []) h = ([], submitted []))
    as ->.
  { destruct c as [i|i|i]; cbn [pool_step].
    - unfold work, can_start. cbn [submitted started calls length].
      by rewrite andb_false_r.
    - unfold finish, can_start. cbn [submitted started calls length].
      by rewrite andb_false_r.
    - unfold take_result. cbn [submitted raised taken started].
      by rewrite orb_true_r. }
  by rewrite IH.
Qed.

(** X8: a directory without files is announced and nothing else happens:
    the only event is the line "Uploading 0 files to ...". *)
Theorem upload_empty_directory w url lp sched h ns b prefix :
  oci w = true →
  parse_target w url = Ok (ns, b, prefix) →
  os_path_isdir w h lp = true →
  walk_files w (os_walk w h lp) = [] →
  upload_files w url lp sched h = ([uploading_line 0 ns b prefix], Ok VNone).
Proof.
  intros Ho Hp Hd Hnil. unfold upload_files, parse_target in *.
  rewrite Ho. cbn [negb]. run1.
  destruct (urlparse_path w url) as [path|e1]; [|cbn in Hp; congruence].
  run1.
  destruct (py_index (path_parts path) 1) as [ns'|e1]; [|cbn in Hp; congruence].
  run1.
  destruct (py_index (path_parts path) 3) as [b'|e1]; [|cbn in Hp; congruence].
  injection Hp as -> -> <-.
  run1. unfold isdir. cbn [ask app]. rewrite !app_nil_r, Hd.
  run1. run1. cbn [app]. rewrite !app_nil_r, Hnil.
  run1. unfold executor. cbn [fmap list_fmap length remaining seq app].
  rewrite app_nil_r, pool_run_empty. reflexivity.
Qed.

Lemma session_event_no_http w ns b prefix lp h ev r :
  session_event w ns b prefix lp h ev → ev ≠ EvHttp r.
Proof.
  intros [(lvl & msg & ->) | Hev]; [done|].
  assert (∀ o fp, worker_event w ns b o fp ev → ev ≠ EvHttp r) as Hw.
  { intros o fp [-> | [Hp | [x ->]]]; [done | | done]. by destruct ev. }
  destruct (os_path_isdir w h lp); [|by eapply Hw].
  destruct Hev as (fp & _ & Hev). by eapply Hw.
Qed.

(** [upload_files] makes no control-plane request. *)
Lemma upload_files_no_http w url lp sched h :
  http_requests (upload_files w url lp sched h).1 = [].
Proof.
  destruct (oci w) eqn:Ho.
  2:{ by rewrite upload_files_session, upload_session_no_oci. }
  destruct (parse_target w url) as [[[ns b] prefix]|e] eqn:Hp.
  2:{ by rewrite upload_files_session,
        (upload_session_parse_error w url lp sched h e Ho Hp). }
  pose proof (upload_files_events w url lp sched h ns b prefix Ho Hp) as Hev.
  induction Hev as [|ev d Hev _ IH]; [reflexivity|].
  unfold http_requests in *. cbn [omap list_omap]. rewrite IH.
  destruct ev; try done. by eapply session_event_no_http in Hev.
Qed.

(** ** The control plane, call by call *)



(** ** [run_batch], stage by stage *)

(** X11: when the create response lacks "object_storage_url" or
    "batch_id", [run_batch] raises the lookup error right after the
    create call: nothing is uploaded and the batch is not started. *)
Theorem run_batch_missing_key w self alg ip name sched h d1 info e :
  init_batch w self name alg (h ++ [log1]) = (d1, Ok info) →
  py_getitem info "object_storage_url" = Raise e
  ∨ (∃ url, py_getitem info "object_storage_url" = Ok url)
    ∧ py_getitem info "batch_id" = Raise e →
  run_batch w self alg ip name sched h = (log1 :: d1, Raise e).
Proof.
  intros E [Hu | [[url Hu] Hi]]; rewrite run_batch_run, E, Hu; [done|].
  by rewrite Hi.
Qed.

(** X12: [run_batch] starts the batch whenever [upload_files] returns,
    and [upload_files] returns also when uploads failed: the start
    request is made whatever the upload logged. *)
Theorem run_batch_starts_after_upload w self alg ip name sched h d1 info url id d2 u :
  init_batch w self name alg (h ++ [log1]) = (d1, Ok info) →
  py_getitem info "object_storage_url" = Ok url →
  py_getitem info "batch_id" = Ok id →
  upload_files w url ip sched (h ++ log1 :: d1 ++ [log2]) = (d2, Ok u) →
  EvHttp (start_request self id) ∈ (run_batch w self alg ip name sched h).1.
Proof.
  intros E Hu Hi Eu. rewrite run_batch_run, E, Hu, Hi, Eu.
  assert (∀ hh, EvHttp (start_request self id) ∈ (start_batch w self id hh).1)
    as Hstart.
  { intros hh. unfold start_batch. rewrite api_call_run.
    destruct (http_json _ _ _) as [?|e']; [by left|].
    destruct (is_request_exception e'); by left. }
  specialize (Hstart (h ++ log1 :: d1 ++ log2 :: d2 ++ [log3])).
  destruct (start_batch _ _ _ _) as [d3 [sr|e']]; cbn [fst] in *.
  - destruct (get_batch_status _ _ _ _) as [d4 [st|e']]; cbn [fst];
      rewrite elem_of_cons, elem_of_app, elem_of_cons, elem_of_app,
        elem_of_cons, elem_of_app; auto 10.
  - rewrite elem_of_cons, elem_of_app, elem_of_cons, elem_of_app,
      elem_of_cons; auto 10.
Qed.

Lemma http_requests_app d1 d2 :
  http_requests (d1 ++ d2) = http_requests d1 ++ http_requests d2.
Proof. apply omap_app. Qed.

(** X13: a run of [run_batch] that returns has made exactly three
    control-plane requests, create, start and status in this order, the
    last two for the batch id of the create response, with the upload
    between the first two; it returns that batch id, the answer of the
    server to the start request and its answer to the status request. *)
Theorem run_batch_summary w self alg ip name sched h d v :
  run_batch w self alg ip name sched h = (d, Ok v) →
  ∃ info url id d2 start_response status,
    let create := EvHttp (create_request self name alg) in
    let start := EvHttp (start_request self id) in
    let status_call := EvHttp (status_request self id) in
    http_json w (h ++ [log1]) (create_request self name alg) = Ok info
    ∧ py_getitem info "object_storage_url" = Ok url
    ∧ py_getitem info "batch_id" = Ok id
    ∧ upload_files w url ip sched (h ++ [log1; create; log2]) = (d2, Ok VNone)
    ∧ http_json w (h ++ [log1; create; log2] ++ d2 ++ [log3])
        (start_request self id) = Ok start_response
    ∧ http_json w (h ++ [log1; create; log2] ++ d2 ++ [log3; start; log4])
        (status_request self id) = Ok status
    ∧ d = [log1; create; log2] ++ d2 ++ [log3; start; log4; status_call]
    ∧ http_requests d = [create_request self name alg;
                         start_request self id;
                         status_request self id]
    ∧ v = VDict {[ "batch_id" := id;
                   "start_response" := start_response;
                   "status" := status ]}.
Proof.
  rewrite run_batch_run. unfold init_batch, start_batch, get_batch_status.
  rewrite api_call_run.
  destruct (http_json w (h ++ [log1]) _) as [info|e] eqn:H1.
  2:{ by destruct (is_request_exception e). }
  destruct (py_getitem info "object_storage_url") as [url|e] eqn:Hurl;
    [|discriminate].
  destruct (py_getitem info "batch_id") as [id|e] eqn:Hid; [|discriminate].
  cbn [app].
  pose proof (upload_files_no_http w url ip sched
                (h ++ [log1; EvHttp (create_request self name alg); log2]))
    as H2.
  destruct (upload_files _ _ _ _ _) as [d2 [u|e]] eqn:Hup; [|discriminate].
  assert (u = VNone) as ->.
  { rewrite upload_files_session in Hup.
    destruct (upload_session _ _ _ _ _) as [? [?|?]];
      unfold forget in Hup; cbn in Hup; congruence. }
  rewrite api_call_run.
  destruct (http_json w _ (start_request self id)) as [sr|e] eqn:H3.
  2:{ by destruct (is_request_exception e). }
  rewrite api_call_run.
  destruct (http_json w _ (status_request self id)) as [st|e] eqn:H4.
  2:{ by destruct (is_request_exception e). }
  intros [= <- <-]. exists info, url, id, d2, sr, st. cbv zeta.
  cbn [app fst] in *. split_and!; try done.
  change (log1 :: EvHttp (create_request self name alg) :: log2
            :: d2 ++ [log3; EvHttp (start_request self id); log4;
                      EvHttp (status_request self id)])
    with ([log1; EvHttp (create_request self name alg); log2]
            ++ d2 ++ [log3; EvHttp (start_request self id); log4;
                      EvHttp (status_request self id)]).
  by rewrite !http_requests_app, H2.
Qed.

(** ** Downloads, case by case *)

Lemma write_chunks w lp cs h :
  (∀ h' c, file_write w h' lp c = Ok tt) →
  for_each (λ chunk,
              ask_exc (λ h, file_write w h lp chunk);;
              emit (EvWrite lp chunk)) cs h
  = (EvWrite lp <$> cs, Ok tt).
Proof.
  intros Hw. revert h. induction cs as [|c cs IH]; intros h; [reflexivity|].
  cbn [for_each]. run1. run1. rewrite Hw. cbn [app]. rewrite ?app_nil_r.
  by rewrite IH.
Qed.

Lemma save_stream_run w lp s h :
  file_open_wb w h lp = Ok tt →
  (∀ h' c, file_write w h' lp c = Ok tt) →
  save_stream w lp s h =
    (EvOpen lp :: (EvWrite lp <$> sm_chunks s),
     match sm_broken s with Some e => Raise e | None => Ok tt end).
Proof.
  intros Ho Hw. unfold save_stream. run1. rewrite Ho. run1. cbn [app].
  rewrite app_nil_r. run1. rewrite (write_chunks w lp _ _ Hw).
  destruct (sm_broken s); cbn; by rewrite ?app_nil_r.
Qed.

(** X14: an entry whose stream arrives complete is saved: the file is
    opened once, every chunk is written in order, and the line "Saved
    to ..." is logged. *)
Theorem download_file_saves_stream w par_url out fi h name url s :
  py_getitem fi "name" = Ok (VStr name) →
  urljoin w par_url (VStr name) = Ok url →
  http_stream w (h ++ [downloading (VStr name)]) url = Ok s →
  sm_broken s = None →
  (∀ h', file_open_wb w h' (path_join w out name) = Ok tt) →
  (∀ h' c, file_write w h' (path_join w out name) c = Ok tt) →
  download_file w par_url out fi h =
    ([downloading (VStr name); EvGetStream url; EvOpen (path_join w out name)]
       ++ (EvWrite (path_join w out name) <$> sm_chunks s)
       ++ [saved_to (path_join w out name)],
     Ok tt).
Proof.
  intros Hn Hu Hs Hb Ho Hw. unfold download_file, try_except, join_name.
  rewrite run_bind. cbn [lift]. rewrite Hn.
  rewrite run_bind. cbn [lift]. rewrite Hu.
  rewrite run_bind. cbn [lift].
  rewrite run_bind. cbn [log_info emit]. norm.
  fold (downloading (VStr name)).
  rewrite run_bind. cbn [ask]. rewrite run_bind. cbn [emit].
  rewrite run_bind. cbn [lift]. norm. rewrite Hs.
  rewrite run_bind, (save_stream_run w _ s _ (Ho _) Hw), Hb.
  cbn [log_info emit]. norm. reflexivity.
Qed.

(** X15: an entry whose stream breaks with a RequestException after the
    file was opened leaves a partial file: the chunks received before the
    break are written, the failure is logged, and the loop goes on. *)
Theorem download_file_partial w par_url out fi h name url s e :
  py_getitem fi "name" = Ok (VStr name) →
  urljoin w par_url (VStr name) = Ok url →
  http_stream w (h ++ [downloading (VStr name)]) url = Ok s →
  sm_broken s = Some e →
  is_request_exception e = true →
  (∀ h', file_open_wb w h' (path_join w out name) = Ok tt) →
  (∀ h' c, file_write w h' (path_join w out name) c = Ok tt) →
  download_file w par_url out fi h =
    ([downloading (VStr name); EvGetStream url; EvOpen (path_join w out name)]
       ++ (EvWrite (path_join w out name) <$> sm_chunks s)
       ++ [download_failed (VStr name) e],
     Ok tt).
Proof.
  intros Hn Hu Hs Hb He Ho Hw. unfold download_file, try_except, join_name.
  rewrite run_bind. cbn [lift]. rewrite Hn.
  rewrite run_bind. cbn [lift]. rewrite Hu.
  rewrite run_bind. cbn [lift].
  rewrite run_bind. cbn [log_info emit]. norm.
  fold (downloading (VStr name)).
  rewrite run_bind. cbn [ask]. rewrite run_bind. cbn [emit].
  rewrite run_bind. cbn [lift]. norm. rewrite Hs.
  rewrite run_bind, (save_stream_run w _ s _ (Ho _) Hw), Hb, He.
  cbn [log_error emit]. norm. reflexivity.
Qed.

(** X16: an error that is not a RequestException is not caught: when the
    local file cannot be opened, [download_results]'s loop raises the
    error and the remaining entries are never requested. *)
Theorem download_aborts_on_local_error w par_url out fi rest h name url s e :
  py_getitem fi "name" = Ok (VStr name) →
  urljoin w par_url (VStr name) = Ok url →
  http_stream w (h ++ [downloading (VStr name)]) url = Ok s →
  file_open_wb w (h ++ [downloading (VStr name); EvGetStream url])
    (path_join w out name) = Raise e →
  is_request_exception e = false →
  for_each (download_file w par_url out) (fi :: rest) h =
    ([downloading (VStr name); EvGetStream url], Raise e).
Proof.
  intros Hn Hu Hs Ho He. cbn [for_each]. rewrite run_bind.
  unfold download_file, try_except, join_name.
  rewrite run_bind. cbn [lift]. rewrite Hn.
  rewrite run_bind. cbn [lift]. rewrite Hu.
  rewrite run_bind. cbn [lift].
  rewrite run_bind. cbn [log_info emit]. norm.
  fold (downloading (VStr name)).
  rewrite run_bind. cbn [ask]. rewrite run_bind. cbn [emit].
  rewrite run_bind. cbn [lift]. norm. rewrite Hs.
  rewrite run_bind. unfold save_stream. rewrite run_bind. cbn [ask_exc].
  norm. rewrite Ho, He. reflexivity.
Qed.

Lemma skip_failing_entries w par_url out files h :
  Forall (fetch_fails w par_url) files →
  ∃ d, for_each (download_file w par_url out) files h = (d, Ok tt)
       ∧ Forall (λ ev, touches_file ev = false) d
       ∧ length (error_lines d) = length files.
Proof.
  intros Hall. revert h. induction Hall as [|fi files Hfi _ IH]; intros h.
  - exists []. by repeat split.
  - destruct Hfi as (name & url & e & Hn & Hu & Hs & He).
    cbn [for_each]. rewrite run_bind.
    rewrite (download_file_fetch_failure w par_url out fi h name url e
               Hn Hu (Hs _) He).
    match goal with |- context [for_each _ files ?h'] =>
      destruct (IH h') as (d & -> & Hd & Hlen) end.
    eexists. split; [reflexivity|]. split.
    + by repeat constructor.
    + cbn. by rewrite <- Hlen.
Qed.

(** X17: when the request of every listed file fails with a
    RequestException, [download_results] still returns None: it creates
    the output directory, logs one error per entry, and opens or writes
    no file.  A missing "result_files" key counts as the empty list. *)
Theorem download_results_all_fetches_fail w self batch_id out h d0 results files :
  get_results w self batch_id h = (d0, Ok (VDict results)) →
  truthy (dict_get results "par_url" VNone) = true →
  dict_get results "result_files" (VList []) = VList files →
  os_makedirs w (h ++ d0) out = Ok tt →
  Forall (fetch_fails w (dict_get results "par_url" VNone)) files →
  ∃ d, download_results w self batch_id out h
         = (d0 ++ EvMakedirs out :: d, Ok VNone)
       ∧ Forall (λ ev, touches_file ev = false) d
       ∧ length (error_lines d) = length files.
Proof.
  intros E Hp Hf Hm Hall. unfold download_results.
  rewrite run_bind, E. unfold py_get.
  rewrite run_bind. cbn [lift]. rewrite run_bind. cbn [lift].
  rewrite Hp. cbn [negb].
  rewrite run_bind. cbn [ask_exc]. norm. rewrite Hm.
  rewrite run_bind. cbn [emit]. rewrite run_bind. cbn [lift].
  rewrite Hf. cbn [py_iter]. rewrite run_bind.
  match goal with |- context [for_each _ files ?h'] =>
    destruct (skip_failing_entries w (dict_get results "par_url" VNone) out
                files h' Hall) as (d & -> & Hd & Hlen) end.
  exists d. split; [|done]. cbn [mret M_ret]. by norm.
Qed.

(** ** The constructor *)

Lemma truthy_str u : u ≠ "" → truthy (VStr u) = true.
Proof. intros Hu. cbn [truthy]. apply String.eqb_neq in Hu. by rewrite Hu. Qed.

Lemma truthy_opt_str x : truthy (opt_str x) = negb (blank x).
Proof. by destruct x. Qed.

(** X18: without a configuration file, a missing or empty base URL or
    token makes the constructor raise ValueError, whatever the other
    arguments and the state of the SDK. *)
Theorem init_requires_credentials host oci_present base_url apitoken
    oci_config api_path oci_path profile :
  isfile host (or_else api_path (expanduser host "~/.forestsens/config.json"))
    = false →
  blank base_url || blank apitoken = true →
  init host oci_present base_url apitoken oci_config api_path oci_path profile
    = Raise credentials_error.
Proof.
  intros Hf Hb. unfold init. cbv zeta. rewrite Hf. cbn [and_then fst snd].
  rewrite !truthy_opt_str, !negb_involutive, Hb. reflexivity.
Qed.

(** X19: every constructed client has a base URL without trailing slash
    and a truthy token, which is the token its headers carry. *)
Theorem init_invariants host oci_present base_url apitoken
    oci_config api_path oci_path profile i :
  init host oci_present base_url apitoken oci_config api_path oci_path profile
    = Ok i →
  ends_with slash (inst_base_url i) = false
  ∧ truthy (inst_apitoken i) = true
  ∧ inst_headers i !! "apitoken" = Some (inst_apitoken i).
Proof.
  unfold init, and_then, rstrip_slashes. cbv zeta. intros H.
  repeat case_match; simplify_eq; cbn [inst_base_url inst_apitoken inst_headers];
    (split_and!;
     [ by destruct (rstrip_spec slash s) as (? & _ & ?)
     | match goal with
       | H : negb _ || negb _ = false |- _ =>
           apply orb_false_elim in H as [_ H]; by apply negb_false_iff in H
       end
     | by rewrite lookup_insert_eq ]).
Qed.

Lemma lstrip_chars c k : PyStr.lstrip c (chars c k) = "".
Proof.
  induction k as [|k IH]; [reflexivity|].
  cbn [chars PyStr.lstrip]. by rewrite Ascii.eqb_refl.
Qed.

Lemma rstrip_chars c k : PyStr.rstrip c (chars c k) = "".
Proof. unfold PyStr.rstrip. by rewrite rev_chars, lstrip_chars. Qed.

(** X20: a base URL made of slashes only passes the validation, since it
    is not empty, and leaves the client (built without the SDK, where
    the constructor ends there) with an empty base URL. *)
Theorem init_slash_only_base_url host k token oci_config api_path oci_path profile :
  isfile host (or_else api_path (expanduser host "~/.forestsens/config.json"))
    = false →
  token ≠ "" →
  init host false (Some (chars slash (S k))) (Some token) oci_config
       api_path oci_path profile
  = Ok {| inst_base_url := "";
          inst_apitoken := VStr token;
          inst_headers := {[ "apitoken" := VStr token;
                             "Content-Type" := VStr "application/json" ]};
          inst_oci_config := None |}.
Proof.
  intros Hf Ht. unfold init. cbv zeta. rewrite Hf.
  cbn [and_then fst snd opt_str truthy chars String.eqb negb orb].
  apply String.eqb_neq in Ht. rewrite Ht.
  cbn [negb orb rstrip_slashes and_then].
  change (String slash (chars slash k)) with (chars slash (S k)).
  by rewrite rstrip_chars.
Qed.

(** X21: a configuration file that has both keys wins over the arguments:
    the constructor behaves the same whatever base URL and token are
    passed, and without the SDK the client has the file's values. *)
Theorem init_config_file_wins host cfg u t oci_present base_url apitoken
    oci_config api_path oci_path profile :
  isfile host (or_else api_path (expanduser host "~/.forestsens/config.json"))
    = true →
  load_json host (or_else api_path (expanduser host "~/.forestsens/config.json"))
    = Ok (VDict cfg) →
  cfg !! "base_url" = Some (VStr u) →
  cfg !! "apitoken" = Some (VStr t) →
  u ≠ "" → t ≠ "" →
  init host oci_present base_url apitoken oci_config api_path oci_path profile
    = init host oci_present None None oci_config api_path oci_path profile
  ∧ init host false base_url apitoken oci_config api_path oci_path profile
    = Ok {| inst_base_url := PyStr.rstrip slash u;
            inst_apitoken := VStr t;
            inst_headers := {[ "apitoken" := VStr t;
                               "Content-Type" := VStr "application/json" ]};
            inst_oci_config := None |}.
Proof.
  intros Hf Hl Hu Ht Hune Htne. unfold init. cbv zeta. rewrite Hf, Hl.
  cbn [and_then py_get]. unfold dict_get. rewrite Hu, Ht.
  cbn [and_then default fst snd id].
  rewrite !truthy_str by done. done.
Qed.

(** ** More scenarios *)

Section MoreScenarios.
Import Scenario Cases.

Lemma key_prefix_of_short_path_witness :
  length ["n"; "ns"; "b"; "bucket"] ≤ 5
  ∧ key_prefix ["n"; "ns"; "b"; "bucket"] = "/".
Proof.
  split; [cbn; lia|].
  apply (key_prefix_of_short_path ["n"; "ns"; "b"; "bucket"]). cbn; lia.
Defined.

Lemma progress_accumulates_witness :
  total (Progress.init 10 "a.txt") ≠ 0%Z
  ∧ Forall (λ u, true_div_overflows u (total (Progress.init 10 "a.txt")) = false)
      (running (uploaded (Progress.init 10 "a.txt")) [5; 5]%Z)
  ∧ (∀ h' u, sys_stdout one_file h'
               (EvProgress (filename (Progress.init 10 "a.txt")) u
                  (total (Progress.init 10 "a.txt"))) = Ok tt)
  ∧ Thr.run (Progress.feed one_file (Progress.init 10 "a.txt") [5; 5]%Z) [] =
      ((λ u, EvProgress (filename (Progress.init 10 "a.txt")) u
               (total (Progress.init 10 "a.txt")))
         <$> running (uploaded (Progress.init 10 "a.txt")) [5; 5]%Z,
       Ok {| total := total (Progress.init 10 "a.txt");
             uploaded := (uploaded (Progress.init 10 "a.txt")
                          + foldr Z.add 0 [5; 5])%Z;
             filename := filename (Progress.init 10 "a.txt") |}).
Proof.
  assert (Forall (λ u, true_div_overflows u (total (Progress.init 10 "a.txt"))
                       = false)
            (running (uploaded (Progress.init 10 "a.txt")) [5; 5]%Z)) as Hov
    by (repeat constructor).
  split; [done|]. split; [exact Hov|]. split; [done|].
  apply (progress_accumulates one_file (Progress.init 10 "a.txt") [5; 5]%Z []);
    [done | exact Hov | done].
Defined.

Lemma upload_one_success_witness :
  Thr.run (upload_one one_file "ns" "bucket" "a.txt" "prefix/a.txt") []
    = ([EvUpload "ns" "bucket" "prefix/a.txt" "a.txt" (2 * MEBIBYTE);
        EvProgress "a.txt" 5 10; EvProgress "a.txt" 10 10;
        done_event one_file "a.txt" true],
       Ok (worker_dict one_file "a.txt" true "etag" (VStr "etag-1")))
  ∧ worker_dict one_file "a.txt" true "etag" (VStr "etag-1") !! "success"
    = Some (VBool true)
  ∧ ∃ st response_headers,
      os_stat one_file [] "a.txt" = Ok st
      ∧ tr_outcome (oci_upload_file one_file [] "ns" "bucket" "prefix/a.txt"
                      "a.txt" (2 * MEBIBYTE)) = Ok response_headers
      ∧ [EvUpload "ns" "bucket" "prefix/a.txt" "a.txt" (2 * MEBIBYTE);
         EvProgress "a.txt" 5 10; EvProgress "a.txt" 10 10;
         done_event one_file "a.txt" true]
        = EvUpload "ns" "bucket" "prefix/a.txt" "a.txt" (2 * MEBIBYTE)
          :: ((λ u, EvProgress (path_basename one_file "a.txt") u (st_size st))
                <$> running 0
                      (tr_callbacks
                         (oci_upload_file one_file [] "ns" "bucket"
                            "prefix/a.txt" "a.txt" (2 * MEBIBYTE))))
          ++ [done_event one_file "a.txt" true]
      ∧ worker_dict one_file "a.txt" true "etag" (VStr "etag-1")
        = worker_dict one_file "a.txt" true "etag"
            (dict_get response_headers "etag" VNone).
Proof.
  split; [vm_compute; reflexivity|]. split; [apply worker_dict_success|].
  apply (upload_one_success one_file "ns" "bucket" "a.txt" "prefix/a.txt" []);
    [vm_compute; reflexivity | apply worker_dict_success].
Defined.

Lemma upload_files_completes_witness :
  oci one_file_broken = true
  ∧ parse_target one_file_broken target_url = Ok ("ns", "bucket", "prefix/")
  ∧ stdout_open one_file_broken
  ∧ ∃ d, upload_files one_file_broken target_url "a.txt" [] [] = (d, Ok VNone).
Proof.
  split; [reflexivity|]. split; [vm_compute; reflexivity|].
  split; [by intros h line|].
  apply (upload_files_completes one_file_broken target_url "a.txt" [] []
           ("ns", "bucket", "prefix/"));
    [reflexivity | vm_compute; reflexivity | by intros h line].
Defined.

Lemma upload_empty_directory_witness :
  oci bare_dir = true
  ∧ parse_target bare_dir target_url = Ok ("ns", "bucket", "prefix/")
  ∧ os_path_isdir bare_dir [] "D" = true
  ∧ walk_files bare_dir (os_walk bare_dir [] "D") = []
  ∧ upload_files bare_dir target_url "D" [] []
    = ([uploading_line 0 "ns" "bucket" "prefix/"], Ok VNone).
Proof.
  split; [reflexivity|]. split; [vm_compute; reflexivity|].
  split; [reflexivity|]. split; [reflexivity|].
  apply (upload_empty_directory bare_dir target_url "D" [] []
           "ns" "bucket" "prefix/");
    [reflexivity | vm_compute; reflexivity | reflexivity | reflexivity].
Defined.

Lemma run_batch_missing_key_witness :
  init_batch service_without_url client (Some "job") 26 ([] ++ [log1])
    = ([EvHttp (create_request client (Some "job") 26)],
       Ok (VDict {[ "batch_id" := VInt 7 ]}))
  ∧ py_getitem (VDict {[ "batch_id" := VInt 7 ]}) "object_storage_url"
    = Raise (Exn KeyError "'object_storage_url'")
  ∧ run_batch service_without_url client 26 "a.txt" (Some "job") [] []
    = (log1 :: [EvHttp (create_request client (Some "job") 26)],
       Raise (Exn KeyError "'object_storage_url'")).
Proof.
  split; [vm_compute; reflexivity|]. split; [vm_compute; reflexivity|].
  apply (run_batch_missing_key service_without_url client 26 "a.txt"
           (Some "job") [] [] _ (VDict {[ "batch_id" := VInt 7 ]}));
    [vm_compute; reflexivity | left; vm_compute; reflexivity].
Defined.

Lemma run_batch_starts_after_upload_witness :
  init_batch service_broken client (Some "job") 26 ([] ++ [log1])
    = ([EvHttp (create_request client (Some "job") 26)],
       Ok (VDict {[ "object_storage_url" := target_url; "batch_id" := VInt 7 ]}))
  ∧ upload_files service_broken target_url "a.txt" []
      ([] ++ log1 :: [EvHttp (create_request client (Some "job") 26)] ++ [log2])
    = (broken_a, Ok VNone)
  ∧ error_lines broken_a ≠ []
  ∧ EvHttp (start_request client (VInt 7))
    ∈ (run_batch service_broken client 26 "a.txt" (Some "job") [] []).1.
Proof.
  split; [vm_compute; reflexivity|]. split; [vm_compute; reflexivity|].
  split; [done|].
  apply (run_batch_starts_after_upload service_broken client 26 "a.txt"
           (Some "job") [] []
           [EvHttp (create_request client (Some "job") 26)]
           (VDict {[ "object_storage_url" := target_url; "batch_id" := VInt 7 ]})
           target_url (VInt 7) broken_a VNone);
    vm_compute; reflexivity.
Defined.

Lemma run_batch_summary_witness :
  run_batch (service target_url) client 26 "a.txt" (Some "job") [] []
    = ((run_batch (service target_url) client 26 "a.txt" (Some "job") [] []).1,
       Ok (VDict {[ "batch_id" := VInt 7;
                    "start_response" := VDict {[ "started" := VBool true ]};
                    "status" := VDict {[ "status" := VStr "running" ]} ]}))
  ∧ ∃ info url id d2 start_response status,
      let create := EvHttp (create_request client (Some "job") 26) in
      let start := EvHttp (start_request client id) in
      let status_call := EvHttp (status_request client id) in
      http_json (service target_url) ([] ++ [log1])
        (create_request client (Some "job") 26) = Ok info
      ∧ py_getitem info "object_storage_url" = Ok url
      ∧ py_getitem info "batch_id" = Ok id
      ∧ upload_files (service target_url) url "a.txt" []
          ([] ++ [log1; create; log2]) = (d2, Ok VNone)
      ∧ http_json (service target_url)
          ([] ++ [log1; create; log2] ++ d2 ++ [log3])
          (start_request client id) = Ok start_response
      ∧ http_json (service target_url)
          ([] ++ [log1; create; log2] ++ d2 ++ [log3; start; log4])
          (status_request client id) = Ok status
      ∧ (run_batch (service target_url) client 26 "a.txt" (Some "job") [] []).1
        = [log1; create; log2] ++ d2 ++ [log3; start; log4; status_call]
      ∧ http_requests
          (run_batch (service target_url) client 26 "a.txt" (Some "job") [] []).1
        = [create_request client (Some "job") 26;
           start_request client id;
           status_request client id]
      ∧ VDict {[ "batch_id" := VInt 7;
                 "start_response" := VDict {[ "started" := VBool true ]};
                 "status" := VDict {[ "status" := VStr "running" ]} ]}
        = VDict {[ "batch_id" := id;
                   "start_response" := start_response;
                   "status" := status ]}.
Proof.
  split; [vm_compute; reflexivity|].
  apply (run_batch_summary (service target_url) client 26 "a.txt" (Some "job")
           [] []).
  vm_compute; reflexivity.
Defined.

Lemma download_file_saves_stream_witness :
  download_file mirror (VStr "https://par/") "downloads" out_tif [] =
    ([downloading (VStr "out.tif"); EvGetStream "https://par/out.tif";
      EvOpen (path_join mirror "downloads" "out.tif")]
       ++ (EvWrite (path_join mirror "downloads" "out.tif")
             <$> sm_chunks (Stream ["ab"; "cd"] None))
       ++ [saved_to (path_join mirror "downloads" "out.tif")],
     Ok tt)
  ∧ path_join mirror "downloads" "out.tif" = "downloads/out.tif".
Proof.
  split; [|reflexivity].
  apply (download_file_saves_stream mirror (VStr "https://par/") "downloads"
           out_tif [] "out.tif" "https://par/out.tif" (Stream ["ab"; "cd"] None));
    try (vm_compute; reflexivity); by intros.
Defined.

Lemma download_file_partial_witness :
  is_request_exception connection_broken = true
  ∧ download_file flaky_mirror (VStr "https://par/") "downloads" out_tif [] =
      ([downloading (VStr "out.tif"); EvGetStream "https://par/out.tif";
        EvOpen (path_join flaky_mirror "downloads" "out.tif")]
         ++ (EvWrite (path_join flaky_mirror "downloads" "out.tif")
               <$> sm_chunks (Stream ["ab"] (Some connection_broken)))
         ++ [download_failed (VStr "out.tif") connection_broken],
       Ok tt).
Proof.
  split; [reflexivity|].
  apply (download_file_partial flaky_mirror (VStr "https://par/") "downloads"
           out_tif [] "out.tif" "https://par/out.tif"
           (Stream ["ab"] (Some connection_broken)) connection_broken);
    try (vm_compute; reflexivity); by intros.
Defined.

Lemma download_aborts_on_local_error_witness :
  is_request_exception permission_denied = false
  ∧ for_each (download_file read_only_disk (VStr "https://par/") "downloads")
      [out_tif; out_tif] []
    = ([downloading (VStr "out.tif"); EvGetStream "https://par/out.tif"],
       Raise permission_denied).
Proof.
  split; [reflexivity|].
  apply (download_aborts_on_local_error read_only_disk (VStr "https://par/")
           "downloads" out_tif [out_tif] [] "out.tif" "https://par/out.tif"
           (Stream ["ab"; "cd"] None) permission_denied);
    vm_compute; reflexivity.
Defined.

Lemma download_results_all_fetches_fail_witness :
  fetch_fails (service target_url) (VStr "https://par/") out_tif
  ∧ ∃ d, download_results (service target_url) client (VInt 7) "downloads" []
         = ([EvHttp (Request GET [Fmt (VStr "https://api.example");
                                   Lit "/batches/"; Fmt (VInt 7); Lit "/results"]
                       (headers client) ∅ None)]
              ++ EvMakedirs "downloads" :: d, Ok VNone)
         ∧ Forall (λ ev, touches_file ev = false) d
         ∧ length (error_lines d) = length [out_tif].
Proof.
  assert (fetch_fails (service target_url) (VStr "https://par/") out_tif) as Hfail.
  { exists "out.tif", "https://par/out.tif", not_found.
    split_and!; try (vm_compute; reflexivity); by intros. }
  split; [exact Hfail|].
  apply (download_results_all_fetches_fail (service target_url) client (VInt 7)
           "downloads" [] _
           {[ "result_files" := VList [out_tif]; "par_url" := VStr "https://par/" ]}
           [out_tif]);
    try (vm_compute; reflexivity).
  constructor; [|constructor].
  replace (dict_get _ "par_url" VNone) with (VStr "https://par/")
    by (vm_compute; reflexivity).
  exact Hfail.
Defined.

Lemma init_requires_credentials_witness :
  isfile bare_host
    (or_else None (expanduser bare_host "~/.forestsens/config.json")) = false
  ∧ blank None || blank None = true
  ∧ init bare_host false None None None None None "DEFAULT"
    = Raise credentials_error.
Proof.
  split; [reflexivity|]. split; [reflexivity|].
  apply (init_requires_credentials bare_host false None None None None None
           "DEFAULT"); reflexivity.
Defined.

Lemma init_invariants_witness :
  init bare_host false (Some "https://api.example//") (Some "secret")
       None None None "DEFAULT"
    = Ok {| inst_base_url := "https://api.example";
            inst_apitoken := VStr "secret";
            inst_headers := {[ "apitoken" := VStr "secret";
                               "Content-Type" := VStr "application/json" ]};
            inst_oci_config := None |}
  ∧ ends_with slash "https://api.example" = false
  ∧ truthy (VStr "secret") = true.
Proof.
  assert (init bare_host false (Some "https://api.example//") (Some "secret")
               None None None "DEFAULT"
          = Ok {| inst_base_url := "https://api.example";
                  inst_apitoken := VStr "secret";
                  inst_headers := {[ "apitoken" := VStr "secret";
                                     "Content-Type" := VStr "application/json" ]};
                  inst_oci_config := None |}) as E
    by (vm_compute; reflexivity).
  split; [exact E|].
  destruct (init_invariants _ _ _ _ _ _ _ _ _ E) as (H1 & H2 & _).
  split; [exact H1 | exact H2].
Defined.

Lemma init_slash_only_base_url_witness :
  isfile bare_host
    (or_else None (expanduser bare_host "~/.forestsens/config.json")) = false
  ∧ "secret" ≠ ""
  ∧ init bare_host false (Some (chars slash 1)) (Some "secret") None
         None None "DEFAULT"
    = Ok {| inst_base_url := "";
            inst_apitoken := VStr "secret";
            inst_headers := {[ "apitoken" := VStr "secret";
                               "Content-Type" := VStr "application/json" ]};
            inst_oci_config := None |}.
Proof.
  split; [reflexivity|]. split; [done|].
  apply (init_slash_only_base_url bare_host 0 "secret" None None None "DEFAULT");
    [reflexivity | done].
Defined.

Lemma init_config_file_wins_witness :
  init configured_host false (Some "https://other.example") (Some "argument")
       None None None "DEFAULT"
    = init configured_host false None None None None None "DEFAULT"
  ∧ init configured_host false (Some "https://other.example") (Some "argument")
         None None None "DEFAULT"
    = Ok {| inst_base_url := PyStr.rstrip slash "https://api.example/";
            inst_apitoken := VStr "from-file";
            inst_headers := {[ "apitoken" := VStr "from-file";
                               "Content-Type" := VStr "application/json" ]};
            inst_oci_config := None |}.
Proof.
  apply (init_config_file_wins configured_host config_file
           "https://api.example/" "from-file" false
           (Some "https://other.example") (Some "argument")
           None None None "DEFAULT");
    try (vm_compute; reflexivity); done.
Defined.

End MoreScenarios.
